(** * Fraud-detection notebook (starter_code-2.ipynb): a shallow embedding

    The notebook is a straight-line pandas / scikit-learn / imbalanced-learn
    script.  Tables are pandas [DataFrame]s: named, typed columns over a
    range index.  The objects the script mutates in place (the two tables,
    the encoder, the scaler) live in a heap and are passed by reference,
    as Python does.

    What the script leaves to its libraries -- the reading of dates and
    times, the random draws and the neighbour search of SMOTE, the split,
    the statistics of the scaler, the classifier -- is taken as given: the
    theorems hold for every such routine, and stand-ins run the model on
    the examples. *)

From Stdlib Require Import ZArith List String Ascii Bool Lia SpecFloat Sorted.
From stdpp Require Import base tactics option list.

Local Open Scope string_scope.
Local Open Scope Z_scope.

(** ** float64: IEEE 754 binary64, as NumPy computes *)

Module F64.
Definition prec : Z := 53.
Definition emax : Z := 1024.

Definition add : spec_float -> spec_float -> spec_float := SFadd prec emax.
Definition sub : spec_float -> spec_float -> spec_float := SFsub prec emax.
Definition mul : spec_float -> spec_float -> spec_float := SFmul prec emax.
Definition div : spec_float -> spec_float -> spec_float := SFdiv prec emax.
Definition sqrt : spec_float -> spec_float := SFsqrt prec emax.

(** int64 -> float64 conversion (round to nearest even). *)
Definition of_int (z : Z) : spec_float := binary_normalize prec emax z 0 false.

Definition nan : spec_float := S754_nan.
Definition zero : spec_float := S754_zero false.

Definition is_nan (x : spec_float) : bool :=
  match x with S754_nan => true | _ => false end.

(** [np.isfinite]. *)
Definition is_finite (x : spec_float) : bool :=
  match x with S754_zero _ | S754_finite _ _ _ => true | _ => false end.

Definition is_zero (x : spec_float) : bool :=
  match x with S754_zero _ => true | _ => false end.

(** [x >= 0]: false on NaN, true on both zeros. *)
Definition nonneg (x : spec_float) : bool := SFleb zero x.

(** [x == y] on floats: NaN differs from everything, -0.0 == 0.0. *)
Definition eqb (x y : spec_float) : bool := SFeqb x y.

(** A float64 value proper: finite ones are in canonical form. *)
Definition valid (x : spec_float) : bool := valid_binary prec emax x.
End F64.

Abbreviation float64 := spec_float.

(** ** int64: wrap-around arithmetic *)

Definition wrap64 (z : Z) : Z := (z + 2 ^ 63) mod 2 ^ 64 - 2 ^ 63.

Definition int64_range (z : Z) : Prop := - 2 ^ 63 <= z < 2 ^ 63.

(** ** Columns and tables *)

(** A column (pandas [Series]) has one dtype: int64, float64 or object.
    Object columns hold Python strings, which is what [read_csv] yields for
    text fields. *)
Inductive column :=
| IntCol (xs : list Z)
| FloatCol (xs : list float64)
| ObjCol (xs : list string).

Definition col_length (c : column) : nat :=
  match c with
  | IntCol xs => length xs
  | FloatCol xs => length xs
  | ObjCol xs => length xs
  end.

(** A table: the length of its range index and its columns in order. *)
Record DataFrame := mkDataFrame {
  index : nat;
  columns : list (string * column)
}.

Fixpoint col_lookup (name : string) (cols : list (string * column)) : option column :=
  match cols with
  | [] => None
  | (n, c) :: rest => if String.eqb n name then Some c else col_lookup name rest
  end.

(** [df[name] = c] on the column list: an existing column is replaced where
    it stands, a new one is appended. *)
Fixpoint col_set (name : string) (c : column) (cols : list (string * column))
  : list (string * column) :=
  match cols with
  | [] => [(name, c)]
  | (n, c') :: rest =>
      if String.eqb n name then (n, c) :: rest else (n, c') :: col_set name c rest
  end.

Fixpoint col_remove (name : string) (cols : list (string * column))
  : list (string * column) :=
  match cols with
  | [] => []
  | (n, c) :: rest =>
      if String.eqb n name then col_remove name rest else (n, c) :: col_remove name rest
  end.

Definition col_names (cols : list (string * column)) : list string := map fst cols.

(** Every column is as long as the index. *)
Definition frame_wf (df : DataFrame) : Prop :=
  Forall (fun nc => col_length (snd nc) = index df) (columns df).

(** ** Exceptions *)

(** The exceptions pandas and scikit-learn raise on the paths the notebook
    takes.  [NotFittedError] is scikit-learn's; the others are built in. *)
Inductive exn :=
| KeyError (key : string)
| ValueError (msg : string)
| TypeError (msg : string)
| NotFittedError (msg : string).

(** The name of the exception's class. *)
Definition exn_class (e : exn) : string :=
  match e with
  | KeyError _ => "KeyError"
  | ValueError _ => "ValueError"
  | TypeError _ => "TypeError"
  | NotFittedError _ => "NotFittedError"
  end.

Inductive result (A : Type) :=
| Ok (a : A)
| Raise (e : exn).
Arguments Ok {A} a.
Arguments Raise {A} e.

Definition result_bind {A B} (r : result A) (f : A -> result B) : result B :=
  match r with
  | Ok a => f a
  | Raise e => Raise e
  end.

(** ** Element-wise arithmetic on columns (NumPy promotion rules) *)

Definition to_floats (c : column) : result (list float64) :=
  match c with
  | IntCol xs => Ok (map F64.of_int xs)
  | FloatCol xs => Ok xs
  | ObjCol _ => Raise (TypeError "unsupported operand type(s): 'str'")
  end.

(** [a - b]. *)
Definition series_sub (a b : column) : result column :=
  match a, b with
  | IntCol xs, IntCol ys => Ok (IntCol (zip_with (fun x y => wrap64 (x - y)) xs ys))
  | _, _ =>
      result_bind (to_floats a) (fun xs =>
      result_bind (to_floats b) (fun ys =>
      Ok (FloatCol (zip_with F64.sub xs ys))))
  end.

(** [a + b] on numeric columns. *)
Definition series_add (a b : column) : result column :=
  match a, b with
  | IntCol xs, IntCol ys => Ok (IntCol (zip_with (fun x y => wrap64 (x + y)) xs ys))
  | _, _ =>
      result_bind (to_floats a) (fun xs =>
      result_bind (to_floats b) (fun ys =>
      Ok (FloatCol (zip_with F64.add xs ys))))
  end.

(** [a ** 2]. *)
Definition series_square (a : column) : result column :=
  match a with
  | IntCol xs => Ok (IntCol (map (fun x => wrap64 (x * x)) xs))
  | FloatCol xs => Ok (FloatCol (map (fun x => F64.mul x x) xs))
  | ObjCol _ => Raise (TypeError "unsupported operand type(s) for **: 'str' and 'int'")
  end.

(** [np.sqrt(a)]. *)
Definition np_sqrt (a : column) : result column :=
  result_bind (to_floats a) (fun xs => Ok (FloatCol (map F64.sqrt xs))).

(** [a + k] for a Python int [k]. *)
Definition series_add_int (a : column) (k : Z) : result column :=
  match a with
  | IntCol xs => Ok (IntCol (map (fun x => wrap64 (x + k)) xs))
  | FloatCol xs => Ok (FloatCol (map (fun x => F64.add x (F64.of_int k)) xs))
  | ObjCol _ => Raise (TypeError "can only concatenate str (not 'int') to str")
  end.

(** [a / b]: true division, always in float64; dividing by zero gives an
    infinity or NaN and raises nothing. *)
Definition series_truediv (a b : column) : result column :=
  result_bind (to_floats a) (fun xs =>
  result_bind (to_floats b) (fun ys =>
  Ok (FloatCol (zip_with F64.div xs ys)))).

(** ** Dates and times ([pd.to_datetime]) *)

(** The installed pandas: a release before 2.0, or 2.0 and later. *)
Inductive pandas_version := pandas_1 | pandas_2.

(** A timestamp, as far as the notebook reads it: the calendar date and
    the hour of the day. *)
Record datetime := mkDatetime {
  dt_year : Z;
  dt_month : Z;
  dt_day : Z;
  dt_hour : Z
}.

(** [pd.to_datetime(c, format=fmt)] is taken as given.  It raises, or it
    gives every row of [c] a timestamp or NaT ([None]): [to_datetime v fmt
    c] is then the function from the row number to what the row got.
    Which spellings pandas reads, and how, is not in the notebook and
    differs between releases. *)
Class Datetimes :=
  to_datetime : pandas_version -> option string -> column -> result (nat -> option datetime).

Definition is_leap (y : Z) : bool :=
  ((y mod 4 =? 0) && negb (y mod 100 =? 0)) || (y mod 400 =? 0).

Definition days_in_month (y m : Z) : Z :=
  if (m =? 2) then (if is_leap y then 29 else 28)
  else if (m =? 4) || (m =? 6) || (m =? 9) || (m =? 11) then 30
  else 31.

(** Days since 1970-01-01 of a proleptic Gregorian date. *)
Definition days_from_civil (y m d : Z) : Z :=
  let y' := if m <=? 2 then y - 1 else y in
  let era := y' / 400 in
  let yoe := y' - era * 400 in
  let mp := (m + 9) mod 12 in
  let doy := (153 * mp + 2) / 5 + d - 1 in
  let doe := yoe * 365 + yoe / 4 - yoe / 100 + doy in
  era * 146097 + doe - 719468.

(** [.dt.dayofweek]: Monday is 0. *)
Definition dayofweek (y m d : Z) : Z := (days_from_civil y m d + 3) mod 7.

Fixpoint map_result {A B} (f : A -> result B) (xs : list A) : result (list B) :=
  match xs with
  | [] => Ok []
  | x :: rest =>
      result_bind (f x) (fun y =>
      result_bind (map_result f rest) (fun ys => Ok (y :: ys)))
  end.

Definition strings_of (c : column) : result (list string) :=
  match c with
  | ObjCol xs => Ok xs
  | _ => Raise (TypeError "expected a column of strings")
  end.

(** What a [.dt] accessor gives, and what arithmetic makes of it:
    integers, or float64 numbers when a row is missing. *)
Inductive numbers :=
| Ints (xs : list Z)
| Floats (xs : list float64).

Definition column_of (n : numbers) : column :=
  match n with
  | Ints xs => IntCol xs
  | Floats xs => FloatCol xs
  end.

Fixpoint all_present {A} (l : list (option A)) : option (list A) :=
  match l with
  | [] => Some []
  | None :: _ => None
  | Some a :: rest =>
      match all_present rest with
      | Some xs => Some (a :: xs)
      | None => None
      end
  end.

(** [.dt.<field>]: the field of every row; NaN on the rows that are NaT,
    which makes the column float64. *)
Definition dt_field (field : datetime -> Z) (ts : list (option datetime)) : numbers :=
  match all_present ts with
  | Some ds => Ints (map field ds)
  | None =>
      Floats (map (fun t => match t with
                            | Some d => F64.of_int (field d)
                            | None => F64.nan
                            end) ts)
  end.

(** [a - s] for a Python int [a]. *)
Definition int_minus (a : Z) (n : numbers) : numbers :=
  match n with
  | Ints ys => Ints (map (fun y => a - y) ys)
  | Floats ys => Floats (map (fun y => F64.sub (F64.of_int a) y) ys)
  end.

(** The rows of [pd.to_datetime(c, format=fmt)]. *)
Definition converted {dts : Datetimes} (v : pandas_version) (fmt : option string) (c : column)
  : result (list (option datetime)) :=
  result_bind (to_datetime v fmt c) (fun at_row =>
  Ok (map at_row (seq 0 (col_length c)))).

(** [pd.to_datetime(c, format='%H:%M:%S').dt.hour]. *)
Definition to_datetime_hour {dts : Datetimes} (v : pandas_version) (c : column)
  : result column :=
  result_bind (converted v (Some "%H:%M:%S") c) (fun ts =>
  Ok (column_of (dt_field dt_hour ts))).

(** [pd.to_datetime(c).dt.dayofweek]. *)
Definition to_datetime_dayofweek {dts : Datetimes} (v : pandas_version) (c : column)
  : result column :=
  result_bind (converted v None c) (fun ts =>
  Ok (column_of (dt_field (fun d => dayofweek (dt_year d) (dt_month d) (dt_day d)) ts))).

(** [pd.to_datetime(c).dt.year]. *)
Definition to_datetime_year {dts : Datetimes} (v : pandas_version) (c : column)
  : result numbers :=
  result_bind (converted v None c) (fun ts =>
  Ok (dt_field dt_year ts)).

(** ** Grouping: [df.groupby(k)[c].transform(f)] *)

Inductive key :=
| KInt (z : Z)
| KFloat (f : float64)
| KStr (s : string).

Definition key_eqb (a b : key) : bool :=
  match a, b with
  | KInt x, KInt y => Z.eqb x y
  | KFloat x, KFloat y => F64.eqb x y
  | KStr x, KStr y => String.eqb x y
  | _, _ => false
  end.

(** The group key of every row; a missing key (NaN) puts the row in no
    group ([dropna=True]). *)
Definition group_keys (c : column) : list (option key) :=
  match c with
  | IntCol xs => map (fun x => Some (KInt x)) xs
  | FloatCol xs => map (fun x => if F64.is_nan x then None else Some (KFloat x)) xs
  | ObjCol xs => map (fun x => Some (KStr x)) xs
  end.

Definition in_group (k : key) (o : option key) : bool :=
  match o with
  | Some k' => key_eqb k' k
  | None => false
  end.

(** The values of the rows of group [k], in row order. *)
Definition group_of {A} (keys : list (option key)) (vals : list A) (k : key) : list A :=
  map snd (List.filter (fun kv => in_group k (fst kv)) (combine keys vals)).

(** The position of row [i] inside its group [k]. *)
Definition group_rank (keys : list (option key)) (i : nat) (k : key) : nat :=
  length (List.filter (in_group k) (firstn i keys)).

(** [transform]: run [f] on every group and put each result back on the
    row it came from.  Rows without a key get NaN. *)
Definition groupby_transform {A} (f : list A -> list float64)
    (keys : list (option key)) (vals : list A) : list float64 :=
  map (fun i =>
         match nth i keys None with
         | Some k => nth (group_rank keys i k) (f (group_of keys vals k)) F64.nan
         | None => F64.nan
         end)
      (seq 0 (length keys)).

Definition column_groupby_transform (f : column -> list float64)
    (keys : list (option key)) (c : column) : column :=
  match c with
  | IntCol xs => FloatCol (groupby_transform (fun g => f (IntCol g)) keys xs)
  | FloatCol xs => FloatCol (groupby_transform (fun g => f (FloatCol g)) keys xs)
  | ObjCol xs => FloatCol (groupby_transform (fun g => f (ObjCol g)) keys xs)
  end.

(** ** Rolling windows: [x.rolling(window=w).count()] *)

(** [notna]: which entries are observations. *)
Definition notna (c : column) : list bool :=
  match c with
  | IntCol xs => map (fun _ => true) xs
  | FloatCol xs => map (fun x => negb (F64.is_nan x)) xs
  | ObjCol xs => map (fun _ => true) xs
  end.

(** The fixed trailing window ending at row [i]: rows [i-w+1 .. i], cut at
    the start of the series. *)
Definition window_at {A} (w : nat) (xs : list A) (i : nat) : list A :=
  skipn (S i - w) (firstn (S i) xs).

(** [count] is the rolling sum of the [notna] indicator.  A window holding
    fewer than [min_periods] rows yields NaN. *)
Definition rolling_count (w min_periods : nat) (x : column) : list float64 :=
  let obs := notna x in
  map (fun i =>
         let win := window_at w obs i in
         if Nat.ltb (length win) min_periods then F64.nan
         else F64.of_int (Z.of_nat (length (List.filter id win))))
      (seq 0 (length obs)).

(** The source writes [rolling(window=3)] and leaves [min_periods] unset.
    pandas resolves the unset value to the window size; releases before 2.0
    made an exception for [count] and resolved it to 0 there. *)
Definition count_min_periods (v : pandas_version) (w : nat) : nat :=
  match v with
  | pandas_1 => 0%nat
  | pandas_2 => w
  end.

(** ** Group means: [transform('mean')] *)

(** pandas' [group_mean] kernel: Kahan-compensated sum of the observations
    (NaN skipped), divided by their number; NaN for a group without any. *)
Definition kahan_step (acc : nat * float64 * float64) (val : float64)
  : nat * float64 * float64 :=
  let '(nobs, sumx, comp) := acc in
  if F64.is_nan val then acc
  else
    let y := F64.sub val comp in
    let t := F64.add sumx y in
    let c := F64.sub (F64.sub t sumx) y in
    (S nobs, t, if F64.is_nan c then F64.zero else c).

Definition group_mean (vals : list float64) : float64 :=
  let '(nobs, sumx, _) := fold_left kahan_step vals (0%nat, F64.zero, F64.zero) in
  match nobs with
  | O => F64.nan
  | S _ => F64.div sumx (F64.of_int (Z.of_nat nobs))
  end.

Definition transform_mean (keys : list (option key)) (c : column) : result column :=
  result_bind (to_floats c) (fun xs =>
  Ok (FloatCol (groupby_transform (fun g => repeat (group_mean g) (length g)) keys xs))).

(** ** Ordinal encoding
    [OrdinalEncoder(handle_unknown='use_encoded_value', unknown_value=-1)] *)

(** [sorted(set(xs))]: the categories of one column. *)
Fixpoint insert_sorted (s : string) (l : list string) : list string :=
  match l with
  | [] => [s]
  | x :: rest =>
      match String.compare s x with
      | Lt => s :: l
      | Eq => l
      | Gt => x :: insert_sorted s rest
      end
  end.

Definition categories_of (xs : list string) : list string :=
  fold_right insert_sorted [] xs.

Fixpoint index_of (s : string) (l : list string) : option nat :=
  match l with
  | [] => None
  | x :: rest =>
      if String.eqb x s then Some O
      else match index_of s rest with
           | Some i => Some (S i)
           | None => None
           end
  end.

Definition unknown_value : Z := -1.

(** The code of one value: its rank among the fitted categories, or the
    unknown value. *)
Definition encode_value (cats : list string) (s : string) : float64 :=
  match index_of s cats with
  | Some i => F64.of_int (Z.of_nat i)
  | None => F64.of_int unknown_value
  end.

(** ** The Python heap and the notebook's effects *)

Abbreviation loc := nat.

(** The mutable objects of the notebook.  An estimator is unfitted ([None])
    until its [fit]/[fit_transform] stores the learned state. *)
Inductive obj :=
| PyDataFrame (df : DataFrame)
| PyOrdinalEncoder (categories_ : option (list (list string)))
| PyStandardScaler (stats_ : option (list (float64 * float64)))
| PyDict (items : list (string * loc)).

(** The estimator methods the notebook calls, with the data handed over. *)
Inductive call :=
| FitTransform (est : loc) (X : list column)
| Transform (est : loc) (X : list column).

(** A state: the heap, and the journal of estimator calls made so far. *)
Record store := mkStore {
  heap : list obj;
  calls : list call
}.

(** A statement either returns or raises; the heap keeps what was written
    before the exception. *)
Definition M (A : Type) : Type := store -> result A * store.

Definition ret {A} (a : A) : M A := fun s => (Ok a, s).

Definition raise {A} (e : exn) : M A := fun s => (Raise e, s).

Definition bind {A B} (m : M A) (f : A -> M B) : M B :=
  fun s =>
    match m s with
    | (Ok a, s') => f a s'
    | (Raise e, s') => (Raise e, s')
    end.

Notation "'let*' x ':=' c1 'in' c2" := (bind c1 (fun x => c2))
  (at level 10, x name, c1 at level 100, c2 at level 200).

Definition lift {A} (r : result A) : M A := fun s => (r, s).

Definition alloc (o : obj) : M loc :=
  fun s => (Ok (length (heap s)), mkStore (heap s ++ [o])%list (calls s)).

Definition read (l : loc) : M obj :=
  fun s =>
    match heap s !! l with
    | Some o => (Ok o, s)
    | None => (Raise (TypeError "no such object"), s)
    end.

Definition write (l : loc) (o : obj) : M unit :=
  fun s => (Ok tt, mkStore (<[l := o]> (heap s)) (calls s)).

Definition journal (c : call) : M unit :=
  fun s => (Ok tt, mkStore (heap s) (calls s ++ [c])%list).

Definition read_frame (l : loc) : M DataFrame :=
  let* o := read l in
  match o with
  | PyDataFrame df => ret df
  | _ => raise (TypeError "object is not a DataFrame")
  end.

(** *** DataFrame methods *)

(** [df[name]]. *)
Definition getitem (df : loc) (name : string) : M column :=
  let* f := read_frame df in
  match col_lookup name (columns f) with
  | Some c => ret c
  | None => raise (KeyError name)
  end.

(** [df[name] = c], in place. *)
Definition setitem (df : loc) (name : string) (c : column) : M unit :=
  let* f := read_frame df in
  if Nat.eqb (col_length c) (index f)
  then write df (PyDataFrame (mkDataFrame (index f) (col_set name c (columns f))))
  else raise (ValueError "Length of values does not match length of index").

(** [df[names]]: the listed columns, in the order asked for. *)
Fixpoint getitems (df : loc) (names : list string) : M (list column) :=
  match names with
  | [] => ret []
  | n :: rest =>
      let* c := getitem df n in
      let* cs := getitems df rest in
      ret (c :: cs)
  end.

(** [df[names] = cols], in place, column by column. *)
Fixpoint setitems (df : loc) (names : list string) (cols : list column) : M unit :=
  match names, cols with
  | [], [] => ret tt
  | n :: rest, c :: cs => let* _ := setitem df n c in setitems df rest cs
  | _, _ => raise (ValueError "Columns must be same length as key")
  end.

Fixpoint first_missing (names : list string) (cols : list (string * column)) : option string :=
  match names with
  | [] => None
  | n :: rest =>
      match col_lookup n cols with
      | Some _ => first_missing rest cols
      | None => Some n
      end
  end.

Definition drop_columns (names : list string) (f : DataFrame) : result DataFrame :=
  match first_missing names (columns f) with
  | Some n => Raise (KeyError n)
  | None => Ok (mkDataFrame (index f) (fold_right col_remove (columns f) names))
  end.

(** [df.drop(columns=names, inplace=True)]. *)
Definition drop_inplace (df : loc) (names : list string) : M unit :=
  let* f := read_frame df in
  let* f' := lift (drop_columns names f) in
  write df (PyDataFrame f').

(** [df.drop(columns=names)]: a new table. *)
Definition drop (df : loc) (names : list string) : M loc :=
  let* f := read_frame df in
  let* f' := lift (drop_columns names f) in
  alloc (PyDataFrame f').

(** *** Dictionaries *)

Fixpoint dict_lookup (k : string) (items : list (string * loc)) : option loc :=
  match items with
  | [] => None
  | (k', v) :: rest => if String.eqb k' k then Some v else dict_lookup k rest
  end.

Fixpoint dict_set (k : string) (v : loc) (items : list (string * loc)) : list (string * loc) :=
  match items with
  | [] => [(k, v)]
  | (k', v') :: rest =>
      if String.eqb k' k then (k', v) :: rest else (k', v') :: dict_set k v rest
  end.

(** [d[k]]; [d] may be [None]. *)
Definition dict_getitem (d : option loc) (k : string) : M loc :=
  match d with
  | None => raise (TypeError "'NoneType' object is not subscriptable")
  | Some l =>
      let* o := read l in
      match o with
      | PyDict items =>
          match dict_lookup k items with
          | Some v => ret v
          | None => raise (KeyError k)
          end
      | _ => raise (TypeError "object is not subscriptable")
      end
  end.

(** [d[k] = v]. *)
Definition dict_setitem (d : loc) (k : string) (v : loc) : M unit :=
  let* o := read d in
  match o with
  | PyDict items => write d (PyDict (dict_set k v items))
  | _ => raise (TypeError "object does not support item assignment")
  end.

(** *** OrdinalEncoder methods *)

(** Input validation: the categorical columns are columns of strings (a
    numeric column, which scikit-learn would treat as numeric categories,
    is outside the model), and there is at least one row. *)
Definition check_categorical (X : list column) : result (list (list string)) :=
  result_bind (map_result strings_of X) (fun cols =>
  match cols with
  | (_ :: _) :: _ => Ok cols
  | _ => Raise (ValueError "Found array with 0 sample(s)")
  end).

Definition encode_columns (cats : list (list string)) (cols : list (list string)) : list column :=
  zip_with (fun c xs => FloatCol (map (encode_value c) xs)) cats cols.

(** [enc.fit_transform(X)]: learn the categories of every column of [X],
    store them in the encoder, and return the codes of [X]. *)
Definition OrdinalEncoder_fit_transform (enc : loc) (X : list column) : M (list column) :=
  let* o := read enc in
  match o with
  | PyOrdinalEncoder _ =>
      let* _ := journal (FitTransform enc X) in
      let* cols := lift (check_categorical X) in
      let cats := map categories_of cols in
      let* _ := write enc (PyOrdinalEncoder (Some cats)) in
      ret (encode_columns cats cols)
  | _ => raise (TypeError "object has no attribute 'fit_transform'")
  end.

(** [enc.transform(X)]: the codes of [X] under the stored categories; the
    encoder is only read. *)
Definition OrdinalEncoder_transform (enc : loc) (X : list column) : M (list column) :=
  let* o := read enc in
  match o with
  | PyOrdinalEncoder fitted =>
      let* _ := journal (Transform enc X) in
      match fitted with
      | None => raise (NotFittedError "This OrdinalEncoder instance is not fitted yet")
      | Some cats =>
          let* cols := lift (check_categorical X) in
          if Nat.eqb (length cols) (length cats)
          then ret (encode_columns cats cols)
          else raise (ValueError "X has a different number of features than the encoder")
      end
  | _ => raise (TypeError "object has no attribute 'transform'")
  end.

(** ** Cell 5: [feature_engineering]

    [now_year] is what [pd.Timestamp('now').year] reads off the wall clock
    when the function runs.  [df] is the caller's table, by reference;
    the function writes into it and hands the same reference back. *)

Definition cat_cols : list string :=
  ["category"; "gender"; "job"; "state"; "city"; "merchant"].

Definition unused_cols : list string :=
  ["trans_date"; "trans_time"; "dob"; "first"; "last"; "street"].

(** The [if fit_encoders:] arm: a new dictionary and a new encoder, fitted
    on the categorical columns of [df]. *)
Definition fit_arm (df : loc) : M (option loc) :=
  let* encoders := alloc (PyDict []) in
  let* ordinal_encoder := alloc (PyOrdinalEncoder None) in
  let* X := getitems df cat_cols in
  let* codes := OrdinalEncoder_fit_transform ordinal_encoder X in
  let* _ := setitems df cat_cols codes in
  let* _ := dict_setitem encoders "ordinal_encoder" ordinal_encoder in
  ret (Some encoders).

(** The [else:] arm: the encoder found in [encoders] is applied. *)
Definition apply_arm (df : loc) (encoders : option loc) : M (option loc) :=
  let* ordinal_encoder := dict_getitem encoders "ordinal_encoder" in
  let* X := getitems df cat_cols in
  let* codes := OrdinalEncoder_transform ordinal_encoder X in
  let* _ := setitems df cat_cols codes in
  ret encoders.

(** The assignments of the derived columns, in source order. *)
Definition derive_features {dts : Datetimes} (v : pandas_version) (now_year : Z) (df : loc)
  : M unit :=
  (* Extract time-based features *)
  let* trans_time := getitem df "trans_time" in
  let* hour := lift (to_datetime_hour v trans_time) in
  let* _ := setitem df "hour" hour in
  let* trans_date := getitem df "trans_date" in
  let* day_of_week := lift (to_datetime_dayofweek v trans_date) in
  let* _ := setitem df "day_of_week" day_of_week in
  let* dob := getitem df "dob" in
  let* years := lift (to_datetime_year v dob) in
  let* _ := setitem df "age" (column_of (int_minus now_year years)) in
  (* Calculate distance between cardholder and merchant *)
  let* lat := getitem df "lat" in
  let* merch_lat := getitem df "merch_lat" in
  let* dlat := lift (series_sub lat merch_lat) in
  let* dlat2 := lift (series_square dlat) in
  let* long := getitem df "long" in
  let* merch_long := getitem df "merch_long" in
  let* dlong := lift (series_sub long merch_long) in
  let* dlong2 := lift (series_square dlong) in
  let* d2 := lift (series_add dlat2 dlong2) in
  let* distance := lift (np_sqrt d2) in
  let* _ := setitem df "distance" distance in
  (* amt_per_capita: transaction amount relative to city population *)
  let* amt := getitem df "amt" in
  let* city_pop := getitem df "city_pop" in
  let* city_pop_1 := lift (series_add_int city_pop 1) in
  let* amt_per_capita := lift (series_truediv amt city_pop_1) in
  let* _ := setitem df "amt_per_capita" amt_per_capita in
  (* Transaction velocity *)
  let* cc_num := getitem df "cc_num" in
  let* unix_time := getitem df "unix_time" in
  let* _ := setitem df "trans_count"
      (column_groupby_transform (rolling_count 3 (count_min_periods v 3))
         (group_keys cc_num) unix_time) in
  (* Spending ratio *)
  let* amt := getitem df "amt" in
  let* cc_num := getitem df "cc_num" in
  let* amt' := getitem df "amt" in
  let* mean_amt := lift (transform_mean (group_keys cc_num) amt') in
  let* amt_ratio := lift (series_truediv amt mean_amt) in
  setitem df "amt_ratio" amt_ratio.

(** [feature_engineering(df, encoders, fit_encoders)]: the derived
    columns, the encoding of the categorical ones, the drop of the unused
    ones; it returns [df] itself and the encoders. *)
Definition feature_engineering {dts : Datetimes} (v : pandas_version) (now_year : Z)
    (df : loc) (encoders : option loc) (fit_encoders : bool)
  : M (loc * option loc) :=
  let* _ := derive_features v now_year df in
  (* Encode categorical variables *)
  let* encoders :=
    if fit_encoders then fit_arm df else apply_arm df encoders in
  (* Drop unused columns *)
  let* _ := drop_inplace df unused_cols in
  ret (df, encoders).

(** ** Cell 9, first half: SMOTE ([imblearn.over_sampling.SMOTE]) *)

(** [np.unique(y)]: the class labels, ascending. *)
Fixpoint insert_label (c : Z) (l : list Z) : list Z :=
  match l with
  | [] => [c]
  | x :: rest =>
      if c <? x then c :: l
      else if c =? x then l
      else x :: insert_label c rest
  end.

Definition classes_of (y : list Z) : list Z := fold_right insert_label [] y.

Definition count_label (y : list Z) (c : Z) : nat :=
  length (List.filter (Z.eqb c) y).

(** [max(target_stats, key=target_stats.get)]: the first class, in
    ascending order, among those with the largest count. *)
Fixpoint class_majority (y : list Z) (cs : list Z) : option Z :=
  match cs with
  | [] => None
  | c :: rest =>
      match class_majority y rest with
      | None => Some c
      | Some c' => if Nat.ltb (count_label y c) (count_label y c') then Some c' else Some c
      end
  end.

(** [sampling_strategy='auto'] for over-sampling: every class but the
    majority is topped up to the majority count. *)
Definition sampling_strategy (y : list Z) : list (Z * nat) :=
  match class_majority y (classes_of y) with
  | None => []
  | Some cmaj =>
      map (fun c => (c, (count_label y cmaj - count_label y c)%nat))
          (List.filter (fun c => negb (c =? cmaj)) (classes_of y))
  end.

Definition k_neighbors : nat := 5.

(** The rows of class [c], column by column. *)
Definition select_class (y : list Z) (c : Z) (col : list float64) : list float64 :=
  map snd (List.filter (fun p => Z.eqb (fst p) c) (combine y col)).

Definition all_finite (xs : list float64) : bool := forallb F64.is_finite xs.

(** [astype('int64')] on a float: truncation toward zero. *)
Definition float_to_int (x : float64) : Z :=
  match x with
  | S754_finite s m e =>
      let a := if 0 <=? e then Z.pos m * 2 ^ e else Z.pos m / 2 ^ (- e) in
      wrap64 (if s then - a else a)
  | _ => 0
  end.

(** The resampled array goes back into the dtypes of the input table. *)
Definition restore_dtype (orig : column) (xs : list float64) : column :=
  match orig with
  | IntCol _ => IntCol (map float_to_int xs)
  | _ => FloatCol xs
  end.

(** The table as a float64 array, column by column ([check_array]). *)
Definition frame_floats (X : DataFrame) : result (list (list float64)) :=
  map_result (fun nc =>
      match to_floats (snd nc) with
      | Ok xs => Ok xs
      | Raise _ => Raise (ValueError "could not convert string to float")
      end) (columns X).

(** Stand-ins for the random generator and the neighbour search, for
    running the model on examples: every draw is 0, every step is 0.0, and
    the neighbours of a row are the first rows of the class. *)
Definition randint0 (seed : Z) (high size i : nat) : nat := O.

Definition uniform0 (seed : Z) (size i : nat) : float64 := F64.zero.

Definition kneighbors0 (X : list (list float64)) (k : nat) : list (list nat) :=
  map (fun _ => seq 0 k) (seq 0 (length (hd [] X))).

Section SMOTE.
(** NumPy's [RandomState(seed)] and scikit-learn's neighbour search are
    taken as given: [randint seed high size i] is the [i]-th of [size]
    integers drawn below [high], [uniform seed size i] the [i]-th step
    drawn after them, and [kneighbors X k] lists for every row of [X]
    (given column by column) its [k] nearest rows, itself first. *)
Variable randint : Z -> nat -> nat -> nat -> nat.
Variable uniform : Z -> nat -> nat -> float64.
Variable kneighbors : list (list float64) -> nat -> list (list nat).

(** [_make_samples]: [n_samples] new points of one class, column by
    column.  Point [i] lies between row [rows i] and one of its
    neighbours. *)
Definition make_samples (random_state : Z) (X_class : list (list float64))
    (nns : list (list nat)) (n_samples : nat) : list (list float64) :=
  let n_class := length nns in
  let high := (n_class * k_neighbors)%nat in
  map (fun col =>
         map (fun i =>
                let idx := randint random_state high n_samples i in
                let row := (idx / k_neighbors)%nat in
                let nb := nth (idx mod k_neighbors)%nat (nth row nns []) O in
                let x := nth row col F64.nan in
                let diff := F64.sub (nth nb col F64.nan) x in
                F64.add x (F64.mul (uniform random_state n_samples i) diff))
             (seq 0 n_samples))
      X_class.

(** One pass of the loop of [_fit_resample]: the new points and labels
    of one minority class, or the neighbour search's complaint when the
    class is smaller than [k_neighbors + 1]. *)
Definition oversample_class (random_state : Z) (X : list (list float64)) (y : list Z)
    (c : Z) (n_samples : nat) : result (list (list float64) * list Z) :=
  let X_class := map (select_class y c) X in
  if Nat.ltb (count_label y c) (S k_neighbors)
  then Raise (ValueError "Expected n_neighbors <= n_samples_fit")
  else
    let nns := map (skipn 1) (kneighbors X_class (S k_neighbors)) in
    Ok (make_samples random_state X_class nns n_samples, repeat c n_samples).

Fixpoint oversample (random_state : Z) (X : list (list float64)) (y : list Z)
    (strategy : list (Z * nat)) : result (list (list float64) * list Z) :=
  match strategy with
  | [] => Ok (map (fun _ => []) X, [])
  | (c, n_samples) :: rest =>
      result_bind
        (match n_samples with
         | O => Ok (map (fun _ => []) X, [])
         | S _ => oversample_class random_state X y c n_samples
         end) (fun new =>
      result_bind (oversample random_state X y rest) (fun more =>
      Ok (zip_with (@app float64) (fst new) (fst more), (snd new ++ snd more)%list)))
  end.

(** [SMOTE(random_state=seed).fit_resample(X, y)].  The labels are an
    int64 column (other label dtypes are outside the model). *)
Definition SMOTE_fit_resample (random_state : Z) (X : DataFrame) (y : column)
  : result (DataFrame * column) :=
  match y with
  | IntCol labels =>
      result_bind (frame_floats X) (fun Xf =>
      if negb (forallb all_finite Xf)
      then Raise (ValueError "Input X contains NaN or infinity")
      else if negb (Nat.eqb (length labels) (index X))
      then Raise (ValueError "Found input variables with inconsistent numbers of samples")
      else if Nat.leb (length (classes_of labels)) 1
      then Raise (ValueError "The target 'y' needs to have more than 1 class")
      else
        result_bind (oversample random_state Xf labels (sampling_strategy labels)) (fun new =>
        let X_resampled := zip_with (@app float64) Xf (fst new) in
        let y_resampled := (labels ++ snd new)%list in
        Ok (mkDataFrame (length y_resampled)
              (zip_with (fun nc xs => (fst nc, restore_dtype (snd nc) xs))
                 (columns X) X_resampled),
            IntCol y_resampled)))
  | _ => Raise (ValueError "Unknown label type")
  end.
End SMOTE.

(** ** Cell 9, second half: split and scale *)

Definition numeric_features : list string :=
  ["amt"; "lat"; "long"; "merch_lat"; "merch_long"; "city_pop";
   "amt_per_capita"; "age"; "hour"; "distance"].

(** [c.iloc[rows]]. *)
Definition iloc (rows : list nat) (c : column) : column :=
  match c with
  | IntCol xs => IntCol (map (fun i => nth i xs 0) rows)
  | FloatCol xs => FloatCol (map (fun i => nth i xs F64.nan) rows)
  | ObjCol xs => ObjCol (map (fun i => nth i xs "") rows)
  end.

Definition frame_iloc (rows : list nat) (f : DataFrame) : DataFrame :=
  mkDataFrame (length rows) (map (fun nc => (fst nc, iloc rows (snd nc))) (columns f)).

(** Input validation of the scaler: numbers only, NaN allowed, no
    infinity, at least one row. *)
Definition check_numeric (X : list column) : result (list (list float64)) :=
  result_bind (map_result (fun c =>
      match to_floats c with
      | Ok xs => Ok xs
      | Raise _ => Raise (ValueError "could not convert string to float")
      end) X) (fun cols =>
  if negb (forallb (forallb (fun x => F64.is_finite x || F64.is_nan x)) cols)
  then Raise (ValueError "Input X contains infinity")
  else match cols with
       | (_ :: _) :: _ => Ok cols
       | _ => Raise (ValueError "Found array with 0 sample(s)")
       end).

(** [(x - mean_) / scale_], column by column. *)
Definition scale_columns (stats : list (float64 * float64)) (cols : list (list float64))
  : list column :=
  zip_with (fun st xs => FloatCol (map (fun x => F64.div (F64.sub x (fst st)) (snd st)) xs))
           stats cols.

(** [confusion_matrix] of binary labels: rows are the true label, columns
    the predicted one. *)
Definition count_pairs (t p : Z) (y_true y_pred : list Z) : nat :=
  length (List.filter (fun tp => (fst tp =? t) && (snd tp =? p)) (combine y_true y_pred)).

Definition confusion_matrix (y_true y_pred : list Z) : list (list nat) :=
  [[count_pairs 0 0 y_true y_pred; count_pairs 0 1 y_true y_pred];
   [count_pairs 1 0 y_true y_pred; count_pairs 1 1 y_true y_pred]].

(** What a run leaves behind: the validation report's inputs and the
    table written to [fraud_submission2.csv]. *)
Record outputs := mkOutputs {
  out_y_val : list Z;
  out_y_pred : list Z;
  out_confusion : list (list nat);
  out_submission : DataFrame
}.

Section Notebook.
(** The library routines whose arithmetic the notebook relies on but does
    not contain.  Each is a function of its arguments and its seed. *)
Variable randint : Z -> nat -> nat -> nat -> nat.
Variable uniform : Z -> nat -> nat -> float64.
Variable kneighbors : list (list float64) -> nat -> list (list nat).

(** [train_test_split(..., test_size, random_state, stratify=y)]: the
    row numbers that go to the training and to the validation part. *)
Variable split_rows : float64 -> Z -> list Z -> result (list nat * list nat).

(** [StandardScaler]: the mean and the scale it learns from one column. *)
Variable mean_and_scale : list float64 -> float64 * float64.

(** [GradientBoostingClassifier]: fitting, and the label of one row. *)
Variable classifier : Type.
Variable gbc_fit :
  nat -> float64 -> nat -> Z -> DataFrame -> list Z -> result classifier.
Variable gbc_check : classifier -> DataFrame -> result unit.
Variable gbc_predict_row : classifier -> list column -> nat -> Z.

(** [scaler.fit_transform(X)]: learn mean and scale of every column of
    [X], store them in the scaler, return [X] standardised. *)
Definition StandardScaler_fit_transform (sc : loc) (X : list column) : M (list column) :=
  let* o := read sc in
  match o with
  | PyStandardScaler _ =>
      let* _ := journal (FitTransform sc X) in
      let* cols := lift (check_numeric X) in
      let stats := map mean_and_scale cols in
      let* _ := write sc (PyStandardScaler (Some stats)) in
      ret (scale_columns stats cols)
  | _ => raise (TypeError "object has no attribute 'fit_transform'")
  end.

(** [scaler.transform(X)]: standardise [X] with the stored mean and
    scale; the scaler is only read. *)
Definition StandardScaler_transform (sc : loc) (X : list column) : M (list column) :=
  let* o := read sc in
  match o with
  | PyStandardScaler fitted =>
      let* _ := journal (Transform sc X) in
      match fitted with
      | None => raise (NotFittedError "This StandardScaler instance is not fitted yet")
      | Some stats =>
          let* cols := lift (check_numeric X) in
          if Nat.eqb (length cols) (length stats)
          then ret (scale_columns stats cols)
          else raise (ValueError "X has a different number of features than the scaler")
      end
  | _ => raise (TypeError "object has no attribute 'transform'")
  end.

(** [model.predict(X)]: one label per row of [X]. *)
Definition predict (model : classifier) (X : loc) : M (list Z) :=
  let* f := read_frame X in
  let* _ := lift (gbc_check model f) in
  ret (map (gbc_predict_row model (map snd (columns f))) (seq 0 (index f))).

(** Cell 7. *)
Definition cell7 {dts : Datetimes} (v : pandas_version) (now_train now_test : Z)
    (train test : loc)
  : M (loc * option loc * loc) :=
  let* r := feature_engineering v now_train train None true in
  let '(train, encoders) := r in
  let* r' := feature_engineering v now_test test encoders false in
  let '(test, _) := r' in
  ret (train, encoders, test).

(** Cell 9. *)
Definition cell9 (train test : loc)
  : M (loc * loc * list Z * list Z * loc * loc) :=
  let* X := drop train ["is_fraud"; "trans_num"; "id"] in
  let* y := getitem train "is_fraud" in
  let* X_test_submission := drop test ["trans_num"; "id"] in
  (* Handle Class Imbalance with SMOTE *)
  let* Xf := read_frame X in
  let* sm := lift (SMOTE_fit_resample randint uniform kneighbors 42 Xf y) in
  let '(X_smote, y_smote) := sm in
  let* labels := lift (match y_smote with
                       | IntCol l => Ok l
                       | _ => Raise (ValueError "Unknown label type")
                       end) in
  let* parts := lift (split_rows (F64.div (F64.of_int 2) (F64.of_int 10)) 42 labels) in
  let '(rows_train, rows_val) := parts in
  let* X_train := alloc (PyDataFrame (frame_iloc rows_train X_smote)) in
  let* X_val := alloc (PyDataFrame (frame_iloc rows_val X_smote)) in
  let y_train := map (fun i => nth i labels 0) rows_train in
  let y_val := map (fun i => nth i labels 0) rows_val in
  (* Scale numeric features *)
  let* scaler := alloc (PyStandardScaler None) in
  let* A := getitems X_train numeric_features in
  let* A' := StandardScaler_fit_transform scaler A in
  let* _ := setitems X_train numeric_features A' in
  let* B := getitems X_val numeric_features in
  let* B' := StandardScaler_transform scaler B in
  let* _ := setitems X_val numeric_features B' in
  let* C := getitems X_test_submission numeric_features in
  let* C' := StandardScaler_transform scaler C in
  let* _ := setitems X_test_submission numeric_features C' in
  ret (X_train, X_val, y_train, y_val, X_test_submission, scaler).

(** Cell 11. *)
Definition cell11 (X_train X_val : loc) (y_train : list Z) : M (classifier * list Z) :=
  let* f := read_frame X_train in
  let* model := lift (gbc_fit 300 (F64.div (F64.of_int 5) (F64.of_int 100)) 5 42 f y_train) in
  let* y_pred := predict model X_val in
  ret (model, y_pred).

(** Cell 15.  [to_csv(index=False)] writes the table it is called on,
    header and rows, so the written file is [submission] itself. *)
Definition cell15 (model : classifier) (test X_test_submission : loc) : M DataFrame :=
  let* y_test_pred := predict model X_test_submission in
  let* _ := setitem test "is_fraud" (IntCol y_test_pred) in
  let* cols := getitems test ["id"; "is_fraud"] in
  let* f := read_frame test in
  let submission := mkDataFrame (index f) (combine ["id"; "is_fraud"] cols) in
  ret submission.


(** The notebook, top to bottom, on the two tables cell 3 loaded. *)
Definition notebook {dts : Datetimes} (v : pandas_version) (now_train now_test : Z)
    (train test : loc)
  : M outputs :=
  let* r7 := cell7 v now_train now_test train test in
  let '(train, encoders, test) := r7 in
  let* r9 := cell9 train test in
  let '(X_train, X_val, y_train, y_val, X_test_submission, scaler) := r9 in
  let* r11 := cell11 X_train X_val y_train in
  let '(model, y_pred) := r11 in
  let cm := confusion_matrix y_val y_pred in
  let* submission := cell15 model test X_test_submission in
  ret (mkOutputs y_val y_pred cm submission).
End Notebook.

(** ** Reading the heap *)

(** [l] holds the table [f]. *)
Definition frame_at (s : store) (l : loc) (f : DataFrame) : Prop :=
  heap s !! l = Some (PyDataFrame f).

Definition set_obj (s : store) (l : loc) (o : obj) : store :=
  mkStore (<[l := o]> (heap s)) (calls s).

Definition alloc_obj (s : store) (o : obj) : store :=
  mkStore (heap s ++ [o])%list (calls s).

Definition log_call (s : store) (c : call) : store :=
  mkStore (heap s) (calls s ++ [c])%list.

Definition is_ok {A} (r : result A) : bool :=
  match r with
  | Ok _ => true
  | Raise _ => false
  end.

(** [df[names] = cols] as a function of the table. *)
Fixpoint set_columns (names : list string) (cols : list column) (f : DataFrame)
  : result unit * DataFrame :=
  match names, cols with
  | [], [] => (Ok tt, f)
  | n :: rest, c :: cs =>
      if Nat.eqb (col_length c) (index f)
      then set_columns rest cs (mkDataFrame (index f) (col_set n c (columns f)))
      else (Raise (ValueError "Length of values does not match length of index"), f)
  | _, _ => (Raise (ValueError "Columns must be same length as key"), f)
  end.

(** [df[names]] as a function of the columns. *)
Fixpoint get_columns (names : list string) (cols : list (string * column))
  : result (list column) :=
  match names with
  | [] => Ok []
  | n :: rest =>
      match col_lookup n cols with
      | None => Raise (KeyError n)
      | Some c =>
          match get_columns rest cols with
          | Ok cs => Ok (c :: cs)
          | Raise e => Raise e
          end
      end
  end.

Definition fit_arm_store (s : store) (df : loc) (f2 : DataFrame) (X : list column)
    (cats : list (list string)) : store :=
  let d := length (heap s) in
  let e := S d in
  set_obj (set_obj (log_call (alloc_obj (alloc_obj s (PyDict [])) (PyOrdinalEncoder None))
                      (FitTransform e X)) e (PyOrdinalEncoder (Some cats)))
          df (PyDataFrame f2).

Definition apply_arm_spec (df : loc) (encoders : option loc) (s : store) (f : DataFrame)
  : result (option loc) * store :=
  match encoders with
  | None => (Raise (TypeError "'NoneType' object is not subscriptable"), s)
  | Some d =>
      match heap s !! d with
      | None => (Raise (TypeError "no such object"), s)
      | Some (PyDict items) =>
          match dict_lookup "ordinal_encoder" items with
          | None => (Raise (KeyError "ordinal_encoder"), s)
          | Some e =>
              match get_columns cat_cols (columns f) with
              | Raise err => (Raise err, s)
              | Ok X =>
                  match heap s !! e with
                  | None => (Raise (TypeError "no such object"), s)
                  | Some (PyOrdinalEncoder fitted) =>
                      let s1 := log_call s (Transform e X) in
                      match fitted with
                      | None =>
                          (Raise (NotFittedError "This OrdinalEncoder instance is not fitted yet"), s1)
                      | Some cats =>
                          match check_categorical X with
                          | Raise err => (Raise err, s1)
                          | Ok cols =>
                              if Nat.eqb (length cols) (length cats) then
                                let rf := set_columns cat_cols (encode_columns cats cols) f in
                                (match fst rf with
                                 | Ok _ => Ok encoders
                                 | Raise err => Raise err
                                 end, set_obj s1 df (PyDataFrame (snd rf)))
                              else
                                (Raise (ValueError "X has a different number of features than the encoder"), s1)
                          end
                      end
                  | Some _ => (Raise (TypeError "object has no attribute 'transform'"), s)
                  end
              end
          end
      | Some _ => (Raise (TypeError "object is not subscriptable"), s)
      end
  end.

Definition with_features (f : DataFrame)
    (hour day_of_week age distance amt_per_capita trans_count amt_ratio : column) : DataFrame :=
  mkDataFrame (index f)
    (col_set "amt_ratio" amt_ratio
    (col_set "trans_count" trans_count
    (col_set "amt_per_capita" amt_per_capita
    (col_set "distance" distance
    (col_set "age" age
    (col_set "day_of_week" day_of_week
    (col_set "hour" hour (columns f)))))))).

(** The derived columns, as the assignments of [feature_engineering]
    compute them from the raw columns of [f]. *)
Definition derived {dts : Datetimes} (v : pandas_version) (now_year : Z) (f f1 : DataFrame)
  : Prop :=
  exists trans_time trans_date dob lat merch_lat long merch_long amt city_pop cc_num unix_time
         hour day_of_week years dlat dlat2 dlong dlong2 d2 distance city_pop_1
         amt_per_capita mean_amt amt_ratio,
    col_lookup "trans_time" (columns f) = Some trans_time /\
    col_lookup "trans_date" (columns f) = Some trans_date /\
    col_lookup "dob" (columns f) = Some dob /\
    col_lookup "lat" (columns f) = Some lat /\
    col_lookup "merch_lat" (columns f) = Some merch_lat /\
    col_lookup "long" (columns f) = Some long /\
    col_lookup "merch_long" (columns f) = Some merch_long /\
    col_lookup "amt" (columns f) = Some amt /\
    col_lookup "city_pop" (columns f) = Some city_pop /\
    col_lookup "cc_num" (columns f) = Some cc_num /\
    col_lookup "unix_time" (columns f) = Some unix_time /\
    to_datetime_hour v trans_time = Ok hour /\
    to_datetime_dayofweek v trans_date = Ok day_of_week /\
    to_datetime_year v dob = Ok years /\
    series_sub lat merch_lat = Ok dlat /\
    series_square dlat = Ok dlat2 /\
    series_sub long merch_long = Ok dlong /\
    series_square dlong = Ok dlong2 /\
    series_add dlat2 dlong2 = Ok d2 /\
    np_sqrt d2 = Ok distance /\
    series_add_int city_pop 1 = Ok city_pop_1 /\
    series_truediv amt city_pop_1 = Ok amt_per_capita /\
    transform_mean (group_keys cc_num) amt = Ok mean_amt /\
    series_truediv amt mean_amt = Ok amt_ratio /\
    Forall (fun c => col_length c = index f)
      [hour; day_of_week; column_of (int_minus now_year years); distance;
       amt_per_capita;
       column_groupby_transform (rolling_count 3 (count_min_periods v 3))
         (group_keys cc_num) unix_time;
       amt_ratio] /\
    f1 = with_features f hour day_of_week (column_of (int_minus now_year years))
           distance amt_per_capita
           (column_groupby_transform (rolling_count 3 (count_min_periods v 3))
              (group_keys cc_num) unix_time)
           amt_ratio.

(** Every object but the one at [df] is where and what it was. *)
Definition heap_kept (df : loc) (s s' : store) : Prop :=
  forall l o, l <> df -> heap s !! l = Some o -> heap s' !! l = Some o.

(** What the encoding arm did, on a run that went through. *)
Definition encoded (fit : bool) (encs : option loc) (df : loc) (s s' : store)
    (r : option loc) (X : list column) (cols cats : list (list string)) : Prop :=
  if fit then
    let d := length (heap s) in
    let e := S d in
    cats = map categories_of cols /\
    r = Some d /\
    heap s' !! d = Some (PyDict [("ordinal_encoder", e)]) /\
    heap s' !! e = Some (PyOrdinalEncoder (Some cats)) /\
    length (heap s') = S (S (length (heap s))) /\
    calls s' = (calls s ++ [FitTransform e X])%list
  else
    exists d items e,
      encs = Some d /\
      r = encs /\
      heap s !! d = Some (PyDict items) /\
      dict_lookup "ordinal_encoder" items = Some e /\
      heap s !! e = Some (PyOrdinalEncoder (Some cats)) /\
      length cols = length cats /\
      length (heap s') = length (heap s) /\
      calls s' = (calls s ++ [Transform e X])%list.

Definition finite_with_sign (s : bool) (x : spec_float) : Prop :=
  match x with
  | S754_zero s' => s' = s
  | S754_finite s' _ _ => s' = s
  | _ => False
  end.

Definition binary (y : list Z) : Prop := Forall (fun c => c = 0 \/ c = 1) y.

(** The raw columns [feature_engineering] reads. *)
Definition raw_columns : list string :=
  (["trans_time"; "trans_date"; "dob"; "lat"; "merch_lat"; "long"; "merch_long";
    "amt"; "city_pop"; "cc_num"; "unix_time"] ++ cat_cols ++ unused_cols)%list.

(** ** Runs that differ in the clock reading *)

(** Two tables that agree in every column but [age]. *)
Definition same_off_age (fa fb : DataFrame) : Prop :=
  index fa = index fb /\
  forall n, n <> "age" -> col_lookup n (columns fa) = col_lookup n (columns fb).

Definition obj_related (o1 o2 : option obj) : Prop :=
  match o1, o2 with
  | Some (PyDataFrame fa), Some (PyDataFrame fb) => same_off_age fa fb
  | _, _ => o1 = o2
  end.

(** Two states that differ at most in the [age] columns of the tables at
    the places [tables]. *)
Definition clock_related (tables : list loc) (s1 s2 : store) : Prop :=
  calls s1 = calls s2 /\
  length (heap s1) = length (heap s2) /\
  forall l,
    obj_related (heap s1 !! l) (heap s2 !! l) /\
    (~ In l tables -> heap s1 !! l = heap s2 !! l).


(** ** Runs on a table that lacks a column *)

(** [fb] is [fa] without the column [c]. *)
Definition lacks (c : string) (fa fb : DataFrame) : Prop :=
  index fa = index fb /\
  col_lookup c (columns fb) = None /\
  forall n, n <> c -> col_lookup n (columns fb) = col_lookup n (columns fa).

(** Two states that differ only in the table at [df], which in the second
    lacks the column [c]. *)
Definition lacking (c : string) (df : loc) (s1 s2 : store) : Prop :=
  calls s1 = calls s2 /\
  length (heap s1) = length (heap s2) /\
  (forall l, l <> df -> heap s1 !! l = heap s2 !! l) /\
  exists fa fb,
    frame_at s1 df fa /\ frame_at s2 df fb /\ lacks c fa fb.

(** Whenever [m] returns from the first of two such states, from the
    second it returns the same (and then [Q] holds of what it returns) or
    raises [KeyError c]. *)
Definition raises_KeyError {A} (c : string) (df : loc) (Q : A -> Prop) (m : M A) : Prop :=
  forall s1 s2 a s1', lacking c df s1 s2 -> m s1 = (Ok a, s1') ->
    (exists s2', m s2 = (Ok a, s2') /\ lacking c df s1' s2' /\ Q a) \/
    (exists s2', m s2 = (Raise (KeyError c), s2')).

(** ** The estimator protocol *)

(** What a journal entry is a call of, and on which estimator. *)
Inductive method := Fit | Apply.

Definition call_kind (c : call) : method * loc :=
  match c with
  | FitTransform l _ => (Fit, l)
  | Transform l _ => (Apply, l)
  end.

(** The estimator calls of a whole run, in order: the encoder [enc] is
    fitted, then applied; the scaler [sc] is fitted, then applied twice. *)
Definition protocol (enc sc : loc) : list (method * loc) :=
  [(Fit, enc); (Apply, enc); (Fit, sc); (Apply, sc); (Apply, sc)].

(** The heap during a run of the notebook: the heap [h0] the run started
    from with the tables [f] and [g] at [train] and [test], followed by the
    objects [tl] made since; the journal [c0] it started from followed by
    the calls [J] made since. *)
Definition st (h0 : list obj) (c0 : list call) (train test : loc) (f g : DataFrame)
    (tl : list obj) (J : list call) : store :=
  mkStore ((<[test := PyDataFrame g]> (<[train := PyDataFrame f]> h0)) ++ tl)%list
          (c0 ++ J)%list.

(** ** Closed forms and footprints *)

(** The number of rows before row [i] that carry the card number [cc]. *)
Definition same_before (ccs : list Z) (i : nat) (cc : Z) : nat :=
  length (List.filter (fun x => Z.eqb x cc) (firstn i ccs)).

(** What [rolling(window=3).count()] gives the row at position [p] of a
    group without missing entries. *)
Definition count_at (v : pandas_version) (p : nat) : float64 :=
  match v with
  | pandas_1 => F64.of_int (Z.of_nat (Nat.min (S p) 3))
  | pandas_2 => if Nat.ltb p 2 then F64.nan else F64.of_int 3
  end.

(** NaN, or a number whose sign bit is clear: +0, a positive number or
    +inf. *)
Definition never_negative (x : float64) : bool :=
  match x with
  | S754_nan => true
  | S754_zero s | S754_infinity s | S754_finite s _ _ => negb s
  end.

(** From any state with at least [n] objects, [m] leaves the first [n]
    objects as they are, removes none, and what it returns satisfies
    [Q]. *)
Definition writes_new_only {A} (n : nat) (m : M A) (Q : A -> Prop) : Prop :=
  forall s r s', (n <= length (heap s))%nat -> m s = (r, s') ->
    (length (heap s) <= length (heap s'))%nat /\
    (forall l, (l < n)%nat -> heap s' !! l = heap s !! l) /\
    (forall x, r = Ok x -> Q x).

(** ** Example tables *)

(** *** A conversion for the examples

    [to_datetime0] stands in for [pd.to_datetime] where the model is run
    on an example.  It reads what the data set holds and a little more:
    times [H:M:S] as the format [%H:%M:%S] takes them, dates [YYYY-MM-DD]
    and [MM/DD/YYYY], the strings pandas takes for missing, and numbers
    as nanoseconds since 1970.  The theorems hold for every conversion;
    only the examples use this one. *)

Definition digit (c : ascii) : option Z :=
  let n := Z.of_nat (nat_of_ascii c) in
  if (48 <=? n) && (n <=? 57) then Some (n - 48) else None.

(** A run of one or two decimal digits, as [%H], [%M] and [%S] accept. *)
Definition field2 (cs : list ascii) : option Z :=
  match cs with
  | [a] => digit a
  | [a; b] =>
      match digit a, digit b with
      | Some x, Some y => Some (10 * x + y)
      | _, _ => None
      end
  | _ => None
  end.

Fixpoint split_on (sep : ascii) (cs : list ascii) : list (list ascii) :=
  match cs with
  | [] => [[]]
  | c :: rest =>
      if Ascii.eqb c sep then [] :: split_on sep rest
      else match split_on sep rest with
           | [] => [[c]]
           | w :: ws => (c :: w) :: ws
           end
  end.

(** [%H:%M:%S]: one or two digits each, the hour up to 23, the minute up
    to 59, the second up to 61. *)
Definition parse_time (s : string) : option (Z * Z * Z) :=
  match split_on ":"%char (list_ascii_of_string s) with
  | [h; m; sec] =>
      match field2 h, field2 m, field2 sec with
      | Some hh, Some mm, Some ss =>
          if (hh <=? 23) && (mm <=? 59) && (ss <=? 61) then Some (hh, mm, ss) else None
      | _, _, _ => None
      end
  | _ => None
  end.

(** The dates datetime64[ns] can hold: 1677-09-22 to 2262-04-11. *)
Definition in_ns_bounds (y m d : Z) : bool :=
  ((1677 <? y) || ((y =? 1677) && ((9 <? m) || ((m =? 9) && (22 <=? d)))))
  && ((y <? 2262) || ((y =? 2262) && ((m <? 4) || ((m =? 4) && (d <=? 11))))).

(** An ISO 8601 calendar date [YYYY-MM-DD]. *)
Definition parse_date (s : string) : option (Z * Z * Z) :=
  match list_ascii_of_string s with
  | [y1; y2; y3; y4; s1; m1; m2; s2; d1; d2] =>
      match digit y1, digit y2, digit y3, digit y4, digit m1, digit m2, digit d1, digit d2 with
      | Some a, Some b, Some c, Some d, Some e, Some f, Some g, Some h =>
          let y := 1000 * a + 100 * b + 10 * c + d in
          let m := 10 * e + f in
          let dd := 10 * g + h in
          if Ascii.eqb s1 "-" && Ascii.eqb s2 "-"
             && (1 <=? m) && (m <=? 12) && (1 <=? dd) && (dd <=? days_in_month y m)
             && in_ns_bounds y m dd
          then Some (y, m, dd) else None
      | _, _, _, _, _, _, _, _ => None
      end
  | _ => None
  end.

(** A date [MM/DD/YYYY], the month first. *)
Definition parse_date_us (s : string) : option (Z * Z * Z) :=
  match list_ascii_of_string s with
  | [m1; m2; s1; d1; d2; s2; y1; y2; y3; y4] =>
      match digit y1, digit y2, digit y3, digit y4, digit m1, digit m2, digit d1, digit d2 with
      | Some a, Some b, Some c, Some d, Some e, Some f, Some g, Some h =>
          let y := 1000 * a + 100 * b + 10 * c + d in
          let m := 10 * e + f in
          let dd := 10 * g + h in
          if Ascii.eqb s1 "/" && Ascii.eqb s2 "/"
             && (1 <=? m) && (m <=? 12) && (1 <=? dd) && (dd <=? days_in_month y m)
             && in_ns_bounds y m dd
          then Some (y, m, dd) else None
      | _, _, _, _, _, _, _, _ => None
      end
  | _ => None
  end.

(** The strings pandas takes for a missing timestamp; the empty string is
    one of them, except under a format before pandas 2. *)
Definition nat_strings : list string := ["NaT"; "nat"; "NAT"; "nan"; "NaN"; "NAN"].

Definition is_missing0 (v : pandas_version) (fmt : option string) (s : string) : bool :=
  existsb (String.eqb s) nat_strings ||
  (String.eqb s EmptyString &&
   match fmt, v with
   | Some _, pandas_1 => false
   | _, _ => true
   end).

(** pandas 2 settles on the spelling of the first row that is not missing
    and holds every row to it; pandas 1 reads every row by itself. *)
Inductive spelling := Iso | Us.

Definition spelling_of (s : string) : option spelling :=
  match parse_date s, parse_date_us s with
  | Some _, _ => Some Iso
  | None, Some _ => Some Us
  | None, None => None
  end.

Fixpoint first_spelling (v : pandas_version) (xs : list string) : option spelling :=
  match xs with
  | [] => None
  | s :: rest => if is_missing0 v None s then first_spelling v rest else spelling_of s
  end.

Definition parse_date0 (v : pandas_version) (first : option spelling) (s : string)
  : option (Z * Z * Z) :=
  match v, first with
  | pandas_2, Some Iso => parse_date s
  | pandas_2, Some Us => parse_date_us s
  | _, _ =>
      match parse_date s with
      | Some d => Some d
      | None => parse_date_us s
      end
  end.

(** The date of a day number, the inverse of [days_from_civil]. *)
Definition civil_from_days (z : Z) : Z * Z * Z :=
  let z := z + 719468 in
  let era := z / 146097 in
  let doe := z - era * 146097 in
  let yoe := (doe - doe / 1460 + doe / 36524 - doe / 146096) / 365 in
  let doy := doe - (365 * yoe + yoe / 4 - yoe / 100) in
  let mp := (5 * doy + 2) / 153 in
  let d := doy - (153 * mp + 2) / 5 + 1 in
  let m := if mp <? 10 then mp + 3 else mp - 9 in
  (if m <=? 2 then yoe + era * 400 + 1 else yoe + era * 400, m, d).

Definition timestamp_of_ns (n : Z) : datetime :=
  let '(y, m, d) := civil_from_days (n / 86400000000000) in
  mkDatetime y m d ((n / 3600000000000) mod 24).

(** A time of day is a timestamp on 1900-01-01; second 60 or 61 runs over
    into the next minute. *)
Definition timestamp_of_time (h m sec : Z) : datetime :=
  let total := (h * 60 + m) * 60 + sec in
  mkDatetime 1900 1 (1 + total / 86400) ((total / 3600) mod 24).

Definition to_datetime0 : Datetimes := fun v fmt c =>
  let rows :=
    match c with
    | ObjCol xs =>
        let first := first_spelling v xs in
        map_result (fun s =>
          if is_missing0 v fmt s then Ok None
          else match fmt with
               | Some _ =>
                   match parse_time s with
                   | Some (h, m, sec) => Ok (Some (timestamp_of_time h m sec))
                   | None => Raise (ValueError "time data doesn't match format")
                   end
               | None =>
                   match parse_date0 v first s with
                   | Some (y, m, d) => Ok (Some (mkDatetime y m d 0))
                   | None => Raise (ValueError "unknown datetime string format")
                   end
               end) xs
    | IntCol xs =>
        map_result (fun n =>
          match fmt with
          | Some _ => Raise (ValueError "time data doesn't match format")
          | None => Ok (if n =? - 2 ^ 63 then None else Some (timestamp_of_ns n))
          end) xs
    | FloatCol xs =>
        map_result (fun x =>
          if F64.is_nan x then Ok None
          else match fmt with
               | Some _ => Raise (ValueError "time data doesn't match format")
               | None =>
                   if F64.is_finite x then Ok (Some (timestamp_of_ns (float_to_int x)))
                   else Raise (ValueError "cannot convert float infinity to integer")
               end) xs
    end in
  result_bind rows (fun ts => Ok (fun i => nth i ts None)).

Section Example_tables.
#[local] Existing Instance to_datetime0.

(** Two transactions of one cardholder, one of them a fraud. *)
Definition example_train : DataFrame :=
  mkDataFrame 2
    [("id", IntCol [10; 11]);
     ("trans_num", ObjCol ["a1"; "a2"]);
     ("trans_date", ObjCol ["2024-01-01"; "2024-01-02"]);
     ("trans_time", ObjCol ["00:00:18"; "13:45:00"]);
     ("unix_time", IntCol [1704067218; 1704203100]);
     ("category", ObjCol ["grocery_pos"; "misc_net"]);
     ("amt", FloatCol [F64.of_int 4; F64.of_int 12]);
     ("cc_num", IntCol [4321; 4321]);
     ("first", ObjCol ["Ada"; "Ada"]);
     ("last", ObjCol ["Lee"; "Lee"]);
     ("gender", ObjCol ["F"; "F"]);
     ("street", ObjCol ["1 Main St"; "1 Main St"]);
     ("city", ObjCol ["Orient"; "Orient"]);
     ("state", ObjCol ["WA"; "WA"]);
     ("lat", FloatCol [F64.of_int 48; F64.of_int 48]);
     ("long", FloatCol [F64.of_int (-118); F64.of_int (-118)]);
     ("city_pop", IntCol [149; 149]);
     ("job", ObjCol ["Engineer"; "Engineer"]);
     ("dob", ObjCol ["1978-06-21"; "1978-06-21"]);
     ("merchant", ObjCol ["fraud_Kirlin"; "fraud_Sporer"]);
     ("merch_lat", FloatCol [F64.of_int 45; F64.of_int 48]);
     ("merch_long", FloatCol [F64.of_int (-114); F64.of_int (-118)]);
     ("is_fraud", IntCol [0; 1])].

(** One transaction to score; its merchant does not occur in
    [example_train]. *)
Definition example_test : DataFrame :=
  mkDataFrame 1
    [("id", IntCol [20]);
     ("trans_num", ObjCol ["b1"]);
     ("trans_date", ObjCol ["2024-02-03"]);
     ("trans_time", ObjCol ["23:10:05"]);
     ("unix_time", IntCol [1707001805]);
     ("category", ObjCol ["misc_net"]);
     ("amt", FloatCol [F64.of_int 7]);
     ("cc_num", IntCol [9876]);
     ("first", ObjCol ["Bo"]);
     ("last", ObjCol ["Ray"]);
     ("gender", ObjCol ["M"]);
     ("street", ObjCol ["2 Side St"]);
     ("city", ObjCol ["Orient"]);
     ("state", ObjCol ["WA"]);
     ("lat", FloatCol [F64.of_int 47]);
     ("long", FloatCol [F64.of_int (-120)]);
     ("city_pop", IntCol [149]);
     ("job", ObjCol ["Nurse"]);
     ("dob", ObjCol ["1990-11-02"]);
     ("merchant", ObjCol ["fraud_Unseen"]);
     ("merch_lat", FloatCol [F64.of_int 47]);
     ("merch_long", FloatCol [F64.of_int (-121)])].

(** The heap after cell 3: the two tables, nothing else. *)
Definition example_store : store :=
  mkStore [PyDataFrame example_train; PyDataFrame example_test] [].

(** Stand-ins for the split, the scaler's statistics and the classifier,
    for running the notebook on the example. *)
Definition split_rows0 (test_size : float64) (seed : Z) (labels : list Z)
  : result (list nat * list nat) :=
  Ok ([0%nat], [1%nat]).

Definition mean_and_scale0 (xs : list float64) : float64 * float64 :=
  (F64.zero, F64.of_int 1).

Definition gbc_fit0 (n_estimators : nat) (learning_rate : float64) (max_depth : nat)
    (seed : Z) (X : DataFrame) (y : list Z) : result unit :=
  Ok tt.

Definition gbc_check0 (model : unit) (X : DataFrame) : result unit := Ok tt.

Definition gbc_predict_row0 (model : unit) (X : list column) (i : nat) : Z := 0.

Definition example_notebook (v : pandas_version) (year : Z) : result outputs * store :=
  notebook randint0 uniform0 kneighbors0 split_rows0 mean_and_scale0 unit
           gbc_fit0 gbc_check0 gbc_predict_row0 v year year 0%nat 1%nat example_store.

(** The column [n] of the table at [l], if there is one. *)
Definition column_at (s : store) (l : loc) (n : string) : option column :=
  match heap s !! l with
  | Some (PyDataFrame f) => col_lookup n (columns f)
  | _ => None
  end.

(** The first call of cell 7 on the example, in 2024. *)
Definition example_fit (v : pandas_version) : result (loc * option loc) * store :=
  feature_engineering v 2024 0%nat None true example_store.

(** [example_train] with another column [n]. *)
Definition example_with (n : string) (c : column) : store :=
  mkStore [PyDataFrame (mkDataFrame 2 (col_set n c (columns example_train)));
           PyDataFrame example_test] [].

(** The table [f] without the column [n]. *)
Definition without (n : string) (f : DataFrame) : DataFrame :=
  mkDataFrame (index f) (col_remove n (columns f)).

(** Cell 9's [X_test_submission] for the example, and the heap holding it. *)
Definition example_X_test_submission : DataFrame :=
  mkDataFrame 1 (fold_right col_remove (columns example_test) ["trans_num"; "id"]).

Definition example_store_cell15 : store :=
  alloc_obj example_store (PyDataFrame example_X_test_submission).

(** Thirteen rows for the oversampler: seven of class 0, six of class 1. *)
Definition example_labels : list Z := (repeat 0 7 ++ repeat 1 6)%list.

Definition example_features (x : float64) : DataFrame :=
  mkDataFrame 13 [("amt", FloatCol (repeat (F64.of_int 3) 12 ++ [x]))].

(** The categorical columns of the two example tables, and the heap
    before and after an encoder at 3 is fitted on those of the train table. *)
Definition example_X_train : list column :=
  [ObjCol ["grocery_pos"; "misc_net"]; ObjCol ["F"; "F"];
   ObjCol ["Engineer"; "Engineer"]; ObjCol ["WA"; "WA"];
   ObjCol ["Orient"; "Orient"]; ObjCol ["fraud_Kirlin"; "fraud_Sporer"]].

Definition example_X_test : list column :=
  [ObjCol ["misc_net"]; ObjCol ["M"]; ObjCol ["Nurse"]; ObjCol ["WA"];
   ObjCol ["Orient"]; ObjCol ["fraud_Unseen"]].

Definition example_encoder_store : store :=
  mkStore [PyDataFrame example_train; PyDataFrame example_test;
           PyDict []; PyOrdinalEncoder None] [].

Definition example_fitted : store :=
  snd (OrdinalEncoder_fit_transform 3%nat example_X_train example_encoder_store).

(** *** Ten rows, and stand-ins that learn from them

    Ten transactions of one cardholder, alike in everything but the year
    of birth on record and the label: the even rows are born in 1994 and
    are no fraud, the odd rows are born in 1991 and are one. *)
Definition example_train10 : DataFrame :=
  mkDataFrame 10
    [("id", IntCol [10; 11; 12; 13; 14; 15; 16; 17; 18; 19]);
     ("trans_num", ObjCol ["a0"; "a1"; "a2"; "a3"; "a4"; "a5"; "a6"; "a7"; "a8"; "a9"]);
     ("trans_date", ObjCol (repeat "2024-01-01" 10));
     ("trans_time", ObjCol (repeat "13:45:00" 10));
     ("unix_time", IntCol (repeat 1704116700 10));
     ("category", ObjCol (repeat "misc_net" 10));
     ("amt", FloatCol (repeat (F64.of_int 12) 10));
     ("cc_num", IntCol (repeat 4321 10));
     ("first", ObjCol (repeat "Ada" 10));
     ("last", ObjCol (repeat "Lee" 10));
     ("gender", ObjCol (repeat "F" 10));
     ("street", ObjCol (repeat "1 Main St" 10));
     ("city", ObjCol (repeat "Orient" 10));
     ("state", ObjCol (repeat "WA" 10));
     ("lat", FloatCol (repeat (F64.of_int 48) 10));
     ("long", FloatCol (repeat (F64.of_int (-118)) 10));
     ("city_pop", IntCol (repeat 149 10));
     ("job", ObjCol (repeat "Engineer" 10));
     ("dob", ObjCol ["1994-06-21"; "1991-06-21"; "1994-06-21"; "1991-06-21"; "1994-06-21";
                     "1991-06-21"; "1994-06-21"; "1991-06-21"; "1994-06-21"; "1991-06-21"]);
     ("merchant", ObjCol (repeat "fraud_Kirlin" 10));
     ("merch_lat", FloatCol (repeat (F64.of_int 45) 10));
     ("merch_long", FloatCol (repeat (F64.of_int (-114)) 10));
     ("is_fraud", IntCol [0; 1; 0; 1; 0; 1; 0; 1; 0; 1])].

(** One transaction to score, alike again, born in 1993. *)
Definition example_test10 : DataFrame :=
  mkDataFrame 1
    [("id", IntCol [20]);
     ("trans_num", ObjCol ["b1"]);
     ("trans_date", ObjCol ["2024-01-01"]);
     ("trans_time", ObjCol ["13:45:00"]);
     ("unix_time", IntCol [1704116700]);
     ("category", ObjCol ["misc_net"]);
     ("amt", FloatCol [F64.of_int 12]);
     ("cc_num", IntCol [9876]);
     ("first", ObjCol ["Bo"]);
     ("last", ObjCol ["Ray"]);
     ("gender", ObjCol ["F"]);
     ("street", ObjCol ["2 Side St"]);
     ("city", ObjCol ["Orient"]);
     ("state", ObjCol ["WA"]);
     ("lat", FloatCol [F64.of_int 48]);
     ("long", FloatCol [F64.of_int (-118)]);
     ("city_pop", IntCol [149]);
     ("job", ObjCol ["Engineer"]);
     ("dob", ObjCol ["1993-03-01"]);
     ("merchant", ObjCol ["fraud_Kirlin"]);
     ("merch_lat", FloatCol [F64.of_int 45]);
     ("merch_long", FloatCol [F64.of_int (-114)])].

Definition example_store10 : store :=
  mkStore [PyDataFrame example_train10; PyDataFrame example_test10] [].

(** A stratified split of ten rows, five of each class, with
    [test_size=0.2]: eight rows to train on, one of each class to
    validate. *)
Definition split_rows10 (test_size : float64) (seed : Z) (labels : list Z)
  : result (list nat * list nat) :=
  Ok ([2; 3; 4; 5; 6; 7; 8; 9]%nat, [0; 1]%nat).

(** The statistics [StandardScaler] learns: the mean and the population
    standard deviation of a column, 1.0 standing in for a deviation of
    zero. *)
Definition mean_and_std (xs : list float64) : float64 * float64 :=
  let n := F64.of_int (Z.of_nat (length xs)) in
  let mean := F64.div (fold_left F64.add xs F64.zero) n in
  let var :=
    F64.div (fold_left (fun acc x => F64.add acc (F64.mul (F64.sub x mean) (F64.sub x mean)))
                       xs F64.zero) n in
  let scale := F64.sqrt var in
  (mean, if F64.is_zero scale then F64.of_int 1 else scale).

(** A classifier that splits on the standardised [age] at its training
    mean, 0.0, as trees fitted on these rows do, where [age] alone tells
    the classes apart: the model is the place of [age] among the
    features, and a row above the mean is predicted a fraud. *)
Definition gbc_fit_stump (n_estimators : nat) (learning_rate : float64) (max_depth : nat)
    (seed : Z) (X : DataFrame) (y : list Z) : result nat :=
  match index_of "age" (map fst (columns X)) with
  | Some k => Ok k
  | None => Raise (KeyError "age")
  end.

Definition gbc_check_stump (model : nat) (X : DataFrame) : result unit := Ok tt.

Definition gbc_predict_stump (model : nat) (X : list column) (i : nat) : Z :=
  match nth model X (IntCol []) with
  | FloatCol xs =>
      match nth i xs F64.nan with
      | S754_finite false _ _ => 1
      | _ => 0
      end
  | _ => 0
  end.

(** The notebook on the ten rows under pandas 1, the train call reading
    the year [now_train] and the test call the year [now_test]. *)
Definition example_notebook10 (now_train now_test : Z) : result outputs * store :=
  notebook randint0 uniform0 kneighbors0 split_rows10 mean_and_std nat
           gbc_fit_stump gbc_check_stump gbc_predict_stump pandas_1 now_train now_test
           0%nat 1%nat example_store10.


End Example_tables.

(** * Properties *)

Ltac derived_inv Hd :=
  destruct Hd as (trans_time & trans_date & dob & lat & merch_lat & long & merch_long &
                  amt & city_pop & cc_num & unix_time & hour & day_of_week & years &
                  dlat & dlat2 & dlong & dlong2 & d2 & distance & city_pop_1 &
                  amt_per_capita & mean_amt & amt_ratio &
                  Ltrans_time & Ltrans_date & Ldob & Llat & Lmerch_lat & Llong &
                  Lmerch_long & Lamt & Lcity_pop & Lcc_num & Lunix_time &
                  Ehour & Eday & Eyears & Edlat & Edlat2 & Edlong & Edlong2 & Ed2 &
                  Edistance & Ecity_pop_1 & Eamt_per_capita & Emean & Eratio & Hlen & Ef1).

Section Properties.
Context {dts : Datetimes}.

(** ** Columns of a table *)

Lemma col_lookup_col_set n m c cols :
  col_lookup n (col_set m c cols) = if String.eqb m n then Some c else col_lookup n cols.
Proof.
  induction cols as [|[k c'] rest IH]; simpl.
  - destruct (String.eqb m n); reflexivity.
  - destruct (String.eqb_spec k m) as [->|Hkm]; simpl.
    + destruct (String.eqb m n); reflexivity.
    + destruct (String.eqb_spec k n) as [->|Hkn].
      * destruct (String.eqb_spec m n) as [->|_]; [congruence | reflexivity].
      * apply IH.
Qed.

Lemma col_lookup_col_remove n m cols :
  col_lookup n (col_remove m cols) = if String.eqb m n then None else col_lookup n cols.
Proof.
  induction cols as [|[k c'] rest IH]; simpl.
  - destruct (String.eqb m n); reflexivity.
  - destruct (String.eqb_spec k m) as [->|Hkm]; simpl.
    + rewrite IH. destruct (String.eqb m n); reflexivity.
    + destruct (String.eqb_spec k n) as [->|Hkn].
      * destruct (String.eqb_spec m n) as [->|_]; [congruence | reflexivity].
      * apply IH.
Qed.

Lemma col_lookup_set_other n m c cols :
  String.eqb m n = false -> col_lookup n (col_set m c cols) = col_lookup n cols.
Proof. intros H. rewrite col_lookup_col_set, H. reflexivity. Qed.

Lemma col_lookup_remove_other n m cols :
  String.eqb m n = false -> col_lookup n (col_remove m cols) = col_lookup n cols.
Proof. intros H. rewrite col_lookup_col_remove, H. reflexivity. Qed.

Lemma col_lookup_set_same n c cols : col_lookup n (col_set n c cols) = Some c.
Proof. rewrite col_lookup_col_set, String.eqb_refl. reflexivity. Qed.

(** ** The heap primitives, as equations *)

Lemma bind_eq {A B} (m : M A) (k : A -> M B) s :
  bind m k s = match m s with
               | (Ok a, s') => k a s'
               | (Raise e, s') => (Raise e, s')
               end.
Proof. reflexivity. Qed.

Lemma bind_ret {A B} (a : A) (k : A -> M B) s : bind (ret a) k s = k a s.
Proof. reflexivity. Qed.

Lemma bind_lift {A B} (r : result A) (k : A -> M B) s :
  bind (lift r) k s = match r with
                      | Ok a => k a s
                      | Raise e => (Raise e, s)
                      end.
Proof. unfold bind, lift. destruct r; reflexivity. Qed.

Lemma bind_assoc {A B C} (m : M A) (k : A -> M B) (k' : B -> M C) s :
  bind (bind m k) k' s = bind m (fun a => bind (k a) k') s.
Proof. unfold bind. destruct (m s) as [[a|e] s1]; reflexivity. Qed.

Lemma frame_at_lt s l f : frame_at s l f -> (l < length (heap s))%nat.
Proof. intros H. apply lookup_lt_Some in H. exact H. Qed.

Lemma frame_at_set_obj s l o f : frame_at s l o -> frame_at (set_obj s l (PyDataFrame f)) l f.
Proof.
  intros H. unfold frame_at, set_obj. simpl.
  apply list_lookup_insert_eq. eapply frame_at_lt, H.
Qed.

Lemma set_obj_set_obj s l o o' : set_obj (set_obj s l o) l o' = set_obj s l o'.
Proof. unfold set_obj. simpl. rewrite list_insert_insert_eq. reflexivity. Qed.

Lemma set_obj_same s l f : frame_at s l f -> set_obj s l (PyDataFrame f) = s.
Proof.
  intros H. unfold set_obj. rewrite list_insert_id by exact H. destruct s; reflexivity.
Qed.

Lemma read_frame_at s l f : frame_at s l f -> read_frame l s = (Ok f, s).
Proof. intros H. unfold read_frame, bind, read. rewrite H. reflexivity. Qed.

Lemma bind_getitem {B} s l f n (k : column -> M B) :
  frame_at s l f ->
  bind (getitem l n) k s = match col_lookup n (columns f) with
                           | Some c => k c s
                           | None => (Raise (KeyError n), s)
                           end.
Proof.
  intros H. unfold getitem. rewrite bind_assoc, bind_eq, (read_frame_at _ _ _ H).
  destruct (col_lookup n (columns f)); reflexivity.
Qed.

Lemma bind_setitem {B} s l f n c (k : unit -> M B) :
  frame_at s l f ->
  bind (setitem l n c) k s =
    if Nat.eqb (col_length c) (index f)
    then k tt (set_obj s l (PyDataFrame (mkDataFrame (index f) (col_set n c (columns f)))))
    else (Raise (ValueError "Length of values does not match length of index"), s).
Proof.
  intros H. unfold setitem. rewrite bind_assoc, bind_eq, (read_frame_at _ _ _ H).
  destruct (Nat.eqb (col_length c) (index f)); reflexivity.
Qed.

Lemma getitems_at s l f names :
  frame_at s l f -> getitems l names s = (get_columns names (columns f), s).
Proof.
  intros H. induction names as [|n rest IH]; simpl; [reflexivity|].
  rewrite (bind_getitem _ _ _ _ _ H).
  destruct (col_lookup n (columns f)); [|reflexivity].
  rewrite bind_eq, IH. destruct (get_columns rest (columns f)); reflexivity.
Qed.

Lemma setitems_at s l f names cols :
  frame_at s l f ->
  setitems l names cols s =
    (fst (set_columns names cols f), set_obj s l (PyDataFrame (snd (set_columns names cols f)))).
Proof.
  revert s f cols. induction names as [|n rest IH]; intros s f cols H;
    destruct cols as [|c cs]; simpl.
  - rewrite (set_obj_same _ _ _ H). reflexivity.
  - rewrite (set_obj_same _ _ _ H). reflexivity.
  - rewrite (set_obj_same _ _ _ H). reflexivity.
  - rewrite (bind_setitem _ _ _ _ _ _ H).
    destruct (Nat.eqb (col_length c) (index f)).
    + rewrite (IH _ _ _ (frame_at_set_obj _ _ _ _ H)), set_obj_set_obj. reflexivity.
    + simpl. rewrite (set_obj_same _ _ _ H). reflexivity.
Qed.

Lemma drop_inplace_at s l f names :
  frame_at s l f ->
  drop_inplace l names s = match drop_columns names f with
                           | Ok f' => (Ok tt, set_obj s l (PyDataFrame f'))
                           | Raise e => (Raise e, s)
                           end.
Proof.
  intros H. unfold drop_inplace. rewrite bind_eq, (read_frame_at _ _ _ H), bind_lift.
  destruct (drop_columns names f); reflexivity.
Qed.

Lemma bind_alloc {B} o (k : loc -> M B) s :
  bind (alloc o) k s = k (length (heap s)) (alloc_obj s o).
Proof. reflexivity. Qed.

Lemma bind_read {B} l (k : obj -> M B) s :
  bind (read l) k s = match heap s !! l with
                      | Some o => k o s
                      | None => (Raise (TypeError "no such object"), s)
                      end.
Proof. unfold bind, read. destruct (heap s !! l); reflexivity. Qed.

Lemma bind_write {B} l o (k : unit -> M B) s :
  bind (write l o) k s = k tt (set_obj s l o).
Proof. reflexivity. Qed.

Lemma bind_journal {B} c (k : unit -> M B) s :
  bind (journal c) k s = k tt (log_call s c).
Proof. reflexivity. Qed.

Lemma frame_at_alloc s l f o : frame_at s l f -> frame_at (alloc_obj s o) l f.
Proof.
  unfold frame_at, alloc_obj. simpl. intros H.
  rewrite lookup_app_l; [exact H | eapply lookup_lt_Some, H].
Qed.

Lemma frame_at_log s l f c : frame_at s l f -> frame_at (log_call s c) l f.
Proof. exact id. Qed.

Lemma frame_at_set_other s l l' f o :
  frame_at s l f -> l' <> l -> frame_at (set_obj s l' o) l f.
Proof.
  unfold frame_at, set_obj. simpl. intros H Hne.
  rewrite list_lookup_insert_ne; [exact H | exact Hne].
Qed.

Lemma lookup_alloc_new s o : heap (alloc_obj s o) !! length (heap s) = Some o.
Proof. unfold alloc_obj. simpl. apply list_lookup_middle. reflexivity. Qed.

Lemma lookup_alloc_old s o l :
  (l < length (heap s))%nat -> heap (alloc_obj s o) !! l = heap s !! l.
Proof. intros H. unfold alloc_obj. simpl. apply lookup_app_l, H. Qed.

Lemma length_alloc s o : length (heap (alloc_obj s o)) = S (length (heap s)).
Proof. unfold alloc_obj. simpl. rewrite length_app. simpl. lia. Qed.

Lemma lookup_set_obj_same s l o :
  (l < length (heap s))%nat -> heap (set_obj s l o) !! l = Some o.
Proof. intros H. unfold set_obj. simpl. apply list_lookup_insert_eq, H. Qed.

Lemma lookup_set_obj_other s l l' o :
  l <> l' -> heap (set_obj s l o) !! l' = heap s !! l'.
Proof. intros H. unfold set_obj. simpl. apply list_lookup_insert_ne, H. Qed.

Lemma length_set_obj s l o : length (heap (set_obj s l o)) = length (heap s).
Proof. unfold set_obj. simpl. apply length_insert. Qed.

Lemma fit_arm_eq s df f :
  frame_at s df f ->
  fit_arm df s =
    let d := length (heap s) in
    let e := S d in
    let s2 := alloc_obj (alloc_obj s (PyDict [])) (PyOrdinalEncoder None) in
    match get_columns cat_cols (columns f) with
    | Raise err => (Raise err, s2)
    | Ok X =>
        match check_categorical X with
        | Raise err => (Raise err, log_call s2 (FitTransform e X))
        | Ok cols =>
            let cats := map categories_of cols in
            let rf := set_columns cat_cols (encode_columns cats cols) f in
            match fst rf with
            | Raise err => (Raise err, fit_arm_store s df (snd rf) X cats)
            | Ok _ => (Ok (Some d),
                       set_obj (fit_arm_store s df (snd rf) X cats) d
                               (PyDict [("ordinal_encoder", e)]))
            end
        end
    end.
Proof.
  intros Hf. pose proof (frame_at_lt _ _ _ Hf) as Hlt.
  unfold fit_arm. rewrite !bind_alloc, length_alloc.
  set (s2 := alloc_obj (alloc_obj s (PyDict [])) (PyOrdinalEncoder None)).
  assert (Hf2 : frame_at s2 df f) by (apply frame_at_alloc, frame_at_alloc, Hf).
  rewrite bind_eq, (getitems_at _ _ _ _ Hf2).
  cbv zeta. destruct (get_columns cat_cols (columns f)) as [X|err]; [|reflexivity].
  unfold OrdinalEncoder_fit_transform.
  rewrite bind_assoc, bind_read.
  assert (He : heap s2 !! S (length (heap s)) = Some (PyOrdinalEncoder None)).
  { unfold s2. rewrite <- (length_alloc s (PyDict [])). apply lookup_alloc_new. }
  rewrite He. rewrite bind_assoc, bind_journal, bind_assoc, bind_lift.
  destruct (check_categorical X) as [cols|err]; [|reflexivity].
  rewrite bind_assoc, bind_write, bind_ret.
  set (cats := map categories_of cols).
  set (s4 := set_obj (log_call s2 _) _ _).
  assert (Hf4 : frame_at s4 df f).
  { apply frame_at_set_other; [apply frame_at_log, Hf2 | lia]. }
  rewrite bind_eq, (setitems_at _ _ _ _ _ Hf4).
  destruct (set_columns cat_cols (encode_columns cats cols) f) as [[[]|err] f2] eqn:Eset;
    cbn [fst snd]; [|reflexivity].
  unfold dict_setitem. rewrite bind_assoc, bind_read.
  rewrite lookup_set_obj_other by lia.
  unfold s4. rewrite lookup_set_obj_other by lia.
  cbn [heap log_call]. unfold s2.
  rewrite lookup_alloc_old by (rewrite length_alloc; lia).
  rewrite lookup_alloc_new. rewrite bind_write. reflexivity.
Qed.

Lemma apply_arm_eq s df f encoders :
  frame_at s df f -> apply_arm df encoders s = apply_arm_spec df encoders s f.
Proof.
  intros Hf. unfold apply_arm, apply_arm_spec, dict_getitem.
  destruct encoders as [d|]; [|reflexivity].
  rewrite bind_assoc, bind_read.
  destruct (heap s !! d) as [[| | |items]|]; try reflexivity.
  destruct (dict_lookup "ordinal_encoder" items) as [e|]; [|reflexivity].
  rewrite bind_ret, bind_eq, (getitems_at _ _ _ _ Hf).
  destruct (get_columns cat_cols (columns f)) as [X|err]; [|reflexivity].
  unfold OrdinalEncoder_transform. rewrite bind_assoc, bind_read.
  destruct (heap s !! e) as [[|fitted| |]|]; try reflexivity.
  rewrite bind_assoc, bind_journal.
  destruct fitted as [cats|]; [|reflexivity].
  rewrite bind_assoc, bind_lift.
  destruct (check_categorical X) as [cols|err]; [|reflexivity].
  destruct (Nat.eqb (length cols) (length cats)); [|reflexivity].
  rewrite bind_ret, bind_eq.
  rewrite (setitems_at _ _ _ _ _ (frame_at_log _ _ _ (Transform e X) Hf)).
  cbv zeta. destruct (set_columns cat_cols (encode_columns cats cols) f) as [[[]|err] f2];
    reflexivity.
Qed.

Lemma bind_getitem_set {B} s l f n (k : column -> M B) :
  (l < length (heap s))%nat ->
  bind (getitem l n) k (set_obj s l (PyDataFrame f)) =
    match col_lookup n (columns f) with
    | Some c => k c (set_obj s l (PyDataFrame f))
    | None => (Raise (KeyError n), set_obj s l (PyDataFrame f))
    end.
Proof.
  intros H. apply bind_getitem. unfold frame_at. apply lookup_set_obj_same, H.
Qed.

Lemma bind_setitem_set {B} s l f n c (k : unit -> M B) :
  (l < length (heap s))%nat ->
  bind (setitem l n c) k (set_obj s l (PyDataFrame f)) =
    if Nat.eqb (col_length c) (index f)
    then k tt (set_obj s l (PyDataFrame (mkDataFrame (index f) (col_set n c (columns f)))))
    else (Raise (ValueError "Length of values does not match length of index"),
          set_obj s l (PyDataFrame f)).
Proof.
  intros H. rewrite (bind_setitem _ l f); [|unfold frame_at; apply lookup_set_obj_same, H].
  rewrite set_obj_set_obj. reflexivity.
Qed.

Lemma setitem_set s l f n c :
  (l < length (heap s))%nat ->
  setitem l n c (set_obj s l (PyDataFrame f)) =
    if Nat.eqb (col_length c) (index f)
    then (Ok tt, set_obj s l (PyDataFrame (mkDataFrame (index f) (col_set n c (columns f)))))
    else (Raise (ValueError "Length of values does not match length of index"),
          set_obj s l (PyDataFrame f)).
Proof.
  intros H. pose proof (bind_setitem_set s l f n c ret H) as E.
  unfold bind, ret in E. destruct (setitem l n c (set_obj s l (PyDataFrame f))) as [[[]|e] s1];
    destruct (Nat.eqb (col_length c) (index f)); congruence.
Qed.

Ltac go_lookups :=
  cbn [columns index];
  repeat first [ rewrite col_lookup_set_same
               | rewrite col_lookup_set_other by reflexivity ].

(** One statement, in the goal: rewrite it by its equation and split on
    its outcome; [on_err] closes the branch where it raises. *)
Ltac go_step on_err :=
  first
    [ rewrite !bind_getitem_set by assumption; cbv beta; go_lookups;
      lazymatch goal with
      | |- context [match col_lookup ?n ?cols with _ => _ end] =>
          first [ match goal with E : col_lookup n cols = _ |- _ => rewrite !E end
                | let E := fresh "Eget" in
                  destruct (col_lookup n cols) eqn:E; [|on_err] ]
      end
    | rewrite !bind_lift; cbv beta;
      lazymatch goal with
      | |- context [match ?r with Ok _ => _ | Raise _ => _ end] =>
          let E := fresh "Elift" in destruct r eqn:E; [|on_err]
      end
    | rewrite !bind_setitem_set by assumption; cbv beta; cbn [columns index col_length];
      rewrite ?length_map;
      lazymatch goal with
      | |- context [if Nat.eqb ?a ?b then _ else _] =>
          let E := fresh "Elen" in destruct (Nat.eqb a b) eqn:E; [|on_err]
      end ].

Lemma derive_features_spec v now df s f :
  (df < length (heap s))%nat ->
  exists r f1,
    derive_features v now df (set_obj s df (PyDataFrame f)) =
      (r, set_obj s df (PyDataFrame f1)) /\
    index f1 = index f /\
    match r with
    | Ok _ => derived v now f f1
    | Raise _ => True
    end.
Proof.
  intros Hlt. unfold derive_features.
  do 33 (go_step ltac:(eexists _, _; split; [reflexivity | split; [reflexivity | exact I]])).
  rewrite setitem_set by assumption. cbn [columns index].
  lazymatch goal with
  | |- context [if Nat.eqb ?a ?b then _ else _] => destruct (Nat.eqb a b) eqn:Elen6
  end; [|eexists _, _; split; [reflexivity | split; [reflexivity | exact I]]].
  eexists _, _. split; [reflexivity|]. split; [reflexivity|].
  unfold derived. do 24 eexists.
  repeat lazymatch goal with |- _ /\ _ => split end; try eassumption; try reflexivity.
  repeat constructor; cbn [col_length]; rewrite ?length_map; apply Nat.eqb_eq; assumption.
Qed.

Lemma feature_engineering_derived v now df encs fit s r s' f :
  frame_at s df f ->
  feature_engineering v now df encs fit s = (Ok r, s') ->
  exists f1,
    derived v now f f1 /\
    bind (if fit then fit_arm df else apply_arm df encs)
         (fun encoders => bind (drop_inplace df unused_cols) (fun _ => ret (df, encoders)))
         (set_obj s df (PyDataFrame f1)) = (Ok r, s').
Proof.
  intros Hf H. pose proof (frame_at_lt _ _ _ Hf) as Hlt.
  unfold feature_engineering in H. rewrite bind_eq in H.
  rewrite <- (set_obj_same s df f Hf) in H.
  destruct (derive_features_spec v now df s f Hlt) as (r1 & f1 & E & _ & Hd).
  rewrite E in H. destruct r1 as [[]|e]; [|discriminate H].
  exists f1. split; [exact Hd | exact H].
Qed.

Lemma get_columns_cat_cols_with_features f a b c d e g h :
  get_columns cat_cols (columns (with_features f a b c d e g h)) =
  get_columns cat_cols (columns f).
Proof.
  unfold with_features, cat_cols, get_columns. cbn [columns].
  repeat rewrite col_lookup_set_other by reflexivity. reflexivity.
Qed.




Lemma heap_kept_alloc df s o : heap_kept df s (alloc_obj s o).
Proof.
  intros l o' _ H. rewrite lookup_alloc_old; [exact H | eapply lookup_lt_Some, H].
Qed.

Lemma heap_kept_log df s c : heap_kept df s (log_call s c).
Proof. intros l o _ H. exact H. Qed.

Lemma heap_kept_set_new df s s' l o :
  heap_kept df s s' -> (length (heap s) <= l)%nat -> heap_kept df s (set_obj s' l o).
Proof.
  intros Hk Hl l' o' Hne H.
  rewrite lookup_set_obj_other; [apply Hk; assumption|].
  apply lookup_lt_Some in H. lia.
Qed.

Lemma feature_engineering_ok v now df encs fit s r s' f :
  frame_at s df f ->
  feature_engineering v now df encs fit s = (Ok r, s') ->
  exists f1 X cols cats f2 f3,
    derived v now f f1 /\
    get_columns cat_cols (columns f) = Ok X /\
    check_categorical X = Ok cols /\
    set_columns cat_cols (encode_columns cats cols) f1 = (Ok tt, f2) /\
    drop_columns unused_cols f2 = Ok f3 /\
    frame_at s' df f3 /\
    fst r = df /\
    heap_kept df s s' /\
    encoded fit encs df s s' (snd r) X cols cats.
Proof.
  intros Hf H.
  destruct (feature_engineering_derived _ _ _ _ _ _ _ _ _ Hf H) as (f1 & Hd & H1).
  clear H. pose proof (frame_at_lt _ _ _ Hf) as Hlt.
  pose proof (frame_at_set_obj _ _ _ f1 Hf) as Hf1.
  assert (Hf1' : exists a b c d e g h, f1 = with_features f a b c d e g h).
  { destruct Hd as (?&?&?&?&?&?&?&?&?&?&?&a&b&yrs&?&?&?&?&?&d&?&e&?&h&Hd).
    repeat match type of Hd with _ /\ ?B => destruct Hd as [_ Hd] end.
    do 7 eexists. exact Hd. }
  destruct Hf1' as (a&b&c&d&e&g&h&Ef1).
  rewrite bind_eq in H1. destruct fit.
  - rewrite (fit_arm_eq _ _ _ Hf1) in H1. cbv zeta in H1.
    rewrite Ef1, get_columns_cat_cols_with_features, <- Ef1 in H1.
    destruct (get_columns cat_cols (columns f)) as [X|] eqn:EX; [|discriminate H1].
    destruct (check_categorical X) as [cols|] eqn:Ecols; [|discriminate H1].
    destruct (set_columns cat_cols _ f1) as [[[]|] f2] eqn:Eset; cbn [fst snd] in H1;
      [|discriminate H1].
    rewrite bind_eq in H1.
    match type of H1 with context [drop_inplace df unused_cols ?s0] =>
      assert (Hf2 : frame_at s0 df f2)
    end.
    { apply frame_at_set_other; [|rewrite length_set_obj; lia].
      unfold fit_arm_store. eapply frame_at_set_obj.
      apply frame_at_set_other; [|rewrite length_set_obj; lia].
      apply frame_at_log, frame_at_alloc, frame_at_alloc, Hf1. }
    rewrite (drop_inplace_at _ _ _ _ Hf2) in H1.
    destruct (drop_columns unused_cols f2) as [f3|] eqn:Edrop; [|discriminate H1].
    cbv beta iota in H1. unfold ret in H1. injection H1 as <- <-.
    exists f1, X, cols, (map categories_of cols), f2, f3.
    rewrite ?length_set_obj, ?length_insert in *.
    repeat split; try assumption; try reflexivity.
    + eapply frame_at_set_obj, Hf2.
    + intros l o Hne Hl. pose proof (lookup_lt_Some _ _ _ Hl) as Hll.
      unfold fit_arm_store. cbv zeta. rewrite ?length_set_obj.
      rewrite !lookup_set_obj_other by (rewrite ?length_set_obj; lia).
      cbn [heap log_call].
      rewrite !lookup_alloc_old by (rewrite ?length_alloc, ?length_set_obj; lia).
      rewrite lookup_set_obj_other by congruence. exact Hl.
    + cbn [snd]. rewrite lookup_set_obj_other by lia.
      apply lookup_set_obj_same. unfold fit_arm_store. cbv zeta.
      rewrite !length_set_obj. cbn [heap log_call]. rewrite !length_alloc, length_set_obj. lia.
    + cbn [snd]. unfold fit_arm_store. cbv zeta. rewrite ?length_set_obj.
      rewrite !lookup_set_obj_other by lia.
      apply lookup_set_obj_same. cbn [heap log_call]. rewrite !length_alloc, length_set_obj. lia.
    + unfold fit_arm_store. cbv zeta. rewrite !length_set_obj. cbn [heap log_call].
      rewrite !length_alloc, length_set_obj. reflexivity.
    + unfold fit_arm_store. cbv zeta. rewrite ?length_set_obj. reflexivity.
  - rewrite (apply_arm_eq _ _ _ _ Hf1) in H1. unfold apply_arm_spec in H1.
    rewrite Ef1, get_columns_cat_cols_with_features, <- Ef1 in H1.
    destruct encs as [dd|]; [|discriminate H1].
    destruct (heap (set_obj s df (PyDataFrame f1)) !! dd) as [[| | |items]|] eqn:Ed;
      try discriminate H1.
    destruct (dict_lookup "ordinal_encoder" items) as [ee|] eqn:Ee; [|discriminate H1].
    destruct (get_columns cat_cols (columns f)) as [X|] eqn:EX; [|discriminate H1].
    destruct (heap (set_obj s df (PyDataFrame f1)) !! ee) as [[|[cats|]| |]|] eqn:Eenc;
      try discriminate H1.
    destruct (check_categorical X) as [cols|] eqn:Ecols; [|discriminate H1].
    destruct (Nat.eqb (length cols) (length cats)) eqn:Elen; [|discriminate H1].
    cbv zeta in H1.
    destruct (set_columns cat_cols _ f1) as [[[]|] f2] eqn:Eset; cbn [fst snd] in H1;
      [|discriminate H1].
    rewrite bind_eq in H1.
    match type of H1 with context [drop_inplace df unused_cols ?s0] =>
      assert (Hf2 : frame_at s0 df f2)
    end.
    { eapply frame_at_set_obj, frame_at_log, Hf1. }
    rewrite (drop_inplace_at _ _ _ _ Hf2) in H1.
    destruct (drop_columns unused_cols f2) as [f3|] eqn:Edrop; [|discriminate H1].
    cbv beta iota in H1. unfold ret in H1. injection H1 as <- <-.
    assert (Hdd : dd <> df).
    { intros ->. rewrite lookup_set_obj_same in Ed by exact Hlt. discriminate Ed. }
    assert (Hee : ee <> df).
    { intros ->. rewrite lookup_set_obj_same in Eenc by exact Hlt. discriminate Eenc. }
    rewrite lookup_set_obj_other in Ed, Eenc by congruence.
    exists f1, X, cols, cats, f2, f3.
    repeat split; try assumption; try reflexivity.
    + eapply frame_at_set_obj, Hf2.
    + intros l o Hne Hl. rewrite !lookup_set_obj_other by congruence.
      cbn [heap log_call]. rewrite lookup_set_obj_other by congruence. exact Hl.
    + exists dd, items, ee. cbn [snd].
      repeat split; try assumption; try reflexivity.
      * apply Nat.eqb_eq, Elen.
      * rewrite !length_set_obj. cbn [heap log_call]. apply length_set_obj.
Qed.

(** ** float64 arithmetic *)

Lemma digits2_pos_size p : digits2_pos p = Pos.size p.
Proof. induction p; simpl; congruence. Qed.

Lemma Zdigits2_log2 m : 0 < m -> Zdigits2 m = Z.log2 m + 1.
Proof.
  destruct m as [|p|p]; try lia. intros _. simpl.
  destruct p; simpl; rewrite ?digits2_pos_size; lia.
Qed.

Lemma Zdigits2_nonneg m : 0 <= Zdigits2 m.
Proof. destruct m; simpl; lia. Qed.

Lemma Zdigits2_le m k : 0 <= m -> 0 <= k -> m < 2 ^ k -> Zdigits2 m <= k.
Proof.
  intros Hm Hk H. destruct (Z.eq_dec m 0) as [->|Hne]; [simpl; lia|].
  rewrite Zdigits2_log2 by lia.
  assert (Z.log2 m < k) by (apply Z.log2_lt_pow2; lia). lia.
Qed.

Lemma Zdigits2_gt m : 0 < m -> m < 2 ^ Zdigits2 m.
Proof.
  intros Hm. rewrite Zdigits2_log2 by lia.
  apply Z.log2_lt_pow2; lia.
Qed.

Lemma Zdigits2_lower m : 0 < m -> 2 ^ (Zdigits2 m - 1) <= m.
Proof.
  intros Hm. rewrite Zdigits2_log2 by lia.
  replace (Z.log2 m + 1 - 1) with (Z.log2 m) by lia.
  apply Z.log2_spec. lia.
Qed.

Lemma Zdigits2_mono a b : 0 < a -> a <= b -> Zdigits2 a <= Zdigits2 b.
Proof.
  intros Ha Hab. rewrite !Zdigits2_log2 by lia.
  pose proof (Z.log2_le_mono a b Hab). lia.
Qed.

Lemma Zdigits2_div_pow2 m k :
  0 < m -> 0 <= k < Zdigits2 m -> Zdigits2 (m / 2 ^ k) = Zdigits2 m - k.
Proof.
  intros Hm Hk.
  assert (H2 : 2 ^ k <= m).
  { pose proof (Zdigits2_lower m Hm).
    assert (2 ^ k <= 2 ^ (Zdigits2 m - 1)) by (apply Z.pow_le_mono_r; lia). lia. }
  assert (0 < m / 2 ^ k).
  { apply Z.div_str_pos. split; [apply Z.pow_pos_nonneg; lia | exact H2]. }
  rewrite !Zdigits2_log2 by lia.
  rewrite <- Z.shiftr_div_pow2 by lia.
  rewrite Z.log2_shiftr by lia.
  rewrite Zdigits2_log2 in Hk by lia. lia.
Qed.

(** [shr_1] halves the mantissa. *)
Lemma shr_1_m mrs : 0 <= shr_m mrs -> shr_m (shr_1 mrs) = shr_m mrs / 2.
Proof.
  destruct mrs as [m r s]. simpl. intros Hm.
  destruct m as [|p|p]; try lia; [reflexivity|].
  destruct p as [p|p|]; simpl shr_m.
  - rewrite Pos2Z.inj_xI. apply Z.div_unique with 1; lia.
  - rewrite Pos2Z.inj_xO. apply Z.div_unique with 0; lia.
  - reflexivity.
Qed.

Lemma iter_pos_nat {A} (f : A -> A) p x : @SpecFloat.iter_pos A f p x = Nat.iter (Pos.to_nat p) f x.
Proof.
  revert x. induction p as [p IH|p IH|]; intros x; cbn [SpecFloat.iter_pos].
  - rewrite !IH, Pos2Nat.inj_xI.
    replace (S (2 * Pos.to_nat p)) with (Pos.to_nat p + S (Pos.to_nat p))%nat by lia.
    rewrite Nat.iter_add, Nat.iter_succ_r. reflexivity.
  - rewrite !IH, Pos2Nat.inj_xO.
    replace (2 * Pos.to_nat p)%nat with (Pos.to_nat p + Pos.to_nat p)%nat by lia.
    rewrite Nat.iter_add. reflexivity.
  - reflexivity.
Qed.

Lemma shr_iter_m k mrs :
  0 <= shr_m mrs -> shr_m (Nat.iter k shr_1 mrs) = shr_m mrs / 2 ^ Z.of_nat k.
Proof.
  intros Hm. induction k as [|k IH].
  - simpl. rewrite Z.div_1_r. reflexivity.
  - rewrite Nat2Z.inj_succ, Z.pow_succ_r by lia. simpl.
    rewrite shr_1_m.
    + rewrite IH, Z.div_div by (try apply Z.pow_pos_nonneg; lia).
      f_equal. lia.
    + rewrite IH. apply Z.div_pos; [lia | apply Z.pow_pos_nonneg; lia].
Qed.

Lemma shr_record_of_loc_m m l : shr_m (shr_record_of_loc m l) = m.
Proof. destruct l as [|[]]; reflexivity. Qed.

(** The exponent and the mantissa [shr_fexp] settles on. *)
Lemma shr_fexp_spec m e l :
  0 <= m ->
  let e' := Z.max e (fexp F64.prec F64.emax (Zdigits2 m + e)) in
  snd (shr_fexp F64.prec F64.emax m e l) = e' /\
  shr_m (fst (shr_fexp F64.prec F64.emax m e l)) = m / 2 ^ (e' - e).
Proof.
  intros Hm e'. unfold shr_fexp, shr.
  destruct (fexp F64.prec F64.emax (Zdigits2 m + e) - e) as [|p|p] eqn:E; cbn [fst snd].
  - assert (e' = e) by (unfold e'; lia). rewrite H, Z.sub_diag, Z.div_1_r.
    split; [reflexivity | apply shr_record_of_loc_m].
  - assert (e' = e + Z.pos p) by (unfold e'; lia). split; [lia|].
    rewrite iter_pos_nat, shr_iter_m by (rewrite shr_record_of_loc_m; exact Hm).
    rewrite shr_record_of_loc_m, positive_nat_Z. f_equal. f_equal. lia.
  - assert (e' = e) by (unfold e'; lia). rewrite H, Z.sub_diag, Z.div_1_r.
    split; [reflexivity | apply shr_record_of_loc_m].
Qed.

Lemma round_nearest_even_bounds m l : m <= round_nearest_even m l <= m + 1.
Proof. destruct l as [|[]]; simpl; try lia. destruct (Z.even m); lia. Qed.

(** Rounding stays finite when the value is below [2^(emax-1)]. *)
Lemma binary_round_aux_finite s m e l :
  0 <= m -> e <= F64.emax - F64.prec -> Zdigits2 m + e <= F64.emax - 1 ->
  finite_with_sign s (binary_round_aux F64.prec F64.emax s m e l).
Proof.
  intros Hm He Hd. unfold binary_round_aux.
  destruct (shr_fexp_spec m e l Hm) as [E1 M1].
  destruct (shr_fexp F64.prec F64.emax m e l) as [mrs' e'] eqn:S1. cbn [fst snd] in E1, M1. symmetry in E1. rewrite E1 in M1.
  set (m2 := round_nearest_even (shr_m mrs') (loc_of_shr_record mrs')).
  assert (Hm1 : 0 <= shr_m mrs').
  { rewrite M1. apply Z.div_pos; [lia | apply Z.pow_pos_nonneg; lia]. }
  pose proof (round_nearest_even_bounds (shr_m mrs') (loc_of_shr_record mrs')) as Hr.
  fold m2 in Hr.
  assert (Hm2 : 0 <= m2) by lia.
  destruct (shr_fexp_spec m2 e' loc_Exact Hm2) as [E2 M2].
  destruct (shr_fexp F64.prec F64.emax m2 e' loc_Exact) as [mrs'' e''] eqn:S2.
  cbn [fst snd] in E2, M2. symmetry in E2. rewrite E2 in M2.
  assert (He' : e' <= F64.emax - F64.prec).
  { rewrite <- E1. unfold fexp, emin, F64.emax, F64.prec in *. lia. }
  assert (Hd2 : Zdigits2 m2 + e' <= F64.emax).
  { destruct (Z.eq_dec (shr_m mrs') 0) as [Hz|Hnz].
    - assert (Zdigits2 m2 <= 1) by (apply Zdigits2_le; lia).
      unfold F64.emax, F64.prec in *. lia.
    - assert (Hk : 0 <= e' - e) by lia.
      assert (Hpos : 0 < m).
      { destruct (Z.eq_dec m 0) as [->|]; [|lia]. rewrite Z.div_0_l in M1; [lia|].
        apply Z.pow_nonzero; lia. }
      assert (Hkd : e' - e < Zdigits2 m).
      { destruct (Z_lt_le_dec (e' - e) (Zdigits2 m)) as [|Hge]; [assumption|].
        exfalso. apply Hnz. rewrite M1. apply Z.div_small. split; [lia|].
        eapply Z.lt_le_trans; [apply Zdigits2_gt, Hpos|].
        apply Z.pow_le_mono_r; lia. }
      assert (Hd1 : Zdigits2 (shr_m mrs') = Zdigits2 m - (e' - e)).
      { rewrite M1. apply Zdigits2_div_pow2; lia. }
      assert (Zdigits2 m2 <= Zdigits2 m - (e' - e) + 1).
      { apply Zdigits2_le; [lia | lia |].
        pose proof (Zdigits2_gt (shr_m mrs') ltac:(lia)) as Hlt. rewrite Hd1 in Hlt.
        rewrite Z.pow_add_r by lia. lia. }
      lia. }
  assert (He'' : e'' <= F64.emax - F64.prec).
  { rewrite <- E2. unfold fexp, emin, F64.emax, F64.prec in *. lia. }
  assert (Hm3 : 0 <= shr_m mrs'').
  { rewrite M2. apply Z.div_pos; [lia | apply Z.pow_pos_nonneg; lia]. }
  destruct (shr_m mrs'') as [|p|p]; simpl; [reflexivity| |lia].
  apply Z.leb_le in He''. rewrite He''. reflexivity.
Qed.

(** Rounding a number of the normal range keeps it finite, non-zero, and
    no smaller in magnitude class. *)
Lemma binary_round_aux_normal s m e l :
  0 < m -> e <= F64.emax - F64.prec ->
  emin F64.prec F64.emax + F64.prec <= Zdigits2 m + e <= F64.emax - 1 ->
  exists m' e',
    binary_round_aux F64.prec F64.emax s m e l = S754_finite s m' e' /\
    Zdigits2 m + e <= Zdigits2 (Z.pos m') + e'.
Proof.
  intros Hm He Hd.
  pose proof (binary_round_aux_finite s m e l ltac:(lia) He ltac:(lia)) as Hfin.
  unfold binary_round_aux in *.
  destruct (shr_fexp_spec m e l ltac:(lia)) as [E1 M1].
  destruct (shr_fexp F64.prec F64.emax m e l) as [mrs' e'] eqn:S1.
  cbn [fst snd] in E1, M1. symmetry in E1. rewrite E1 in M1.
  set (m2 := round_nearest_even (shr_m mrs') (loc_of_shr_record mrs')) in *.
  pose proof (round_nearest_even_bounds (shr_m mrs') (loc_of_shr_record mrs')) as Hr.
  fold m2 in Hr.
  assert (Hk : 0 <= e' - e < Zdigits2 m).
  { rewrite <- E1. unfold fexp, emin, F64.emax, F64.prec in *.
    pose proof (Zdigits2_log2 m Hm). pose proof (Z.log2_nonneg m). lia. }
  assert (Hd1 : Zdigits2 (shr_m mrs') = Zdigits2 m - (e' - e)).
  { rewrite M1. apply Zdigits2_div_pow2; lia. }
  assert (Hm1 : 0 < shr_m mrs').
  { destruct (shr_m mrs') as [|p|p] eqn:Ep; [simpl in Hd1; lia | lia |].
    rewrite M1 in Ep.
    assert (0 <= m / 2 ^ (e' - e)) by (apply Z.div_pos; [lia | apply Z.pow_pos_nonneg; lia]).
    lia. }
  assert (Hd2 : Zdigits2 (shr_m mrs') <= Zdigits2 m2) by (apply Zdigits2_mono; lia).
  destruct (shr_fexp_spec m2 e' loc_Exact ltac:(lia)) as [E2 M2].
  destruct (shr_fexp F64.prec F64.emax m2 e' loc_Exact) as [mrs'' e''] eqn:S2.
  cbn [fst snd] in E2, M2. symmetry in E2. rewrite E2 in M2.
  assert (Hk2 : 0 <= e'' - e' < Zdigits2 m2).
  { rewrite <- E2. unfold fexp, emin, F64.emax, F64.prec in *.
    pose proof (Zdigits2_log2 m2 ltac:(lia)). pose proof (Z.log2_nonneg m2). lia. }
  assert (Hd3 : Zdigits2 (shr_m mrs'') = Zdigits2 m2 - (e'' - e')).
  { rewrite M2. apply Zdigits2_div_pow2; lia. }
  destruct (shr_m mrs'') as [|p|p] eqn:Ep.
  - simpl in Hd3. lia.
  - destruct (e'' <=? F64.emax - F64.prec); [|contradiction].
    exists p, e''. split; [reflexivity|]. lia.
  - contradiction.
Qed.

Lemma pos_iter_xO a d : Z.pos (Pos.iter xO a d) = Z.pos a * 2 ^ Z.pos d.
Proof.
  rewrite Pos2Nat.inj_iter.
  replace (Z.pos d) with (Z.of_nat (Pos.to_nat d)) by apply positive_nat_Z.
  induction (Pos.to_nat d) as [|k IH]; simpl nat_rect.
  - rewrite Z.pow_0_r. lia.
  - rewrite Nat2Z.inj_succ, Z.pow_succ_r, Pos2Z.inj_xO, IH by lia. lia.
Qed.

Lemma Zdigits2_mul_pow2 m k : 0 < m -> 0 <= k -> Zdigits2 (m * 2 ^ k) = Zdigits2 m + k.
Proof.
  intros Hm Hk.
  assert (0 < m * 2 ^ k) by (apply Z.mul_pos_pos; [lia | apply Z.pow_pos_nonneg; lia]).
  rewrite !Zdigits2_log2, Z.log2_mul_pow2 by lia. lia.
Qed.

(** An integer from 1 up to [2^63] converts to a positive float at least as
    large in magnitude class. *)
Lemma of_int_pos n :
  1 <= n < 2 ^ 63 ->
  exists m e, F64.of_int n = S754_finite false m e /\ Zdigits2 n <= Zdigits2 (Z.pos m) + e.
Proof.
  intros Hn. destruct n as [|p|p]; try lia.
  unfold F64.of_int, binary_normalize, binary_round.
  assert (Hdn : 1 <= Zdigits2 (Z.pos p) <= 63).
  { split.
    - pose proof (Zdigits2_log2 (Z.pos p) ltac:(lia)). pose proof (Z.log2_nonneg (Z.pos p)). lia.
    - apply Zdigits2_le; lia. }
  change (Z.pos (digits2_pos p)) with (Zdigits2 (Z.pos p)).
  destruct (shl_align p 0 (fexp F64.prec F64.emax (Zdigits2 (Z.pos p) + 0))) as [mz ez] eqn:Esh.
  assert (Hsh : Zdigits2 (Z.pos mz) + ez = Zdigits2 (Z.pos p) /\ ez <= 0).
  { unfold shl_align in Esh.
    destruct (fexp F64.prec F64.emax (Zdigits2 (Z.pos p) + 0) - 0) as [|d|d] eqn:Ed;
      injection Esh as <- <-;
      change (Z.pos (digits2_pos p)) with (Zdigits2 (Z.pos p)) in *; try lia.
    rewrite pos_iter_xO, Zdigits2_mul_pow2 by lia.
    unfold fexp, emin, F64.prec, F64.emax in *. lia. }
  destruct (binary_round_aux_normal false (Z.pos mz) ez loc_Exact) as (m' & e' & Hr & Hd).
  - lia.
  - unfold F64.emax, F64.prec. lia.
  - unfold emin, F64.emax, F64.prec. lia.
  - exists m', e'. split; [exact Hr | lia].
Qed.

(** Dividing a float64 by one that is at least 2 cannot overflow. *)
Lemma div_finite_ge2 sx mx ex sy my ey :
  bounded F64.prec F64.emax mx ex = true ->
  2 <= Zdigits2 (Z.pos my) + ey ->
  finite_with_sign (xorb sx sy) (F64.div (S754_finite sx mx ex) (S754_finite sy my ey)).
Proof.
  intros Hb Hy. unfold F64.div, SFdiv, SFdiv_core_binary.
  unfold bounded, canonical_mantissa in Hb. apply andb_true_iff in Hb as [Hc He].
  apply Z.eqb_eq in Hc. apply Z.leb_le in He.
  change (Z.pos (digits2_pos mx)) with (Zdigits2 (Z.pos mx)) in Hc.
  set (d1 := Zdigits2 (Z.pos mx)) in *. set (d2 := Zdigits2 (Z.pos my)) in *.
  set (e' := Z.min (fexp F64.prec F64.emax (d1 + ex - (d2 + ey))) (ex - ey)).
  set (m' := match ex - ey - e' with
             | 0 => Z.pos mx
             | Z.pos _ => Z.shiftl (Z.pos mx) (ex - ey - e')
             | Z.neg _ => 0
             end).
  assert (Hs : 0 <= ex - ey - e') by (unfold e'; lia).
  assert (Hm' : m' = Z.pos mx * 2 ^ (ex - ey - e')).
  { unfold m'. destruct (ex - ey - e') as [|p|p] eqn:E; try lia.
    rewrite Z.shiftl_mul_pow2 by lia. reflexivity. }
  assert (Hd1 : 1 <= d1).
  { unfold d1. pose proof (Zdigits2_log2 (Z.pos mx) ltac:(lia)).
    pose proof (Z.log2_nonneg (Z.pos mx)). lia. }
  unfold Z.div_eucl at 1. fold (Z.div_eucl m' (Z.pos my)).
  pose proof (Z.div_eucl_eq m' (Z.pos my) ltac:(lia)) as Heq.
  pose proof (Z.mod_pos_bound m' (Z.pos my) ltac:(lia)) as Hmod.
  unfold Z.modulo in Hmod.
  destruct (Z.div_eucl m' (Z.pos my)) as [q r] eqn:Eqr.
  assert (Hq0 : 0 <= q).
  { assert (0 <= m') by (rewrite Hm'; apply Z.mul_nonneg_nonneg; [lia | apply Z.pow_nonneg; lia]).
    destruct (Z_lt_le_dec q 0); [|lia]. exfalso.
    assert (Z.pos my * q <= - Z.pos my) by nia. lia. }
  apply binary_round_aux_finite.
  - exact Hq0.
  - unfold e', fexp, emin, F64.emax, F64.prec in *. lia.
  - destruct (Z.eq_dec q 0) as [->|Hq]; [simpl; unfold e', fexp, emin, F64.emax, F64.prec in *; lia|].
    assert (Hqd : Zdigits2 q <= d1 + (ex - ey - e') - d2 + 1).
    { assert (Hlow : 2 ^ (d2 - 1) <= Z.pos my) by (apply Zdigits2_lower; lia).
      assert (Hup : m' < 2 ^ (d1 + (ex - ey - e'))).
      { rewrite Hm', Z.pow_add_r by lia.
        apply Z.mul_lt_mono_pos_r; [apply Z.pow_pos_nonneg; lia | apply Zdigits2_gt; lia]. }
      assert (Hd2 : 1 <= d2).
      { unfold d2. pose proof (Zdigits2_log2 (Z.pos my) ltac:(lia)).
        pose proof (Z.log2_nonneg (Z.pos my)). lia. }
      assert (Hqm : 2 ^ (d2 - 1) * q <= m') by nia.
      destruct (Z_lt_le_dec (d1 + (ex - ey - e') - d2 + 1) 0) as [Hneg|Hnn].
      - exfalso.
        assert (2 ^ (d1 + (ex - ey - e')) <= 2 ^ (d2 - 1)) by (apply Z.pow_le_mono_r; lia).
        assert (1 <= q) by lia. nia.
      - apply Zdigits2_le; [lia | lia |].
        apply Z.mul_lt_mono_pos_l with (2 ^ (d2 - 1)); [apply Z.pow_pos_nonneg; lia|].
        rewrite <- Z.pow_add_r by lia.
        replace (d2 - 1 + (d1 + (ex - ey - e') - d2 + 1)) with (d1 + (ex - ey - e')) by lia.
        lia. }
    unfold fexp, emin, F64.emax, F64.prec in *. lia.
Qed.

(** Shifting out zeros is exact. *)
Lemma shr_iter_exact k m :
  0 < m ->
  Nat.iter k shr_1 {| shr_m := m * 2 ^ Z.of_nat k; shr_r := false; shr_s := false |} =
  {| shr_m := m; shr_r := false; shr_s := false |}.
Proof.
  revert m. induction k as [|k IH]; intros m Hm.
  - simpl. rewrite Z.mul_1_r. reflexivity.
  - rewrite Nat.iter_succ_r, Nat2Z.inj_succ, Z.pow_succ_r by lia.
    replace (m * (2 * 2 ^ Z.of_nat k)) with (2 * (m * 2 ^ Z.of_nat k)) by lia.
    assert (H : 0 < m * 2 ^ Z.of_nat k)
      by (apply Z.mul_pos_pos; [lia | apply Z.pow_pos_nonneg; lia]).
    destruct (m * 2 ^ Z.of_nat k) as [|p|p] eqn:E; try lia.
    change (2 * Z.pos p) with (Z.pos p~0). cbn [shr_1 orb].
    rewrite <- E. apply IH, Hm.
Qed.

(** A float64 written with [j] extra low zero bits rounds to itself. *)
Lemma binary_round_aux_exact s mx ex j :
  bounded F64.prec F64.emax mx ex = true -> 0 <= j ->
  binary_round_aux F64.prec F64.emax s (Z.pos mx * 2 ^ j) (ex - j) loc_Exact =
  S754_finite s mx ex.
Proof.
  intros Hb Hj. unfold bounded, canonical_mantissa in Hb.
  apply andb_true_iff in Hb as [Hc He]. apply Z.eqb_eq in Hc.
  change (Z.pos (digits2_pos mx)) with (Zdigits2 (Z.pos mx)) in Hc.
  unfold binary_round_aux.
  assert (S1 : shr_fexp F64.prec F64.emax (Z.pos mx * 2 ^ j) (ex - j) loc_Exact =
               ({| shr_m := Z.pos mx; shr_r := false; shr_s := false |}, ex)).
  { unfold shr_fexp. rewrite Zdigits2_mul_pow2 by lia.
    replace (Zdigits2 (Z.pos mx) + j + (ex - j)) with (Zdigits2 (Z.pos mx) + ex) by lia.
    rewrite Hc. replace (ex - (ex - j)) with j by lia.
    unfold shr. destruct j as [|p|p]; try lia.
    - rewrite Z.pow_0_r, Z.mul_1_r, Z.sub_0_r. reflexivity.
    - rewrite iter_pos_nat. cbn [shr_record_of_loc].
      replace (Z.pos p) with (Z.of_nat (Pos.to_nat p)) at 1 by apply positive_nat_Z.
      rewrite shr_iter_exact by lia. f_equal. lia. }
  rewrite S1. cbn [shr_m loc_of_shr_record round_nearest_even].
  assert (S2 : shr_fexp F64.prec F64.emax (Z.pos mx) ex loc_Exact =
               ({| shr_m := Z.pos mx; shr_r := false; shr_s := false |}, ex)).
  { unfold shr_fexp. rewrite Hc, Z.sub_diag. reflexivity. }
  rewrite S2. cbn [shr_m]. rewrite He. reflexivity.
Qed.

Lemma of_int_1 : F64.of_int 1 = S754_finite false 4503599627370496 (-52).
Proof. reflexivity. Qed.

(** [x / 1.0] is [x]. *)
Lemma div_one sx mx ex :
  bounded F64.prec F64.emax mx ex = true ->
  F64.div (S754_finite sx mx ex) (F64.of_int 1) = S754_finite sx mx ex.
Proof.
  intros Hb. rewrite of_int_1. unfold F64.div, SFdiv, SFdiv_core_binary.
  pose proof Hb as Hb'. unfold bounded, canonical_mantissa in Hb'.
  apply andb_true_iff in Hb' as [Hc He]. apply Z.eqb_eq in Hc.
  change (Z.pos (digits2_pos mx)) with (Zdigits2 (Z.pos mx)) in Hc.
  change (Zdigits2 4503599627370496) with 53.
  set (d1 := Zdigits2 (Z.pos mx)) in *.
  set (e' := Z.min (fexp F64.prec F64.emax (d1 + ex - (53 + -52))) (ex - -52)).
  assert (He' : e' <= ex).
  { unfold e'. unfold fexp, emin, F64.prec, F64.emax in *. lia. }
  assert (Hs : ex - -52 - e' = 52 + (ex - e')) by lia.
  rewrite Hs.
  destruct (52 + (ex - e')) as [|p|p] eqn:Ep; try lia.
  rewrite <- Ep, Z.shiftl_mul_pow2 by lia.
  assert (Hdiv : Z.div_eucl (Z.pos mx * 2 ^ (52 + (ex - e'))) 4503599627370496 =
                 (Z.pos mx * 2 ^ (ex - e'), 0)).
  { pose proof (Z.div_eucl_eq (Z.pos mx * 2 ^ (52 + (ex - e'))) 4503599627370496 ltac:(lia)) as Heq.
    pose proof (Z.mod_pos_bound (Z.pos mx * 2 ^ (52 + (ex - e'))) 4503599627370496 ltac:(lia)) as Hmod.
    unfold Z.modulo in Hmod.
    destruct (Z.div_eucl (Z.pos mx * 2 ^ (52 + (ex - e'))) 4503599627370496) as [q r].
    rewrite Z.pow_add_r in Heq by lia. change (2 ^ 52) with 4503599627370496 in Heq.
    assert (r = 0 /\ q = Z.pos mx * 2 ^ (ex - e')) as [-> ->]; [|reflexivity].
    set (a := Z.pos mx * 2 ^ (ex - e')) in *.
    assert (4503599627370496 * (a - q) = r) by lia.
    nia. }
  rewrite Hdiv. cbn [new_location Z.even new_location_even Z.eqb xorb].
  rewrite xorb_false_r.
  replace e' with (ex - (ex - e')) at 2 by lia.
  apply binary_round_aux_exact; [exact Hb | lia].
Qed.

(** Dividing a finite non-negative amount by a population count plus one
    that is positive gives a finite non-negative float64. *)
Lemma div_by_count_finite x n :
  F64.valid x = true -> F64.is_finite x = true -> F64.nonneg x = true ->
  1 <= n < 2 ^ 63 ->
  F64.is_finite (F64.div x (F64.of_int n)) = true /\
  F64.nonneg (F64.div x (F64.of_int n)) = true.
Proof.
  intros Hv Hf Hn Hr.
  destruct (of_int_pos n Hr) as (my & ey & Ey & Hd).
  destruct x as [sx| | |sx mx ex]; try discriminate.
  - rewrite Ey. simpl. split; [reflexivity|]. destruct sx; reflexivity.
  - destruct sx; [discriminate|].
    assert (Hfin : finite_with_sign false (F64.div (S754_finite false mx ex) (F64.of_int n))).
    { destruct (Z.eq_dec n 1) as [->|Hn1].
      - rewrite div_one by exact Hv. reflexivity.
      - rewrite Ey. apply (div_finite_ge2 false mx ex false my ey Hv).
        assert (2 <= Zdigits2 n); [|lia].
        rewrite Zdigits2_log2 by lia.
        assert (1 <= Z.log2 n); [|lia].
        apply Z.log2_le_pow2; lia. }
    destruct (F64.div (S754_finite false mx ex) (F64.of_int n)) as [s| | |s m e];
      simpl in Hfin; try contradiction; subst s; split; reflexivity.
Qed.

(** Dividing by zero never gives a finite float64. *)
Lemma div_by_zero_not_finite x y :
  F64.is_zero y = true -> F64.is_finite (F64.div x y) = false.
Proof. destruct y; try discriminate. intros _. destruct x; reflexivity. Qed.

(** ** The encoder *)

Lemma In_insert_sorted s a l : In s (insert_sorted a l) <-> s = a \/ In s l.
Proof.
  induction l as [|x rest IH]; simpl.
  - intuition congruence.
  - destruct (String.compare a x) eqn:E; simpl.
    + apply String.compare_eq_iff in E. subst. intuition congruence.
    + intuition congruence.
    + rewrite IH. intuition congruence.
Qed.

Lemma In_categories_of s xs : In s (categories_of xs) <-> In s xs.
Proof.
  induction xs as [|x rest IH]; simpl; [reflexivity|].
  rewrite In_insert_sorted, IH. intuition congruence.
Qed.

Lemma index_of_None s l : ~ In s l -> index_of s l = None.
Proof.
  induction l as [|x rest IH]; simpl; intros H; [reflexivity|].
  destruct (String.eqb_spec x s) as [->|Hne]; [exfalso; apply H; left; reflexivity|].
  rewrite IH; [reflexivity | intros Hin; apply H; right; exact Hin].
Qed.

(** A value the encoder has not seen when it was fitted gets the unknown
    value. *)
Lemma encode_value_unknown xs v :
  ~ In v xs -> encode_value (categories_of xs) v = F64.of_int unknown_value.
Proof.
  intros H. unfold encode_value. rewrite index_of_None; [reflexivity|].
  rewrite In_categories_of. exact H.
Qed.

Lemma map_result_lookup {A B} (f : A -> result B) xs ys i x :
  map_result f xs = Ok ys -> xs !! i = Some x ->
  exists y, ys !! i = Some y /\ f x = Ok y.
Proof.
  revert ys i. induction xs as [|a rest IH]; intros ys i Hm Hx; [discriminate Hx|].
  simpl in Hm. destruct (f a) as [b|] eqn:Ea; [|discriminate Hm]. simpl in Hm.
  destruct (map_result f rest) as [bs|] eqn:Er; [|discriminate Hm]. simpl in Hm.
  injection Hm as <-. destruct i as [|i]; simpl in Hx |- *.
  - injection Hx as <-. eauto.
  - eapply IH; [reflexivity | exact Hx].
Qed.

Lemma map_result_length {A B} (f : A -> result B) xs ys :
  map_result f xs = Ok ys -> length ys = length xs.
Proof.
  revert ys. induction xs as [|a rest IH]; intros ys Hm; simpl in Hm.
  - injection Hm as <-. reflexivity.
  - destruct (f a) as [b|]; [|discriminate Hm]. simpl in Hm.
    destruct (map_result f rest) as [bs|]; [|discriminate Hm]. simpl in Hm.
    injection Hm as <-. simpl. f_equal. apply IH. reflexivity.
Qed.

Lemma check_categorical_ok X cols :
  check_categorical X = Ok cols -> map_result strings_of X = Ok cols.
Proof.
  unfold check_categorical. destruct (map_result strings_of X) as [cs|]; [|discriminate].
  simpl. destruct cs as [|[|? ?] ?]; try discriminate. intros H. exact H.
Qed.

Lemma get_columns_lookup names cols X j n :
  get_columns names cols = Ok X -> names !! j = Some n -> X !! j = col_lookup n cols.
Proof.
  revert X j. induction names as [|a rest IH]; intros X j Hg Hn; [discriminate Hn|].
  simpl in Hg. destruct (col_lookup a cols) as [c|] eqn:Ec; [|discriminate Hg].
  destruct (get_columns rest cols) as [cs|] eqn:Er; [|discriminate Hg].
  injection Hg as <-. destruct j as [|j]; simpl in Hn |- *.
  - injection Hn as <-. symmetry. exact Ec.
  - eapply IH; [reflexivity | exact Hn].
Qed.

Lemma get_columns_length names cols X :
  get_columns names cols = Ok X -> length X = length names.
Proof.
  revert X. induction names as [|a rest IH]; intros X Hg; simpl in Hg.
  - injection Hg as <-. reflexivity.
  - destruct (col_lookup a cols); [|discriminate Hg].
    destruct (get_columns rest cols) as [cs|]; [|discriminate Hg].
    injection Hg as <-. simpl. f_equal. apply IH. reflexivity.
Qed.

(** What a successful [fit_transform] leaves in the encoder. *)
Lemma OrdinalEncoder_fit_transform_ok enc X s codes s' :
  OrdinalEncoder_fit_transform enc X s = (Ok codes, s') ->
  exists cols,
    check_categorical X = Ok cols /\
    codes = encode_columns (map categories_of cols) cols /\
    s' = set_obj (log_call s (FitTransform enc X)) enc
           (PyOrdinalEncoder (Some (map categories_of cols))) /\
    (enc < length (heap s))%nat.
Proof.
  unfold OrdinalEncoder_fit_transform. rewrite bind_read.
  destruct (heap s !! enc) as [[| | |]|] eqn:E; try discriminate.
  rewrite bind_journal, bind_lift.
  destruct (check_categorical X) as [cols|]; [|discriminate].
  rewrite bind_write. unfold ret. intros H. injection H as <- <-.
  exists cols. repeat split. eapply lookup_lt_Some, E.
Qed.

Lemma OrdinalEncoder_transform_eq enc X s cats cols :
  heap s !! enc = Some (PyOrdinalEncoder (Some cats)) ->
  check_categorical X = Ok cols ->
  length cols = length cats ->
  OrdinalEncoder_transform enc X s =
    (Ok (encode_columns cats cols), log_call s (Transform enc X)).
Proof.
  intros He Hc Hl. unfold OrdinalEncoder_transform.
  rewrite bind_read, He, bind_journal, bind_lift, Hc.
  apply Nat.eqb_eq in Hl. rewrite Hl. reflexivity.
Qed.

Lemma map_lookup {A B} (f : A -> B) (l : list A) i : map f l !! i = f <$> (l !! i).
Proof.
  revert i. induction l as [|x rest IH]; intros [|i]; simpl; try reflexivity. apply IH.
Qed.

(** C4.  A categorical value of a test row that does not occur in the
    training column the encoder was fitted on is encoded as the unknown
    value -1; the transform returns and raises nothing. *)
Theorem unseen_category_gets_sentinel
    (enc : loc) (train test : DataFrame) (X_train X_test : list column)
    (test_cols : list (list string)) (s s1 : store) (codes_train : list column) :
  get_columns cat_cols (columns train) = Ok X_train ->
  get_columns cat_cols (columns test) = Ok X_test ->
  OrdinalEncoder_fit_transform enc X_train s = (Ok codes_train, s1) ->
  check_categorical X_test = Ok test_cols ->
  exists codes,
    OrdinalEncoder_transform enc X_test s1 = (Ok codes, log_call s1 (Transform enc X_test)) /\
    forall j name seen values i v,
      cat_cols !! j = Some name ->
      col_lookup name (columns train) = Some (ObjCol seen) ->
      col_lookup name (columns test) = Some (ObjCol values) ->
      values !! i = Some v ->
      ~ In v seen ->
      exists out,
        codes !! j = Some (FloatCol out) /\
        out !! i = Some (F64.of_int unknown_value).
Proof.
  intros Htr Hte Hfit Hchk.
  destruct (OrdinalEncoder_fit_transform_ok _ _ _ _ _ Hfit) as (cols & Hc & _ & -> & Hlt).
  set (cats := map categories_of cols).
  assert (Hlen : length test_cols = length cats).
  { unfold cats. rewrite length_map.
    rewrite (map_result_length _ _ _ (check_categorical_ok _ _ Hchk)).
    rewrite (map_result_length _ _ _ (check_categorical_ok _ _ Hc)).
    rewrite (get_columns_length _ _ _ Htr), (get_columns_length _ _ _ Hte). reflexivity. }
  exists (encode_columns cats test_cols). split.
  - apply OrdinalEncoder_transform_eq; [|exact Hchk|exact Hlen].
    apply lookup_set_obj_same. exact Hlt.
  - intros j name seen values i v Hj Hseen Hvals Hi Hv.
    pose proof (get_columns_lookup _ _ _ _ _ Htr Hj) as H1. rewrite Hseen in H1.
    pose proof (get_columns_lookup _ _ _ _ _ Hte Hj) as H2. rewrite Hvals in H2.
    destruct (map_result_lookup _ _ _ _ _ (check_categorical_ok _ _ Hc) H1) as (y1 & Hy1 & E1).
    destruct (map_result_lookup _ _ _ _ _ (check_categorical_ok _ _ Hchk) H2) as (y2 & Hy2 & E2).
    injection E1 as <-. injection E2 as <-.
    exists (map (encode_value (categories_of seen)) values). split.
    + unfold encode_columns. rewrite lookup_zip_with.
      unfold cats. rewrite map_lookup, Hy1. simpl. rewrite Hy2. reflexivity.
    + rewrite map_lookup, Hi. simpl. f_equal. apply encode_value_unknown, Hv.
Qed.

(** ** What [feature_engineering] leaves in the table *)

Lemma set_columns_keeps names cols f n :
  ~ In n names ->
  col_lookup n (columns (snd (set_columns names cols f))) = col_lookup n (columns f) /\
  index (snd (set_columns names cols f)) = index f.
Proof.
  revert cols f. induction names as [|a rest IH]; intros cols f Hn;
    destruct cols as [|c cs]; simpl; try (split; reflexivity).
  destruct (Nat.eqb (col_length c) (index f)); [|split; reflexivity].
  destruct (IH cs (mkDataFrame (index f) (col_set a c (columns f)))) as [H1 H2].
  { intros Hin. apply Hn. right. exact Hin. }
  rewrite H1, H2. cbn [columns index]. split; [|reflexivity].
  apply col_lookup_set_other. apply String.eqb_neq. intros ->. apply Hn. left. reflexivity.
Qed.

Lemma fold_col_remove_keeps names cols n :
  ~ In n names -> col_lookup n (fold_right col_remove cols names) = col_lookup n cols.
Proof.
  induction names as [|a rest IH]; intros Hn; simpl; [reflexivity|].
  rewrite col_lookup_remove_other.
  - apply IH. intros Hin. apply Hn. right. exact Hin.
  - apply String.eqb_neq. intros ->. apply Hn. left. reflexivity.
Qed.

Lemma drop_columns_keeps names f f' n :
  drop_columns names f = Ok f' -> ~ In n names ->
  col_lookup n (columns f') = col_lookup n (columns f) /\ index f' = index f.
Proof.
  unfold drop_columns. destruct (first_missing names (columns f)); [discriminate|].
  intros H Hn. injection H as <-. cbn [columns index]. split; [|reflexivity].
  apply fold_col_remove_keeps, Hn.
Qed.

(** On a run that returns, the table at [df] holds the derived columns
    [f1] describes, apart from the encoded and the dropped columns. *)
Lemma feature_engineering_table v now df encs fit s r s' f :
  frame_at s df f ->
  feature_engineering v now df encs fit s = (Ok r, s') ->
  exists f1 f',
    derived v now f f1 /\
    frame_at s' df f' /\
    index f' = index f /\
    forall n, ~ In n cat_cols -> ~ In n unused_cols ->
              col_lookup n (columns f') = col_lookup n (columns f1).
Proof.
  intros Hf H.
  destruct (feature_engineering_ok _ _ _ _ _ _ _ _ _ Hf H)
    as (f1 & X & cols & cats & f2 & f3 & Hd & _ & _ & Hset & Hdrop & Hf3 & _).
  exists f1, f3. split; [exact Hd|]. split; [exact Hf3|].
  assert (Hi1 : index f1 = index f).
  { destruct Hd as (?&?&?&?&?&?&?&?&?&?&?&?&?&?&?&?&?&?&?&?&?&?&?&?&Hd).
    repeat match type of Hd with _ /\ ?B => destruct Hd as [_ Hd] end.
    rewrite Hd. reflexivity. }
  split.
  - destruct (drop_columns_keeps _ _ _ "" Hdrop) as [_ ->]; [cbv; intuition discriminate|].
    pose proof (set_columns_keeps cat_cols (encode_columns cats cols) f1 "") as Hk.
    rewrite Hset in Hk. cbn [snd] in Hk. destruct Hk as [_ ->]; [cbv; intuition discriminate|].
    exact Hi1.
  - intros n Hc Hu.
    destruct (drop_columns_keeps _ _ _ n Hdrop Hu) as [-> _].
    pose proof (set_columns_keeps cat_cols (encode_columns cats cols) f1 n Hc) as Hk.
    rewrite Hset in Hk. cbn [snd] in Hk. apply Hk.
Qed.

Lemma wrap64_id z : - 2 ^ 63 <= z < 2 ^ 63 -> wrap64 z = z.
Proof.
  intros H. unfold wrap64. rewrite Z.mod_small; lia.
Qed.

Lemma not_in_cat_cols n :
  n = "amt_per_capita" \/ n = "trans_count" \/ n = "amt_ratio" \/ n = "age" \/ n = "id" ->
  ~ In n cat_cols /\ ~ In n unused_cols.
Proof.
  intros H. split; intros Hin; cbv in Hin;
    repeat destruct Hin as [Hin|Hin]; try contradiction; subst n;
    repeat destruct H as [H|H]; discriminate.
Qed.

Lemma zip_with_lookup {A B C} (f : A -> B -> C) (xs : list A) (ys : list B) i x y :
  xs !! i = Some x -> ys !! i = Some y -> zip_with f xs ys !! i = Some (f x y).
Proof. intros Hx Hy. rewrite lookup_zip_with, Hx. simpl. rewrite Hy. reflexivity. Qed.

Lemma zip_with_lookup_inv {A B C} (f : A -> B -> C) (xs : list A) (ys : list B) i z :
  zip_with f xs ys !! i = Some z ->
  exists x y, xs !! i = Some x /\ ys !! i = Some y /\ z = f x y.
Proof.
  rewrite lookup_zip_with. destruct (xs !! i) as [x|]; [|discriminate]. simpl.
  destruct (ys !! i) as [y|]; [|discriminate]. simpl. intros H. injection H as <-. eauto.
Qed.

(** C6, as the code has it.  [amt_per_capita] is [amt / (city_pop + 1)],
    the sum taken in int64 and converted to float64.  It is finite and
    non-negative on every row whose amount is finite and non-negative and
    whose city population is non-negative. *)
Theorem amt_per_capita_finite_nonneg
    (v : pandas_version) (now : Z) (df : loc) (encs : option loc) (fit : bool)
    (s s' : store) (r : loc * option loc) (f : DataFrame)
    (amts : list float64) (pops : list Z) :
  frame_at s df f ->
  col_lookup "amt" (columns f) = Some (FloatCol amts) ->
  col_lookup "city_pop" (columns f) = Some (IntCol pops) ->
  feature_engineering v now df encs fit s = (Ok r, s') ->
  exists f' apc,
    frame_at s' df f' /\
    col_lookup "amt_per_capita" (columns f') = Some (FloatCol apc) /\
    length apc = index f /\
    forall i a p,
      amts !! i = Some a -> pops !! i = Some p ->
      apc !! i = Some (F64.div a (F64.of_int (wrap64 (p + 1)))) /\
      (F64.valid a = true -> F64.is_finite a = true -> F64.nonneg a = true ->
       0 <= p < 2 ^ 63 - 1 ->
       F64.is_finite (F64.div a (F64.of_int (wrap64 (p + 1)))) = true /\
       F64.nonneg (F64.div a (F64.of_int (wrap64 (p + 1)))) = true).
Proof.
  intros Hf Ha Hp H.
  destruct (feature_engineering_table _ _ _ _ _ _ _ _ _ Hf H) as (f1 & f' & Hd & Hf' & Hi & Hk).
  derived_inv Hd.
  rewrite Ha in Lamt. injection Lamt as <-. rewrite Hp in Lcity_pop. injection Lcity_pop as <-.
  simpl in Ecity_pop_1. injection Ecity_pop_1 as <-.
  unfold series_truediv in Eamt_per_capita. simpl in Eamt_per_capita.
  injection Eamt_per_capita as <-.
  eexists f', _. split; [exact Hf'|]. split; [|split].
  - rewrite Hk by (apply not_in_cat_cols; auto). rewrite Ef1. unfold with_features.
    cbn [columns]. rewrite !col_lookup_set_other by reflexivity.
    apply col_lookup_set_same.
  - apply Forall_cons in Hlen as [_ Hlen]. apply Forall_cons in Hlen as [_ Hlen].
    apply Forall_cons in Hlen as [_ Hlen]. apply Forall_cons in Hlen as [_ Hlen].
    apply Forall_cons in Hlen as [Hlen _]. exact Hlen.
  - intros i a p Hai Hpi. split.
    + apply zip_with_lookup; [exact Hai|]. rewrite !map_lookup, Hpi. reflexivity.
    + intros Hv Hfin Hnn Hr. rewrite wrap64_id by lia.
      apply div_by_count_finite; try assumption. lia.
Qed.

(** C10.  [amt_ratio] is [amt] divided by the cardholder's mean amount,
    unguarded: on every row whose cardholder's mean is zero the quotient
    is NaN or an infinity.  The run returns all the same. *)
Theorem amt_ratio_not_finite_on_zero_mean
    (v : pandas_version) (now : Z) (df : loc) (encs : option loc) (fit : bool)
    (s s' : store) (r : loc * option loc) (f : DataFrame) :
  frame_at s df f ->
  feature_engineering v now df encs fit s = (Ok r, s') ->
  exists amt cc_num means f' ratio,
    col_lookup "amt" (columns f) = Some amt /\
    col_lookup "cc_num" (columns f) = Some cc_num /\
    transform_mean (group_keys cc_num) amt = Ok (FloatCol means) /\
    frame_at s' df f' /\
    col_lookup "amt_ratio" (columns f') = Some (FloatCol ratio) /\
    length ratio = index f /\
    forall i mu q,
      means !! i = Some mu -> F64.is_zero mu = true -> ratio !! i = Some q ->
      F64.is_finite q = false.
Proof.
  intros Hf H.
  destruct (feature_engineering_table _ _ _ _ _ _ _ _ _ Hf H) as (f1 & f' & Hd & Hf' & Hi & Hk).
  derived_inv Hd.
  pose proof Emean as Emean'. unfold transform_mean in Emean'.
  destruct (to_floats amt) as [xs|] eqn:Exs; [|discriminate Emean']. simpl in Emean'.
  injection Emean' as <-.
  unfold series_truediv in Eratio. rewrite Exs in Eratio. simpl in Eratio.
  injection Eratio as <-.
  eexists amt, cc_num, _, f', _.
  split; [exact Lamt|]. split; [exact Lcc_num|]. split; [exact Emean|].
  split; [exact Hf'|]. split; [|split].
  - rewrite Hk by (apply not_in_cat_cols; auto). rewrite Ef1. unfold with_features.
    cbn [columns]. apply col_lookup_set_same.
  - do 6 (apply Forall_cons in Hlen as [_ Hlen]). apply Forall_cons in Hlen as [Hlen _].
    exact Hlen.
  - intros i mu q Hmu Hz Hq.
    apply zip_with_lookup_inv in Hq as (x & y & _ & Hy & ->).
    rewrite Hmu in Hy. injection Hy as <-. apply div_by_zero_not_finite, Hz.
Qed.

(** ** Rolling counts *)

Lemma map_seq_lookup {A} (h : nat -> A) n i x :
  map h (seq 0 n) !! i = Some x -> (i < n)%nat /\ x = h i.
Proof.
  rewrite map_lookup. intros H.
  destruct (seq 0 n !! i) as [j|] eqn:E; [|discriminate H].
  apply lookup_seq in E as [-> Hlt]. simpl in H. injection H as <-. split; [exact Hlt | reflexivity].
Qed.

Lemma map_seq_nth {A} (h : nat -> A) n i d : (i < n)%nat -> nth i (map h (seq 0 n)) d = h i.
Proof.
  intros H. rewrite (nth_indep _ d (h 0%nat)) by (rewrite length_map, length_seq; exact H).
  rewrite map_nth, seq_nth by exact H. reflexivity.
Qed.

Lemma window_at_length {A} w (xs : list A) i :
  (i < length xs)%nat -> length (window_at w xs i) = Nat.min (S i) w.
Proof.
  intros H. unfold window_at. rewrite length_skipn, length_firstn. lia.
Qed.

(** With [min_periods] at 2 or more, the first row of a series has no
    count. *)
Lemma rolling_count_head w mp x :
  (2 <= mp)%nat -> nth 0 (rolling_count w mp x) F64.nan = F64.nan.
Proof.
  intros Hmp. unfold rolling_count.
  destruct (notna x) as [|o obs] eqn:E; [reflexivity|].
  cbn [length seq map nth]. unfold window_at.
  change (firstn 1 (o :: obs)) with [o].
  assert (Hl : (length (skipn (1 - w) [o]) <= 1)%nat).
  { rewrite length_skipn. simpl. lia. }
  destruct (Nat.ltb_spec (length (skipn (1 - w) [o])) mp) as [_|Hge]; [reflexivity | lia].
Qed.

Lemma column_groupby_transform_float f keys c :
  exists l, column_groupby_transform f keys c = FloatCol l /\
            length l = length keys /\
            forall i, (i < length keys)%nat ->
              l !! i = Some match nth i keys None with
                            | Some k =>
                                match c with
                                | IntCol xs => nth (group_rank keys i k) (f (IntCol (group_of keys xs k))) F64.nan
                                | FloatCol xs => nth (group_rank keys i k) (f (FloatCol (group_of keys xs k))) F64.nan
                                | ObjCol xs => nth (group_rank keys i k) (f (ObjCol (group_of keys xs k))) F64.nan
                                end
                            | None => F64.nan
                            end.
Proof.
  destruct c as [xs|xs|xs]; simpl; eexists; (split; [reflexivity|]);
    unfold groupby_transform; (split; [rewrite length_map, length_seq; reflexivity|]);
    intros i Hi; rewrite map_lookup, lookup_seq_lt by exact Hi; simpl;
    destruct (nth i keys None); reflexivity.
Qed.

Lemma group_rank_0 keys k : group_rank keys 0 k = 0%nat.
Proof. reflexivity. Qed.

(** The encoder wants at least one row, and the codes it returns go back
    into the table: a call that returns was given a table with rows. *)
Lemma encoded_table_has_rows cats cols f1 f2 :
  (exists x xs rest, cols = (x :: xs) :: rest) ->
  cats <> [] ->
  set_columns cat_cols (encode_columns cats cols) f1 = (Ok tt, f2) ->
  (0 < index f1)%nat.
Proof.
  intros (x & xs & rest & ->) Hcats Hset. destruct cats as [|cat0 cats']; [contradiction|].
  unfold encode_columns, cat_cols in Hset.
  cbn [zip_with set_columns col_length map length] in Hset.
  lazymatch type of Hset with
  | (if Nat.eqb ?a ?b then _ else _) = _ => destruct (Nat.eqb a b) eqn:E; [|discriminate Hset]
  end.
  apply Nat.eqb_eq in E. lia.
Qed.

Lemma check_categorical_rows X cols :
  check_categorical X = Ok cols -> exists x xs rest, cols = (x :: xs) :: rest.
Proof.
  unfold check_categorical. destruct (map_result strings_of X) as [cs|]; [|discriminate].
  simpl. destruct cs as [|[|x xs] rest]; try discriminate. intros H. injection H as <-. eauto.
Qed.

Lemma derived_index v now f f1 : derived v now f f1 -> index f1 = index f.
Proof. intros Hd. derived_inv Hd. rewrite Ef1. reflexivity. Qed.

Lemma feature_engineering_has_rows v now df encs fit s r s' f :
  frame_at s df f ->
  feature_engineering v now df encs fit s = (Ok r, s') ->
  (0 < index f)%nat.
Proof.
  intros Hf H.
  destruct (feature_engineering_ok _ _ _ _ _ _ _ _ _ Hf H)
    as (f1 & X & cols & cats & f2 & f3 & Hd & HX & Hcols & Hset & _ & _ & _ & _ & Henc).
  rewrite <- (derived_index _ _ _ _ Hd).
  destruct (check_categorical_rows _ _ Hcols) as (x & xs & rest & Ec).
  apply (encoded_table_has_rows cats cols f1 f2); [eauto | | exact Hset].
  subst cols. unfold encoded in Henc. destruct fit.
  - destruct Henc as (-> & _). discriminate.
  - destruct Henc as (d & items & e & _ & _ & _ & _ & _ & Hlen & _).
    intros ->. discriminate Hlen.
Qed.

(** What the oversampler accepted has no NaN and no infinity. *)
Lemma SMOTE_accepts_finite randint uniform kneighbors seed X y out :
  SMOTE_fit_resample randint uniform kneighbors seed X y = Ok out ->
  exists Xf, frame_floats X = Ok Xf /\ forallb all_finite Xf = true.
Proof.
  unfold SMOTE_fit_resample. destruct y as [labels| |]; try discriminate.
  destruct (frame_floats X) as [Xf|]; [|discriminate]. cbn [result_bind].
  destruct (forallb all_finite Xf) eqn:Efin; [|discriminate].
  intros _. exists Xf. split; [reflexivity | exact Efin].
Qed.

Lemma frame_floats_lookup X Xf n xs :
  frame_floats X = Ok Xf -> col_lookup n (columns X) = Some (FloatCol xs) -> In xs Xf.
Proof.
  unfold frame_floats. generalize (columns X). intros cols. revert Xf.
  induction cols as [|[k c] rest IH]; intros Xf Hm Hl; [discriminate Hl|].
  cbn [map_result snd] in Hm.
  destruct (to_floats c) as [ys|] eqn:Ec; [|discriminate Hm]. cbn [result_bind] in Hm.
  destruct (map_result _ rest) as [yss|] eqn:Er; [|discriminate Hm]. cbn [result_bind] in Hm.
  injection Hm as <-. cbn [col_lookup] in Hl.
  destruct (String.eqb k n).
  - injection Hl as ->. cbn [to_floats] in Ec. injection Ec as <-. left. reflexivity.
  - right. apply (IH yss); [reflexivity | exact Hl].
Qed.

Lemma nan_not_all_finite l i : l !! i = Some F64.nan -> all_finite l = false.
Proof.
  revert i. induction l as [|x rest IH]; intros i H; [discriminate H|].
  destruct i as [|i]; cbn in H.
  - injection H as ->. reflexivity.
  - unfold all_finite in *. cbn [forallb]. rewrite (IH i H). apply andb_false_r.
Qed.

(** Under pandas 2 the count of the first row of a table is missing. *)
Lemma trans_count_first_row keys c :
  (0 < length keys)%nat ->
  exists l, column_groupby_transform (rolling_count 3 (count_min_periods pandas_2 3)) keys c
            = FloatCol l /\
            l !! 0%nat = Some F64.nan.
Proof.
  intros Hn.
  destruct (column_groupby_transform_float (rolling_count 3 (count_min_periods pandas_2 3)) keys c)
    as (l & El & _ & Hl).
  exists l. split; [exact El|]. rewrite (Hl 0%nat Hn). f_equal.
  destruct (nth 0 keys None) as [k|]; [|reflexivity].
  rewrite group_rank_0. destruct c; apply rolling_count_head; simpl; lia.
Qed.

(** C5 on the code.  Under pandas 2 the trailing window of the first row
    of the table holds one row, fewer than the three [min_periods]
    defaults to: whenever the call returns, the [trans_count] of the first
    row is NaN, not a number from 1 to 3. *)
Theorem trans_count_first_row_missing
    (now : Z) (df : loc) (encs : option loc) (fit : bool)
    (s s' : store) (r : loc * option loc) (f : DataFrame) :
  frame_at s df f ->
  feature_engineering pandas_2 now df encs fit s = (Ok r, s') ->
  exists f' tc,
    frame_at s' df f' /\
    col_lookup "trans_count" (columns f') = Some (FloatCol tc) /\
    tc !! 0%nat = Some F64.nan.
Proof.
  intros Hf H. pose proof (feature_engineering_has_rows _ _ _ _ _ _ _ _ _ Hf H) as Hpos.
  destruct (feature_engineering_table _ _ _ _ _ _ _ _ _ Hf H) as (f1 & f' & Hd & Hf' & Hi & Hk).
  derived_inv Hd.
  do 5 (apply Forall_cons in Hlen as [_ Hlen]). apply Forall_cons in Hlen as [Hlen _].
  destruct (column_groupby_transform_float (rolling_count 3 (count_min_periods pandas_2 3))
              (group_keys cc_num) unix_time) as (l0 & El0 & Hl0 & _).
  rewrite El0 in Hlen. simpl in Hlen.
  destruct (trans_count_first_row (group_keys cc_num) unix_time) as (l & El & Hl); [lia|].
  exists f', l. split; [exact Hf'|]. split; [|exact Hl].
  rewrite Hk by (apply not_in_cat_cols; auto). rewrite Ef1. unfold with_features.
  cbn [columns]. rewrite !col_lookup_set_other by reflexivity.
  rewrite col_lookup_set_same. f_equal. exact El.
Qed.

Lemma filter_id_all_true (l : list bool) :
  Forall (fun b => b = true) l -> List.filter id l = l.
Proof.
  induction 1 as [|b l Hb _ IH]; [reflexivity|]. subst b. simpl. rewrite IH. reflexivity.
Qed.

(** With [min_periods] at 0, as pandas 1 resolved it for [count], row [p]
    of a series without missing entries counts itself and up to two rows
    before it. *)
Lemma rolling_count_legacy (xs : list Z) p :
  (p < length xs)%nat ->
  nth p (rolling_count 3 (count_min_periods pandas_1 3) (IntCol xs)) F64.nan =
  F64.of_int (Z.of_nat (Nat.min (S p) 3)).
Proof.
  intros Hp. unfold rolling_count, notna, count_min_periods.
  rewrite length_map, map_seq_nth by exact Hp. cbv zeta.
  rewrite Nat.ltb_irrefl || change (Nat.ltb (length (window_at 3 (map (fun _ : Z => true) xs) p)) 0)
    with false.
  rewrite filter_id_all_true.
  - rewrite window_at_length by (rewrite length_map; exact Hp). reflexivity.
  - unfold window_at. apply Forall_drop, Forall_take.
    clear Hp. induction xs as [|x xs IH]; simpl; constructor; [reflexivity | exact IH].
Qed.

Lemma group_of_length {A} keys (vals : list A) k :
  length keys = length vals ->
  length (group_of keys vals k) = length (List.filter (in_group k) keys).
Proof.
  unfold group_of. rewrite length_map. revert vals.
  induction keys as [|o keys IH]; intros [|x vals] Hl; try discriminate; [reflexivity|].
  simpl. injection Hl as Hl. destruct (in_group k o); simpl; rewrite IH by exact Hl; reflexivity.
Qed.

Lemma group_rank_lt {A} keys (vals : list A) i k :
  length keys = length vals ->
  keys !! i = Some (Some k) ->
  key_eqb k k = true ->
  (group_rank keys i k < length (group_of keys vals k))%nat.
Proof.
  intros Hl Hi Hk. rewrite group_of_length by exact Hl. unfold group_rank.
  rewrite <- (take_drop_middle keys i (Some k) Hi) at 2.
  rewrite List.filter_app, length_app. simpl. rewrite Hk. simpl. lia.
Qed.

(** Under pandas 1, where [min_periods] defaults to 0, every
    [trans_count] of integer card numbers and timestamps is 1, 2 or 3. *)
Lemma trans_count_legacy_bounds (ccs uts : list Z) l i q :
  length ccs = length uts ->
  column_groupby_transform (rolling_count 3 (count_min_periods pandas_1 3))
    (group_keys (IntCol ccs)) (IntCol uts) = FloatCol l ->
  l !! i = Some q ->
  q = F64.of_int 1 \/ q = F64.of_int 2 \/ q = F64.of_int 3.
Proof.
  intros Hlen El Hq.
  destruct (column_groupby_transform_float (rolling_count 3 (count_min_periods pandas_1 3))
              (group_keys (IntCol ccs)) (IntCol uts)) as (l' & El' & Hl' & Hget).
  rewrite El in El'. injection El' as <-.
  assert (Hi : (i < length (group_keys (IntCol ccs)))%nat).
  { rewrite <- Hl'. eapply lookup_lt_Some, Hq. }
  rewrite (Hget i Hi) in Hq. injection Hq as <-.
  simpl group_keys in *. rewrite length_map in Hi.
  destruct (lookup_lt_is_Some_2 ccs i Hi) as [c Hc].
  assert (Hk : map (fun x => Some (KInt x)) ccs !! i = Some (Some (KInt c))).
  { rewrite map_lookup, Hc. reflexivity. }
  rewrite (nth_lookup_Some _ _ None _ Hk).
  pose proof (group_rank_lt (map (fun x => Some (KInt x)) ccs) uts i (KInt c)
                ltac:(rewrite length_map; exact Hlen) Hk ltac:(apply Z.eqb_refl)) as Hr.
  rewrite rolling_count_legacy by exact Hr.
  destruct (group_rank (map (fun x => Some (KInt x)) ccs) i (KInt c)) as [|[|n]];
    [left | right; left | right; right]; f_equal; f_equal; destruct n; reflexivity || lia.
Qed.

(** ** SMOTE *)

Lemma count_label_cons y c x :
  count_label (x :: y) c = ((if Z.eqb c x then 1 else 0) + count_label y c)%nat.
Proof. unfold count_label. simpl. destruct (Z.eqb c x); reflexivity. Qed.

Lemma count_label_app y y' c :
  count_label (y ++ y') c = (count_label y c + count_label y' c)%nat.
Proof. unfold count_label. rewrite List.filter_app, length_app. reflexivity. Qed.

Lemma count_label_repeat c n c' :
  count_label (repeat c n) c' = if Z.eqb c' c then n else 0%nat.
Proof.
  induction n as [|n IH]; simpl repeat.
  - destruct (Z.eqb c' c); reflexivity.
  - rewrite count_label_cons, IH. destruct (Z.eqb c' c); reflexivity.
Qed.

(** The classes of binary labels. *)
Lemma classes_of_binary y :
  binary y ->
  classes_of y = ((if Nat.eqb (count_label y 0) 0 then [] else [0]) ++
                  (if Nat.eqb (count_label y 1) 0 then [] else [1]))%list.
Proof.
  induction 1 as [|c y Hc _ IH]; [reflexivity|].
  cbn [classes_of fold_right]. fold (classes_of y). rewrite IH.
  rewrite !count_label_cons.
  destruct Hc as [-> | ->]; simpl Z.eqb; cbn [Nat.add Nat.eqb];
    destruct (Nat.eqb (count_label y 0) 0), (Nat.eqb (count_label y 1) 0); reflexivity.
Qed.

Section SMOTE_counts.
Variable randint : Z -> nat -> nat -> nat -> nat.
Variable uniform : Z -> nat -> nat -> float64.
Variable kneighbors : list (list float64) -> nat -> list (list nat).


(** The strategy for binary labels with both classes present: top up
    the smaller class; on a tie nothing is added (to class 1). *)
Lemma sampling_strategy_binary y :
  binary y -> (0 < count_label y 0)%nat -> (0 < count_label y 1)%nat ->
  sampling_strategy y =
    if Nat.ltb (count_label y 0) (count_label y 1)
    then [(0, (count_label y 1 - count_label y 0)%nat)]
    else [(1, (count_label y 0 - count_label y 1)%nat)].
Proof.
  intros Hb H0 H1. unfold sampling_strategy. rewrite (classes_of_binary y Hb).
  destruct (Nat.eqb_spec (count_label y 0) 0) as [E|_]; [lia|].
  destruct (Nat.eqb_spec (count_label y 1) 0) as [E|_]; [lia|].
  cbn [app class_majority].
  destruct (Nat.ltb (count_label y 0) (count_label y 1)); reflexivity.
Qed.

End SMOTE_counts.

(** ** Missing columns *)

Lemma first_missing_None names cols n :
  first_missing names cols = None -> In n names -> col_lookup n cols <> None.
Proof.
  induction names as [|a rest IH]; intros H Hin; [contradiction|].
  simpl in H. destruct (col_lookup a cols) eqn:E; [|discriminate H].
  destruct Hin as [->|Hin]; [congruence | apply IH; assumption].
Qed.

Lemma get_columns_present names cols X n :
  get_columns names cols = Ok X -> In n names -> col_lookup n cols <> None.
Proof.
  revert X. induction names as [|a rest IH]; intros X H Hin; [contradiction|].
  simpl in H. destruct (col_lookup a cols) eqn:E; [|discriminate H].
  destruct (get_columns rest cols) eqn:Er; [|discriminate H].
  destruct Hin as [->|Hin]; [congruence | eapply IH; [reflexivity | assumption]].
Qed.

(** A call on a table that lacks one of the raw columns the function
    reads raises. *)
Lemma absent_column_raises
    (v : pandas_version) (now : Z) (df : loc) (encs : option loc) (fit : bool)
    (s : store) (f : DataFrame) (c : string) :
  frame_at s df f ->
  In c raw_columns ->
  col_lookup c (columns f) = None ->
  exists e s', feature_engineering v now df encs fit s = (Raise e, s').
Proof.
  intros Hf Hc Hnone.
  destruct (feature_engineering v now df encs fit s) as [[r|e] s'] eqn:E;
    [exfalso | exists e, s'; reflexivity].
  destruct (feature_engineering_ok _ _ _ _ _ _ _ _ _ Hf E)
    as (f1 & X & cols & cats & f2 & f3 & Hd & HX & _ & Hset & Hdrop & _).
  unfold raw_columns in Hc. apply in_app_or in Hc as [Hc|Hc]; [|apply in_app_or in Hc as [Hc|Hc]].
  - derived_inv Hd. cbv in Hc.
    repeat destruct Hc as [Hc|Hc]; try contradiction; subst c; congruence.
  - exact (get_columns_present _ _ _ _ HX Hc Hnone).
  - unfold drop_columns in Hdrop.
    destruct (first_missing unused_cols (columns f2)) eqn:Em; [discriminate Hdrop|].
    apply (first_missing_None _ _ c Em Hc).
    assert (Hnc : ~ In c cat_cols).
    { intros Hin. cbv in Hc, Hin.
      repeat destruct Hc as [Hc|Hc]; try contradiction; subst c;
        repeat destruct Hin as [Hin|Hin]; try contradiction; discriminate. }
    pose proof (set_columns_keeps cat_cols (encode_columns cats cols) f1 c Hnc) as [Hk _].
    rewrite Hset in Hk. cbn [snd] in Hk. rewrite Hk.
    derived_inv Hd. rewrite Ef1. unfold with_features. cbn [columns].
    cbv in Hc. repeat destruct Hc as [Hc|Hc]; try contradiction; subst c;
      rewrite !col_lookup_set_other by reflexivity; exact Hnone.
Qed.

Section Lacking.
Variables (c : string) (df : loc).

Lemma raises_bind {A B} (Q : A -> Prop) (Q' : B -> Prop) (m : M A) (k : A -> M B) :
  raises_KeyError c df Q m ->
  (forall a, Q a -> raises_KeyError c df Q' (k a)) ->
  raises_KeyError c df Q' (bind m k).
Proof.
  intros Hm Hk s1 s2 b s1' HR E. rewrite bind_eq in E.
  destruct (m s1) as [[a|e] t1] eqn:E1; [|discriminate E].
  destruct (Hm _ _ _ _ HR E1) as [(t2 & E2 & HR' & HQ)|(t2 & E2)].
  - destruct (Hk a HQ _ _ _ _ HR' E) as [(s2' & E3 & H3)|(s2' & E3)].
    + left. exists s2'. rewrite bind_eq, E2. split; [exact E3 | exact H3].
    + right. exists s2'. rewrite bind_eq, E2. exact E3.
  - right. exists t2. rewrite bind_eq, E2. reflexivity.
Qed.

Lemma raises_weaken {A} (Q Q' : A -> Prop) (m : M A) :
  (forall a, Q a -> Q' a) -> raises_KeyError c df Q m -> raises_KeyError c df Q' m.
Proof.
  intros HQ Hm s1 s2 a s1' HR E.
  destruct (Hm _ _ _ _ HR E) as [(s2' & E2 & HR' & Ha)|H]; [left | right; exact H].
  exists s2'. split; [exact E2|]. split; [exact HR' | apply HQ, Ha].
Qed.

Lemma raises_ret {A} (a : A) : raises_KeyError c df (fun _ => True) (ret a).
Proof.
  intros s1 s2 a' s1' HR E. injection E as <- <-. left. exists s2.
  split; [reflexivity|]. split; [exact HR | exact I].
Qed.

Lemma raises_lift {A} (r : result A) : raises_KeyError c df (fun _ => True) (lift r).
Proof.
  intros s1 s2 a s1' HR E. unfold lift in *. destruct r as [a'|e]; [|discriminate E].
  injection E as <- <-. left. exists s2. split; [reflexivity|]. split; [exact HR | exact I].
Qed.

Lemma raises_getitem n :
  raises_KeyError c df (fun _ => n <> c) (getitem df n).
Proof.
  intros s1 s2 a s1' HR E. pose proof HR as (Hc & Hlen & Hl & fa & fb & Hfa & Hfb & Hi & Hnone & Hsame).
  pose proof (bind_getitem s1 df fa n ret Hfa) as E1.
  pose proof (bind_getitem s2 df fb n ret Hfb) as E2.
  assert (G : forall s, bind (getitem df n) ret s = getitem df n s).
  { intros s. unfold bind. destruct (getitem df n s) as [[x|e] t]; reflexivity. }
  rewrite G in E1, E2. rewrite E in E1.
  destruct (String.eqb_spec n c) as [->|Hn].
  - right. exists s2. rewrite E2, Hnone. reflexivity.
  - left. exists s2. rewrite E2, (Hsame n Hn).
    destruct (col_lookup n (columns fa)) as [x|]; [|discriminate E1].
    unfold ret in E1. injection E1 as -> ->.
    split; [reflexivity|]. split; [exact HR | exact Hn].
Qed.

Lemma raises_ret_with {A} (Q : A -> Prop) (a : A) : Q a -> raises_KeyError c df Q (ret a).
Proof.
  intros HQ s1 s2 a' s1' HR E. injection E as <- <-. left. exists s2.
  split; [reflexivity|]. split; [exact HR | exact HQ].
Qed.

Lemma lacking_set s1 s2 fa fb :
  lacking c df s1 s2 -> lacks c fa fb ->
  lacking c df (set_obj s1 df (PyDataFrame fa)) (set_obj s2 df (PyDataFrame fb)).
Proof.
  intros (Hc & Hlen & Hl & fa0 & fb0 & Hfa & Hfb & _) Hab.
  split; [exact Hc|]. split; [rewrite !length_set_obj; exact Hlen|]. split.
  - intros l Hne. rewrite !lookup_set_obj_other by congruence. apply Hl, Hne.
  - exists fa, fb. split; [eapply frame_at_set_obj, Hfa|].
    split; [eapply frame_at_set_obj, Hfb | exact Hab].
Qed.

Lemma lacking_set_other s1 s2 l o :
  lacking c df s1 s2 -> l <> df -> lacking c df (set_obj s1 l o) (set_obj s2 l o).
Proof.
  intros (Hc & Hlen & Hl & fa & fb & Hfa & Hfb & Hab) Hne.
  split; [exact Hc|]. split; [rewrite !length_set_obj; exact Hlen|]. split.
  - intros l' Hne'. unfold set_obj. cbn [heap].
    destruct (Nat.eq_dec l l') as [<-|Hll].
    + destruct (Nat.lt_ge_cases l (length (heap s1))) as [Hlt|Hge].
      * rewrite !list_lookup_insert_eq by lia. reflexivity.
      * rewrite !list_insert_ge by lia. apply Hl, Hne.
    + rewrite !list_lookup_insert_ne by exact Hll. apply Hl, Hne'.
  - exists fa, fb. split; [apply frame_at_set_other; [exact Hfa | exact Hne]|].
    split; [apply frame_at_set_other; [exact Hfb | exact Hne] | exact Hab].
Qed.

Lemma lacking_alloc s1 s2 o :
  lacking c df s1 s2 -> lacking c df (alloc_obj s1 o) (alloc_obj s2 o).
Proof.
  intros (Hc & Hlen & Hl & fa & fb & Hfa & Hfb & Hab).
  split; [exact Hc|]. split; [rewrite !length_alloc, Hlen; reflexivity|]. split.
  - intros l Hne. unfold alloc_obj. cbn [heap].
    destruct (Nat.lt_ge_cases l (length (heap s1))) as [Hlt|Hge].
    + rewrite !lookup_app_l by lia. apply Hl, Hne.
    + rewrite !lookup_app_r by lia. rewrite Hlen. reflexivity.
  - exists fa, fb. split; [apply frame_at_alloc, Hfa|].
    split; [apply frame_at_alloc, Hfb | exact Hab].
Qed.

Lemma lacking_log s1 s2 j :
  lacking c df s1 s2 -> lacking c df (log_call s1 j) (log_call s2 j).
Proof.
  intros (Hc & Hlen & Hl & Hfr). split; [unfold log_call; cbn [calls]; rewrite Hc; reflexivity|].
  split; [exact Hlen|]. split; [exact Hl | exact Hfr].
Qed.

Lemma raises_setitem n col :
  n <> c -> raises_KeyError c df (fun _ => True) (setitem df n col).
Proof.
  intros Hn s1 s2 a s1' HR E.
  pose proof HR as (Hc & Hlen & Hl & fa & fb & Hfa & Hfb & Hi & Hnone & Hsame).
  assert (G : forall s, bind (setitem df n col) ret s = setitem df n col s).
  { intros s. unfold bind. destruct (setitem df n col s) as [[x|e] t]; reflexivity. }
  pose proof (bind_setitem s1 df fa n col ret Hfa) as E1.
  pose proof (bind_setitem s2 df fb n col ret Hfb) as E2.
  rewrite G in E1, E2. rewrite E in E1. rewrite <- Hi in E2.
  destruct (Nat.eqb (col_length col) (index fa)); [|discriminate E1].
  unfold ret in E1. injection E1 as -> ->. left. eexists. split; [exact E2|].
  split; [|exact I]. apply lacking_set; [exact HR|].
  split; [reflexivity|]. cbn [columns]. split.
  - rewrite col_lookup_col_set. destruct (String.eqb_spec n c); [contradiction | exact Hnone].
  - intros m Hm. rewrite !col_lookup_col_set. destruct (String.eqb n m); [reflexivity|].
    apply Hsame, Hm.
Qed.

Lemma raises_getitems names :
  raises_KeyError c df (fun _ => ~ In c names) (getitems df names).
Proof.
  induction names as [|n rest IH]; cbn [getitems].
  - apply raises_ret_with. intros [].
  - eapply raises_bind; [apply raises_getitem|]. intros x Hn. cbv beta in Hn.
    eapply raises_bind; [apply IH|]. intros xs Hrest. cbv beta in Hrest.
    apply raises_ret_with. intros [H|H]; [exact (Hn H) | exact (Hrest H)].
Qed.

Lemma raises_raise {A} (Q : A -> Prop) e : raises_KeyError c df Q (raise e).
Proof. intros s1 s2 a s1' _ E. discriminate E. Qed.

Lemma raises_setitems names cols :
  ~ In c names -> raises_KeyError c df (fun _ => True) (setitems df names cols).
Proof.
  revert cols. induction names as [|n rest IH]; intros cols Hn; destruct cols as [|x xs];
    cbn [setitems]; try apply raises_raise; [apply raises_ret|].
  eapply raises_bind; [apply raises_setitem|].
  - intros ->. apply Hn. left. reflexivity.
  - intros _ _. apply IH. intros H. apply Hn. right. exact H.
Qed.

Lemma first_missing_lacks names fa fb :
  lacks c fa fb -> first_missing names (columns fa) = None ->
  (In c names /\ first_missing names (columns fb) = Some c) \/
  (~ In c names /\ first_missing names (columns fb) = None).
Proof.
  intros (_ & Hnone & Hsame). induction names as [|n rest IH]; intros H; cbn [first_missing] in *.
  - right. split; [intros [] | reflexivity].
  - destruct (col_lookup n (columns fa)) as [x|] eqn:En; [|discriminate H].
    destruct (String.eqb_spec n c) as [->|Hn].
    + left. rewrite Hnone. split; [left; reflexivity | reflexivity].
    + rewrite (Hsame n Hn), En. destruct (IH H) as [[Hin E]|[Hin E]].
      * left. split; [right; exact Hin | exact E].
      * right. split; [intros [Hc|Hc]; [exact (Hn Hc) | exact (Hin Hc)] | exact E].
Qed.

Lemma fold_col_remove_lookup names ca cb m :
  col_lookup m ca = col_lookup m cb ->
  col_lookup m (fold_right col_remove ca names) = col_lookup m (fold_right col_remove cb names).
Proof.
  intros H. induction names as [|n rest IH]; cbn [fold_right]; [exact H|].
  rewrite !col_lookup_col_remove. destruct (String.eqb n m); [reflexivity | exact IH].
Qed.

Lemma fold_col_remove_None names cols m :
  col_lookup m cols = None -> col_lookup m (fold_right col_remove cols names) = None.
Proof.
  intros H. induction names as [|n rest IH]; cbn [fold_right]; [exact H|].
  rewrite col_lookup_col_remove. destruct (String.eqb n m); [reflexivity | exact IH].
Qed.

Lemma raises_drop_inplace names :
  raises_KeyError c df (fun _ => ~ In c names) (drop_inplace df names).
Proof.
  intros s1 s2 a s1' HR E.
  pose proof HR as (Hc & Hlen & Hl & fa & fb & Hfa & Hfb & Hab).
  rewrite (drop_inplace_at _ _ _ _ Hfa) in E. rewrite (drop_inplace_at _ _ _ _ Hfb).
  unfold drop_columns in *.
  destruct (first_missing names (columns fa)) eqn:Ea; [discriminate E|].
  injection E as <- <-.
  destruct (first_missing_lacks names fa fb Hab Ea) as [[Hin Eb]|[Hin Eb]]; rewrite Eb.
  - right. eexists. reflexivity.
  - left. eexists. split; [reflexivity|]. split; [|exact Hin].
    apply lacking_set; [exact HR|]. destruct Hab as (Hi & Hnone & Hsame).
    split; [exact Hi|]. cbn [columns]. split.
    + apply fold_col_remove_None, Hnone.
    + intros m Hm. apply fold_col_remove_lookup, Hsame, Hm.
Qed.

Lemma raises_alloc o : raises_KeyError c df (fun _ => True) (alloc o).
Proof.
  intros s1 s2 a s1' HR E. injection E as <- <-. left. exists (alloc_obj s2 o).
  destruct HR as (Hc & Hlen & Hrest) eqn:EHR. unfold alloc. rewrite Hlen.
  split; [reflexivity|]. split; [|exact I]. apply lacking_alloc.
  split; [exact Hc|]. split; [exact Hlen | exact Hrest].
Qed.

Lemma raises_journal j : raises_KeyError c df (fun _ => True) (journal j).
Proof.
  intros s1 s2 a s1' HR E. injection E as <- <-. left. exists (log_call s2 j).
  split; [reflexivity|]. split; [apply lacking_log, HR | exact I].
Qed.

Lemma raises_write l o : l <> df -> raises_KeyError c df (fun _ => True) (write l o).
Proof.
  intros Hne s1 s2 a s1' HR E. injection E as <- <-. left. exists (set_obj s2 l o).
  split; [reflexivity|]. split; [apply lacking_set_other; assumption | exact I].
Qed.

(** Reading an estimator or a dictionary: the object read is not the
    table, or the method would not have returned. *)
Lemma raises_read {B} (Q : B -> Prop) l (k : obj -> M B) :
  (forall f s, is_ok (fst (k (PyDataFrame f) s)) = false) ->
  (l <> df -> forall o, raises_KeyError c df Q (k o)) ->
  raises_KeyError c df Q (bind (read l) k).
Proof.
  intros Hframe Hk s1 s2 b s1' HR E.
  pose proof HR as (Hc & Hlen & Hl & fa & fb & Hfa & Hfb & Hab).
  rewrite bind_read in E. destruct (Nat.eq_dec l df) as [->|Hne].
  - rewrite Hfa in E. pose proof (Hframe fa s1) as Hno. rewrite E in Hno. discriminate Hno.
  - destruct (heap s1 !! l) as [o|] eqn:Eo; [|discriminate E].
    destruct (Hk Hne o _ _ _ _ HR E) as [(s2' & E2 & H2)|(s2' & E2)].
    + left. exists s2'. rewrite bind_read, <- (Hl l Hne), Eo. split; [exact E2 | exact H2].
    + right. exists s2'. rewrite bind_read, <- (Hl l Hne), Eo. exact E2.
Qed.

Lemma raises_dict_getitem d k :
  raises_KeyError c df (fun _ => True) (dict_getitem d k).
Proof.
  unfold dict_getitem. destruct d as [l|]; [|apply raises_raise].
  apply raises_read; [reflexivity|]. intros _ [| | |items]; try apply raises_raise.
  destruct (dict_lookup k items); [apply raises_ret | apply raises_raise].
Qed.

Lemma raises_dict_setitem d k v :
  raises_KeyError c df (fun _ => True) (dict_setitem d k v).
Proof.
  unfold dict_setitem. apply raises_read; [reflexivity|].
  intros Hne [| | |items]; try apply raises_raise. apply raises_write, Hne.
Qed.

Lemma raises_fit_transform enc X :
  raises_KeyError c df (fun _ => True) (OrdinalEncoder_fit_transform enc X).
Proof.
  unfold OrdinalEncoder_fit_transform. apply raises_read; [reflexivity|].
  intros Hne [| | |]; try apply raises_raise.
  eapply raises_bind; [apply raises_journal | intros _ _].
  eapply raises_bind; [apply raises_lift | intros cols _].
  eapply raises_bind; [apply raises_write, Hne | intros _ _]. apply raises_ret.
Qed.

Lemma raises_transform enc X :
  raises_KeyError c df (fun _ => True) (OrdinalEncoder_transform enc X).
Proof.
  unfold OrdinalEncoder_transform. apply raises_read; [reflexivity|].
  intros Hne [|fitted| |]; try apply raises_raise.
  eapply raises_bind; [apply raises_journal | intros _ _].
  destruct fitted as [cats|]; [|apply raises_raise].
  eapply raises_bind; [apply raises_lift | intros cols _].
  destruct (Nat.eqb (length cols) (length cats)); [apply raises_ret | apply raises_raise].
Qed.

Lemma raises_fit_arm : raises_KeyError c df (fun _ => True) (fit_arm df).
Proof.
  unfold fit_arm.
  eapply raises_bind; [apply raises_alloc | intros encoders _].
  eapply raises_bind; [apply raises_alloc | intros enc _].
  eapply raises_bind; [apply raises_getitems | intros X Hn]. cbv beta in Hn.
  eapply raises_bind; [apply raises_fit_transform | intros codes _].
  eapply raises_bind; [apply raises_setitems, Hn | intros _ _].
  eapply raises_bind; [apply raises_dict_setitem | intros _ _].
  apply raises_ret.
Qed.

Lemma raises_apply_arm encs : raises_KeyError c df (fun _ => True) (apply_arm df encs).
Proof.
  unfold apply_arm.
  eapply raises_bind; [apply raises_dict_getitem | intros enc _].
  eapply raises_bind; [apply raises_getitems | intros X Hn]. cbv beta in Hn.
  eapply raises_bind; [apply raises_transform | intros codes _].
  eapply raises_bind; [apply raises_setitems, Hn | intros _ _].
  apply raises_ret.
Qed.

Hypothesis Hraw : In c raw_columns.

Lemma raw_not_derived n :
  In n ["hour"; "day_of_week"; "age"; "distance"; "amt_per_capita"; "trans_count"; "amt_ratio"] ->
  n <> c.
Proof.
  intros Hn ->. cbv in Hraw, Hn.
  repeat destruct Hn as [Hn|Hn]; try contradiction; subst c;
    repeat destruct Hraw as [Hraw|Hraw]; try contradiction; discriminate Hraw.
Qed.

Ltac raises_step :=
  first
    [ apply raises_lift
    | apply raises_getitem
    | apply raises_setitem; apply raw_not_derived; cbv; tauto
    | eapply raises_bind; [|intros ? _] ].

Lemma raises_derive_features v now :
  raises_KeyError c df (fun _ => True) (derive_features v now df).
Proof. unfold derive_features. repeat raises_step. Qed.

Lemma raises_feature_engineering v now encs fit :
  raises_KeyError c df (fun _ => True) (feature_engineering v now df encs fit).
Proof.
  unfold feature_engineering.
  eapply raises_bind; [apply raises_derive_features | intros _ _].
  eapply raises_bind; [destruct fit; [apply raises_fit_arm | apply raises_apply_arm] | intros e _].
  eapply raises_bind; [apply raises_drop_inplace | intros _ _].
  apply raises_ret.
Qed.
End Lacking.

(** C9, as the code has it.  A call on a table that lacks one of the raw
    columns the function reads raises and returns no table, with or without
    a fitted encoder.  What it raises is pandas' [KeyError] for the absent
    column whenever the same call returns on the table with that column
    put back. *)
Theorem missing_column_raises
    (v : pandas_version) (now : Z) (df : loc) (encs : option loc) (fit : bool)
    (s : store) (f : DataFrame) (c : string) :
  frame_at s df f ->
  In c raw_columns ->
  col_lookup c (columns f) = None ->
  (exists e s', feature_engineering v now df encs fit s = (Raise e, s')) /\
  (forall f0 r s0,
     lacks c f0 f ->
     feature_engineering v now df encs fit (set_obj s df (PyDataFrame f0)) = (Ok r, s0) ->
     exists s', feature_engineering v now df encs fit s = (Raise (KeyError c), s')).
Proof.
  intros Hf Hc Hnone.
  destruct (absent_column_raises v now df encs fit s f c Hf Hc Hnone) as (e & s' & E).
  split; [exists e, s'; exact E|].
  intros f0 r s0 Hlacks E0.
  assert (HR : lacking c df (set_obj s df (PyDataFrame f0)) s).
  { split; [reflexivity|]. split; [apply length_set_obj|]. split.
    - intros l Hne. apply lookup_set_obj_other. congruence.
    - exists f0, f. split; [eapply frame_at_set_obj, Hf|]. split; [exact Hf | exact Hlacks]. }
  destruct (raises_feature_engineering c df Hc v now encs fit _ _ _ _ HR E0)
    as [(s2 & E2 & _)|(s2 & E2)].
  - rewrite E in E2. discriminate E2.
  - exists s2. exact E2.
Qed.

(** ** The footprint of [feature_engineering] *)










(** ** Runs that differ in the clock reading *)








Lemma clock_related_more tables tables' s1 s2 :
  (forall l, In l tables -> In l tables') ->
  clock_related tables s1 s2 -> clock_related tables' s1 s2.
Proof.
  intros Hsub (Hc & Hlen & H). split; [exact Hc|]. split; [exact Hlen|].
  intros l. split; [apply H|]. intros Hn. apply H. intros Hin. apply Hn, Hsub, Hin.
Qed.


Section Clock.
Variable tables : list loc.
Variable df : loc.
Hypothesis Hdf : In df tables.
Let R := clock_related tables.


























End Clock.




Section Clock_pipeline.
Variable randint : Z -> nat -> nat -> nat -> nat.
Variable uniform : Z -> nat -> nat -> float64.
Variable kneighbors : list (list float64) -> nat -> list (list nat).
Variable split_rows : float64 -> Z -> list Z -> result (list nat * list nat).
Variable mean_and_scale : list float64 -> float64 * float64.
Variable classifier : Type.
Variable gbc_fit :
  nat -> float64 -> nat -> Z -> DataFrame -> list Z -> result classifier.
Variable gbc_check : classifier -> DataFrame -> result unit.
Variable gbc_predict_row : classifier -> list column -> nat -> Z.

End Clock_pipeline.

Section Submission.
Variable classifier : Type.
Variable gbc_check : classifier -> DataFrame -> result unit.
Variable gbc_predict_row : classifier -> list column -> nat -> Z.

Lemma predict_at (model : classifier) (X : loc) (f : DataFrame) (s : store) :
  frame_at s X f ->
  predict classifier gbc_check gbc_predict_row model X s =
    match gbc_check model f with
    | Ok _ => (Ok (map (gbc_predict_row model (map snd (columns f))) (seq 0 (index f))), s)
    | Raise e => (Raise e, s)
    end.
Proof.
  intros H. unfold predict. rewrite bind_eq, (read_frame_at _ _ _ H), bind_lift.
  destruct (gbc_check model f); reflexivity.
Qed.

(** C3.  The table written by cell 15 has the rows of the test table,
    in their order, and two columns: the [id] column of the test table
    as it is, and one predicted label per row. *)
Theorem submission_round_trip
    (model : classifier) (test X_test_submission : loc) (s : store)
    (ft fX : DataFrame) (ids : column) :
  frame_at s test ft ->
  frame_at s X_test_submission fX ->
  index fX = index ft ->
  col_lookup "id" (columns ft) = Some ids ->
  gbc_check model fX = Ok tt ->
  exists (y_test_pred : list Z) (s' : store),
    cell15 classifier gbc_check gbc_predict_row model test X_test_submission s =
      (Ok (mkDataFrame (index ft) [("id", ids); ("is_fraud", IntCol y_test_pred)]), s') /\
    length y_test_pred = index ft /\
    y_test_pred = map (gbc_predict_row model (map snd (columns fX))) (seq 0 (index ft)).
Proof.
  intros Ht HX Hi Hid Hc.
  exists (map (gbc_predict_row model (map snd (columns fX))) (seq 0 (index ft))).
  eexists. split; [|split; [rewrite length_map, length_seq; reflexivity | reflexivity]].
  unfold cell15. rewrite bind_eq, (predict_at _ _ _ _ HX), Hc, Hi.
  rewrite (bind_setitem _ _ _ _ _ _ Ht). cbn [col_length].
  rewrite length_map, length_seq, Nat.eqb_refl.
  rewrite bind_eq, (getitems_at _ _ _ _ (frame_at_set_obj _ _ _ _ Ht)).
  cbn [get_columns columns].
  rewrite col_lookup_set_other by reflexivity. rewrite Hid.
  rewrite col_lookup_set_same.
  rewrite bind_eq, (read_frame_at _ _ _ (frame_at_set_obj _ _ _ _ Ht)).
  reflexivity.
Qed.
End Submission.

(** ** The estimator protocol *)

Section Run.
Variables (h0 : list obj) (c0 : list call) (train test : loc).
Hypothesis Htrain : (train < length h0)%nat.
Hypothesis Htest : (test < length h0)%nat.
Hypothesis Hne : train <> test.

Let state := st h0 c0 train test.

Lemma st_length f g tl J : length (heap (state f g tl J)) = (length h0 + length tl)%nat.
Proof. unfold state, state, st. cbn [heap]. rewrite length_app, !length_insert. reflexivity. Qed.

Lemma st_frame_train f g tl J : frame_at (state f g tl J) train f.
Proof.
  unfold frame_at, state, st. cbn [heap].
  rewrite lookup_app_l by (rewrite !length_insert; exact Htrain).
  rewrite list_lookup_insert_ne by congruence.
  apply list_lookup_insert_eq, Htrain.
Qed.

Lemma st_frame_test f g tl J : frame_at (state f g tl J) test g.
Proof.
  unfold frame_at, state, st. cbn [heap].
  rewrite lookup_app_l by (rewrite !length_insert; exact Htest).
  apply list_lookup_insert_eq. rewrite length_insert. exact Htest.
Qed.

Lemma st_lookup_new f g tl J k :
  heap (state f g tl J) !! (length h0 + k)%nat = tl !! k.
Proof.
  unfold state, state, st. cbn [heap]. rewrite lookup_app_r by (rewrite !length_insert; lia).
  rewrite !length_insert. f_equal. lia.
Qed.

Lemma st_frame_new f g tl J k fr :
  tl !! k = Some (PyDataFrame fr) -> frame_at (state f g tl J) (length h0 + k) fr.
Proof. intros H. unfold frame_at. rewrite st_lookup_new. exact H. Qed.

Lemma st_set_train f g tl J f' :
  set_obj (state f g tl J) train (PyDataFrame f') = state f' g tl J.
Proof.
  unfold set_obj, state, st. cbn [heap calls]. f_equal.
  rewrite insert_app_l by (rewrite !length_insert; exact Htrain).
  f_equal. rewrite list_insert_insert_ne by congruence.
  rewrite list_insert_insert_eq. reflexivity.
Qed.

Lemma st_set_test f g tl J g' :
  set_obj (state f g tl J) test (PyDataFrame g') = state f g' tl J.
Proof.
  unfold set_obj, state, st. cbn [heap calls]. f_equal.
  rewrite insert_app_l by (rewrite !length_insert; exact Htest).
  f_equal. apply list_insert_insert_eq.
Qed.

Lemma st_set_new f g tl J k o :
  set_obj (state f g tl J) (length h0 + k) o = state f g (<[k := o]> tl) J.
Proof.
  unfold set_obj, state, st. cbn [heap calls]. f_equal.
  rewrite insert_app_r_alt by (rewrite !length_insert; lia).
  rewrite !length_insert. do 2 f_equal. lia.
Qed.

Lemma st_alloc f g tl J o :
  alloc_obj (state f g tl J) o = state f g (tl ++ [o]) J.
Proof. unfold alloc_obj, state, st. cbn [heap calls]. rewrite <- app_assoc. reflexivity. Qed.

Lemma st_log f g tl J c :
  log_call (state f g tl J) c = state f g tl (J ++ [c]).
Proof. unfold log_call, state, st. cbn [heap calls]. rewrite <- app_assoc. reflexivity. Qed.

Lemma st_init s f g :
  heap s = h0 -> calls s = c0 -> frame_at s train f -> frame_at s test g ->
  s = state f g [] [].
Proof.
  intros <- <- Hf Hg. unfold state, state, st. rewrite !app_nil_r.
  rewrite (list_insert_id _ _ _ Hf), (list_insert_id _ _ _ Hg). destruct s; reflexivity.
Qed.

Variable randint : Z -> nat -> nat -> nat -> nat.
Variable uniform : Z -> nat -> nat -> float64.
Variable kneighbors : list (list float64) -> nat -> list (list nat).
Variable split_rows : float64 -> Z -> list Z -> result (list nat * list nat).
Variable mean_and_scale : list float64 -> float64 * float64.
Variable classifier : Type.
Variable gbc_fit :
  nat -> float64 -> nat -> Z -> DataFrame -> list Z -> result classifier.
Variable gbc_check : classifier -> DataFrame -> result unit.
Variable gbc_predict_row : classifier -> list column -> nat -> Z.

Let run_notebook :=
  notebook randint uniform kneighbors split_rows mean_and_scale classifier
           gbc_fit gbc_check gbc_predict_row.

Lemma bind_getitems {B} s l f names (k : list column -> M B) :
  frame_at s l f ->
  bind (getitems l names) k s = match get_columns names (columns f) with
                                | Ok a => k a s
                                | Raise e => (Raise e, s)
                                end.
Proof.
  intros H. rewrite bind_eq, (getitems_at _ _ _ _ H).
  destruct (get_columns names (columns f)); reflexivity.
Qed.

Lemma bind_setitems {B} s l f names cols (k : unit -> M B) :
  frame_at s l f ->
  bind (setitems l names cols) k s =
    match fst (set_columns names cols f) with
    | Ok _ => k tt (set_obj s l (PyDataFrame (snd (set_columns names cols f))))
    | Raise e => (Raise e, set_obj s l (PyDataFrame (snd (set_columns names cols f))))
    end.
Proof.
  intros H. rewrite bind_eq, (setitems_at _ _ _ _ _ H).
  destruct (fst (set_columns names cols f)) as [[]|]; reflexivity.
Qed.

Lemma bind_drop {B} s l f names (k : loc -> M B) :
  frame_at s l f ->
  bind (drop l names) k s = match drop_columns names f with
                            | Ok f' => k (length (heap s)) (alloc_obj s (PyDataFrame f'))
                            | Raise e => (Raise e, s)
                            end.
Proof.
  intros H. unfold drop. rewrite bind_assoc, bind_eq, (read_frame_at _ _ _ H).
  rewrite bind_assoc, bind_lift. destruct (drop_columns names f); reflexivity.
Qed.

Lemma bind_drop_inplace {B} s l f names (k : unit -> M B) :
  frame_at s l f ->
  bind (drop_inplace l names) k s = match drop_columns names f with
                                    | Ok f' => k tt (set_obj s l (PyDataFrame f'))
                                    | Raise e => (Raise e, s)
                                    end.
Proof.
  intros H. rewrite bind_eq, (drop_inplace_at _ _ _ _ H).
  destruct (drop_columns names f); reflexivity.
Qed.

Lemma bind_read_frame {B} s l f (k : DataFrame -> M B) :
  frame_at s l f -> bind (read_frame l) k s = k f s.
Proof. intros H. rewrite bind_eq, (read_frame_at _ _ _ H). reflexivity. Qed.

Ltac norm := cbv beta iota; repeat first [rewrite bind_assoc | rewrite bind_ret].

Ltac frame_fact :=
  first [ apply st_frame_train | apply st_frame_test | apply st_frame_new; reflexivity ].

Ltac split_as x E :=
  lazymatch goal with
  | |- context [match ?r with Ok _ => _ | Raise _ => _ end] =>
      destruct r as [x|?] eqn:E
  end.

Ltac look :=
  rewrite ?bind_assoc; rewrite bind_read, st_lookup_new;
  cbn [lookup list_lookup]; norm.

Ltac st_norm :=
  rewrite ?st_alloc, ?st_log, ?st_set_train, ?st_set_test, ?st_set_new, ?st_length;
  cbn [length app Nat.add insert list_insert]; norm.

Ltac leave P :=
  subst P; cbv beta; eexists _, _, _; split; [reflexivity|];
  split; [reflexivity|]; split; [eexists; reflexivity|];
  split; [intros Hok; discriminate Hok|];
  split; intros out Hout; discriminate Hout.

Lemma derived_id v now f f1 :
  derived v now f f1 -> col_lookup "id" (columns f1) = col_lookup "id" (columns f).
Proof.
  intros Hd. derived_inv Hd. rewrite Ef1. unfold with_features. cbn [columns].
  repeat rewrite col_lookup_set_other by reflexivity. reflexivity.
Qed.

Lemma derived_cat_cols v now f f1 :
  derived v now f f1 ->
  get_columns cat_cols (columns f1) = get_columns cat_cols (columns f).
Proof.
  intros Hd. derived_inv Hd. rewrite Ef1. apply get_columns_cat_cols_with_features.
Qed.

Lemma notebook_run v now_train now_test ftrain ftest :
  exists r s' J,
    run_notebook v now_train now_test train test (state ftrain ftest [] []) = (r, s') /\
    calls s' = (c0 ++ J)%list /\
    map call_kind J `prefix_of` protocol (length h0 + 1) (length h0 + 6) /\
    (is_ok r = true ->
     exists Xtrain cols Xtest ftrain' y X0 X_smote labels rows_train rows_val
            A colsA B colsB Xsub0 C colsC,
       J = [FitTransform (length h0 + 1) Xtrain; Transform (length h0 + 1) Xtest;
            FitTransform (length h0 + 6) A; Transform (length h0 + 6) B;
            Transform (length h0 + 6) C] /\
       get_columns cat_cols (columns ftrain) = Ok Xtrain /\
       check_categorical Xtrain = Ok cols /\
       get_columns cat_cols (columns ftest) = Ok Xtest /\
       heap s' !! (length h0 + 1)%nat =
         Some (PyOrdinalEncoder (Some (map categories_of cols))) /\
       frame_at s' train ftrain' /\
       drop_columns ["is_fraud"; "trans_num"; "id"] ftrain' = Ok X0 /\
       col_lookup "is_fraud" (columns ftrain') = Some y /\
       SMOTE_fit_resample randint uniform kneighbors 42 X0 y = Ok (X_smote, IntCol labels) /\
       split_rows (F64.div (F64.of_int 2) (F64.of_int 10)) 42 labels =
         Ok (rows_train, rows_val) /\
       get_columns numeric_features (columns (frame_iloc rows_train X_smote)) = Ok A /\
       check_numeric A = Ok colsA /\
       heap s' !! (length h0 + 6)%nat =
         Some (PyStandardScaler (Some (map mean_and_scale colsA))) /\
       get_columns numeric_features (columns (frame_iloc rows_val X_smote)) = Ok B /\
       check_numeric B = Ok colsB /\
       frame_at s' (length h0 + 5)
         (snd (set_columns numeric_features
                 (scale_columns (map mean_and_scale colsA) colsB)
                 (frame_iloc rows_val X_smote))) /\
       get_columns numeric_features (columns Xsub0) = Ok C /\
       check_numeric C = Ok colsC /\
       frame_at s' (length h0 + 3)
         (snd (set_columns numeric_features
                 (scale_columns (map mean_and_scale colsA) colsC) Xsub0))) /\
    (forall out, r = Ok out ->
     exists ids y_test_pred,
       col_lookup "id" (columns ftest) = Some ids /\
       out_submission out =
         mkDataFrame (index ftest) [("id", ids); ("is_fraud", IntCol y_test_pred)] /\
       length y_test_pred = index ftest) /\
    (forall out, r = Ok out ->
     exists f1 X y resampled,
       derived v now_train ftrain f1 /\
       (0 < index ftrain)%nat /\
       col_lookup "trans_count" (columns X) = col_lookup "trans_count" (columns f1) /\
       SMOTE_fit_resample randint uniform kneighbors 42 X y = Ok resampled).
Proof.
  pattern (run_notebook v now_train now_test train test (state ftrain ftest [] [])).
  match goal with |- ?Q _ => set (P := Q) end.
  unfold run_notebook, notebook, cell7, feature_engineering.
  rewrite !bind_assoc.
  destruct (derive_features_spec v now_train train (state ftrain ftest [] []) ftrain)
    as (r1 & f1 & E1 & Hi1 & Hd1); [rewrite st_length; lia|].
  rewrite !st_set_train in E1. rewrite bind_eq, E1. clear E1.
  destruct r1 as [[]|e1]; [|leave P].
  (* the fitting arm *)
  unfold fit_arm. norm.
  rewrite bind_alloc; st_norm. rewrite bind_alloc; st_norm.
  erewrite bind_getitems by frame_fact. split_as Xtrain EXtrain; [|leave P].
  unfold OrdinalEncoder_fit_transform. look.
  rewrite bind_journal; st_norm.
  rewrite bind_lift. split_as cols Ecols; [|leave P]. norm.
  rewrite bind_write; st_norm.
  erewrite bind_setitems by frame_fact. split_as u1 Eset1; [|leave P]. st_norm.
  unfold dict_setitem. look. rewrite bind_write; st_norm. cbn [dict_set].
  erewrite bind_drop_inplace by frame_fact. split_as ftrain' Edrop1; [|leave P]. st_norm.
  (* the test table *)
  destruct (derive_features_spec v now_test test
              (state ftrain' ftest [PyDict [("ordinal_encoder", (length h0 + 1)%nat)];
                                    PyOrdinalEncoder (Some (map categories_of cols))]
                     [FitTransform (length h0 + 1) Xtrain]) ftest)
    as (r2 & g1 & E2 & Hi2 & Hd2); [rewrite st_length; lia|].
  rewrite !st_set_test in E2. rewrite bind_eq, E2. clear E2.
  destruct r2 as [[]|e2]; [|leave P]. norm.
  unfold apply_arm, dict_getitem. look. cbn [dict_lookup]. rewrite String.eqb_refl. norm.
  erewrite bind_getitems by frame_fact. split_as Xtest EXtest; [|leave P].
  unfold OrdinalEncoder_transform. look.
  rewrite bind_journal; st_norm.
  rewrite bind_lift. split_as cols' Ecols'; [|leave P]. norm.
  destruct (Nat.eqb (length cols') (length (map categories_of cols))) eqn:Ewidth;
    norm; [|leave P].
  erewrite bind_setitems by frame_fact. split_as u2 Eset2; [|leave P]. st_norm.
  erewrite bind_drop_inplace by frame_fact. split_as ftest' Edrop2; [|leave P]. st_norm.
  (* cell 9 *)
  unfold cell9. norm.
  erewrite bind_drop by frame_fact. split_as X0 EX0; [|leave P]. st_norm.
  erewrite bind_getitem by frame_fact. destruct (col_lookup "is_fraud" (columns ftrain')) as [y|] eqn:Ey;
    [|leave P]. norm.
  erewrite bind_drop by frame_fact. split_as Xsub0 EXsub0; [|leave P]. st_norm.
  erewrite bind_read_frame by frame_fact. norm.
  rewrite bind_lift. split_as sm Esm; [|leave P]. destruct sm as [X_smote y_smote]. norm.
  rewrite bind_lift. split_as labels Elabels; [|leave P]. norm.
  rewrite bind_lift. split_as parts Eparts; [|leave P]. destruct parts as [rows_train rows_val]. norm.
  rewrite bind_alloc; st_norm. rewrite bind_alloc; st_norm. rewrite bind_alloc; st_norm.
  erewrite bind_getitems by frame_fact. split_as A EA; [|leave P].
  unfold StandardScaler_fit_transform. look.
  rewrite bind_journal; st_norm.
  rewrite bind_lift. split_as colsA EcolsA; [|leave P]. norm.
  rewrite bind_write; st_norm.
  erewrite bind_setitems by frame_fact. split_as u3 Eset3; [|leave P]. st_norm.
  erewrite bind_getitems by frame_fact. split_as B EB; [|leave P].
  unfold StandardScaler_transform. look.
  rewrite bind_journal; st_norm.
  rewrite bind_lift. split_as colsB EcolsB; [|leave P]. norm.
  destruct (Nat.eqb (length colsB) (length (map mean_and_scale colsA))) eqn:EwB;
    norm; [|leave P].
  erewrite bind_setitems by frame_fact. split_as u4 Eset4; [|leave P]. st_norm.
  erewrite bind_getitems by frame_fact. split_as C EC; [|leave P].
  look.
  rewrite bind_journal; st_norm.
  rewrite bind_lift. split_as colsC EcolsC; [|leave P]. norm.
  destruct (Nat.eqb (length colsC) (length (map mean_and_scale colsA))) eqn:EwC;
    norm; [|leave P].
  erewrite bind_setitems by frame_fact. split_as u5 Eset5; [|leave P]. st_norm.
  (* cell 11 *)
  unfold cell11. norm.
  erewrite bind_read_frame by frame_fact. norm.
  rewrite bind_lift. split_as model Emodel; [|leave P]. norm.
  rewrite bind_eq. erewrite predict_at by frame_fact. split_as uv Ecv; [|leave P]. norm.
  (* cell 15 *)
  unfold cell15. norm.
  rewrite bind_eq. erewrite predict_at by frame_fact. split_as ut Ect; [|leave P]. norm.
  erewrite bind_setitem by frame_fact.
  lazymatch goal with
  | |- context [if Nat.eqb ?a ?b then _ else _] => destruct (Nat.eqb a b) eqn:Elen
  end; [|leave P]. st_norm.
  erewrite bind_getitems by frame_fact. split_as sub Esub; [|leave P]. norm.
  erewrite bind_read_frame by frame_fact. norm.
  (* the run went through *)
  assert (Ey' : y_smote = IntCol labels).
  { destruct y_smote; try discriminate Elabels. injection Elabels as ->. reflexivity. }
  subst y_smote. rewrite (derived_cat_cols _ _ _ _ Hd1) in EXtrain.
  rewrite (derived_cat_cols _ _ _ _ Hd2) in EXtest.
  subst P. cbv beta. eexists _, _, _. split; [reflexivity|]. split; [reflexivity|].
  split; [eexists; reflexivity|]. split; [|split].
  - intros _.
    exists Xtrain, cols, Xtest, ftrain', y, X0, X_smote, labels, rows_train, rows_val,
           A, colsA, B, colsB, Xsub0, C, colsC.
    repeat lazymatch goal with |- _ /\ _ => split end;
      try assumption; try reflexivity;
      try (rewrite st_lookup_new; reflexivity);
      try (apply st_frame_train);
      try (apply st_frame_new; reflexivity).
  - intros out Hout. injection Hout as <-. cbn [out_submission].
    destruct (drop_columns_keeps _ _ _ "id" Edrop2) as [Kid Ki]; [cbv; intuition discriminate|].
    destruct (set_columns_keeps cat_cols (encode_columns (map categories_of cols) cols') g1 "id")
      as [Kid' Ki']; [cbv; intuition discriminate|].
    rewrite Kid', (derived_id _ _ _ _ Hd2) in Kid. rewrite Ki', Hi2 in Ki.
    cbn [get_columns columns index] in Esub.
    rewrite col_lookup_set_other in Esub by reflexivity.
    rewrite col_lookup_set_same, Kid in Esub.
    destruct (col_lookup "id" (columns ftest)) as [ids|]; [|discriminate Esub].
    injection Esub as <-. cbn [col_length index] in Elen. apply Nat.eqb_eq in Elen.
    eexists ids, _. split; [reflexivity|]. cbn [index combine]. rewrite Ki.
    split; [reflexivity|]. rewrite <- Ki. exact Elen.
  - intros out _. exists f1, X0, y, (X_smote, IntCol labels).
    split; [exact Hd1|]. split; [|split; [|exact Esm]].
    + rewrite <- (derived_index _ _ _ _ Hd1).
      destruct (set_columns cat_cols (encode_columns (map categories_of cols) cols) f1)
        as [[[]|e] f2] eqn:Eset; [|discriminate Eset1].
      apply (encoded_table_has_rows (map categories_of cols) cols f1 f2);
        [exact (check_categorical_rows _ _ Ecols) | | exact Eset].
      destruct (check_categorical_rows _ _ Ecols) as (x & xs & rest & ->). discriminate.
    + destruct (drop_columns_keeps _ _ _ "trans_count" EX0) as [K1 _];
        [cbv; intuition discriminate|].
      destruct (drop_columns_keeps _ _ _ "trans_count" Edrop1) as [K2 _];
        [cbv; intuition discriminate|].
      destruct (set_columns_keeps cat_cols (encode_columns (map categories_of cols) cols)
                  f1 "trans_count") as [K3 _]; [cbv; intuition discriminate|].
      rewrite K1, K2, K3. reflexivity.
Qed.
End Run.

Section Pipeline.
Variable randint : Z -> nat -> nat -> nat -> nat.
Variable uniform : Z -> nat -> nat -> float64.
Variable kneighbors : list (list float64) -> nat -> list (list nat).
Variable split_rows : float64 -> Z -> list Z -> result (list nat * list nat).
Variable mean_and_scale : list float64 -> float64 * float64.
Variable classifier : Type.
Variable gbc_fit :
  nat -> float64 -> nat -> Z -> DataFrame -> list Z -> result classifier.
Variable gbc_check : classifier -> DataFrame -> result unit.
Variable gbc_predict_row : classifier -> list column -> nat -> Z.

(** C1.  A run of the notebook on the two tables cell 3 loaded, however
    it ends, calls the estimators in the order: encoder fitted, encoder
    applied, scaler fitted, scaler applied, scaler applied (a run that
    raises stops somewhere along this list).  When the run goes through,
    the encoder was fitted on the categorical columns of the train table
    and applied to those of the test table and still holds the categories
    of the train table at the end; the scaler was fitted on the numeric
    columns of the training part of the split of the resampled train
    table, still holds their means and scales at the end, and the
    validation part and the test table were standardised with these. *)
Theorem estimators_fitted_once_on_training_data
    (v : pandas_version) (now_train now_test : Z) (train test : loc) (s : store)
    (ftrain ftest : DataFrame) :
  frame_at s train ftrain ->
  frame_at s test ftest ->
  train <> test ->
  let n := length (heap s) in
  let enc := (n + 1)%nat in
  let scaler := (n + 6)%nat in
  exists r s' J,
    notebook randint uniform kneighbors split_rows mean_and_scale classifier
             gbc_fit gbc_check gbc_predict_row v now_train now_test train test s = (r, s') /\
    calls s' = (calls s ++ J)%list /\
    map call_kind J `prefix_of` protocol enc scaler /\
    (is_ok r = true ->
     exists Xtrain cols Xtest ftrain' y X X_smote labels rows_train rows_val
            A colsA B colsB X_test_submission C colsC,
       J = [FitTransform enc Xtrain; Transform enc Xtest;
            FitTransform scaler A; Transform scaler B; Transform scaler C] /\
       get_columns cat_cols (columns ftrain) = Ok Xtrain /\
       check_categorical Xtrain = Ok cols /\
       get_columns cat_cols (columns ftest) = Ok Xtest /\
       heap s' !! enc = Some (PyOrdinalEncoder (Some (map categories_of cols))) /\
       frame_at s' train ftrain' /\
       drop_columns ["is_fraud"; "trans_num"; "id"] ftrain' = Ok X /\
       col_lookup "is_fraud" (columns ftrain') = Some y /\
       SMOTE_fit_resample randint uniform kneighbors 42 X y = Ok (X_smote, IntCol labels) /\
       split_rows (F64.div (F64.of_int 2) (F64.of_int 10)) 42 labels =
         Ok (rows_train, rows_val) /\
       get_columns numeric_features (columns (frame_iloc rows_train X_smote)) = Ok A /\
       check_numeric A = Ok colsA /\
       heap s' !! scaler = Some (PyStandardScaler (Some (map mean_and_scale colsA))) /\
       get_columns numeric_features (columns (frame_iloc rows_val X_smote)) = Ok B /\
       check_numeric B = Ok colsB /\
       frame_at s' (n + 5)
         (snd (set_columns numeric_features
                 (scale_columns (map mean_and_scale colsA) colsB)
                 (frame_iloc rows_val X_smote))) /\
       get_columns numeric_features (columns X_test_submission) = Ok C /\
       check_numeric C = Ok colsC /\
       frame_at s' (n + 3)
         (snd (set_columns numeric_features
                 (scale_columns (map mean_and_scale colsA) colsC) X_test_submission))).
Proof.
  intros Hf Hg Hne n enc scaler.
  pose proof (notebook_run (heap s) (calls s) train test
                (frame_at_lt _ _ _ Hf) (frame_at_lt _ _ _ Hg) Hne
                randint uniform kneighbors split_rows mean_and_scale classifier
                gbc_fit gbc_check gbc_predict_row v now_train now_test ftrain ftest) as H.
  rewrite <- (st_init (heap s) (calls s) train test
                (frame_at_lt _ _ _ Hf) (frame_at_lt _ _ _ Hg) s ftrain ftest
                eq_refl eq_refl Hf Hg) in H.
  destruct H as (r & s' & J & E & Ec & Hp & Hfit & _).
  exists r, s', J. split; [exact E|]. split; [exact Ec|]. split; [exact Hp | exact Hfit].
Qed.

(** X2.  The table a complete run writes: the rows of the test table cell 3
    loaded, its [id] column as it is, one predicted label per row. *)
Lemma notebook_submission
    (v : pandas_version) (now_train now_test : Z) (train test : loc) (s s' : store)
    (ftrain ftest : DataFrame) (out : outputs) :
  frame_at s train ftrain ->
  frame_at s test ftest ->
  train <> test ->
  notebook randint uniform kneighbors split_rows mean_and_scale classifier
           gbc_fit gbc_check gbc_predict_row v now_train now_test train test s = (Ok out, s') ->
  exists ids y_test_pred,
    col_lookup "id" (columns ftest) = Some ids /\
    out_submission out =
      mkDataFrame (index ftest) [("id", ids); ("is_fraud", IntCol y_test_pred)] /\
    length y_test_pred = index ftest.
Proof.
  intros Hf Hg Hne Hrun.
  pose proof (notebook_run (heap s) (calls s) train test
                (frame_at_lt _ _ _ Hf) (frame_at_lt _ _ _ Hg) Hne
                randint uniform kneighbors split_rows mean_and_scale classifier
                gbc_fit gbc_check gbc_predict_row v now_train now_test ftrain ftest) as H.
  rewrite <- (st_init (heap s) (calls s) train test
                (frame_at_lt _ _ _ Hf) (frame_at_lt _ _ _ Hg) s ftrain ftest
                eq_refl eq_refl Hf Hg) in H.
  destruct H as (r & s1 & J & E & _ & _ & _ & Hsub & _).
  rewrite Hrun in E. injection E as <- <-. apply Hsub. reflexivity.
Qed.

(** X1.  Under pandas 2 no run of the notebook goes through: the [trans_count]
    of the first row of the train table is NaN, and the oversampler takes
    no NaN. *)
Lemma notebook_raises_under_pandas_2
    (now_train now_test : Z) (train test : loc) (s : store) (ftrain ftest : DataFrame) :
  frame_at s train ftrain ->
  frame_at s test ftest ->
  train <> test ->
  is_ok (fst (notebook randint uniform kneighbors split_rows mean_and_scale classifier
                gbc_fit gbc_check gbc_predict_row pandas_2 now_train now_test
                train test s)) = false.
Proof.
  intros Hf Hg Hne.
  pose proof (notebook_run (heap s) (calls s) train test
                (frame_at_lt _ _ _ Hf) (frame_at_lt _ _ _ Hg) Hne
                randint uniform kneighbors split_rows mean_and_scale classifier
                gbc_fit gbc_check gbc_predict_row pandas_2 now_train now_test ftrain ftest) as H.
  rewrite <- (st_init (heap s) (calls s) train test
                (frame_at_lt _ _ _ Hf) (frame_at_lt _ _ _ Hg) s ftrain ftest
                eq_refl eq_refl Hf Hg) in H.
  destruct H as (r & s1 & J & E & _ & _ & _ & _ & Hsm).
  rewrite E. cbn [fst]. destruct r as [out|e]; [exfalso | reflexivity].
  destruct (Hsm out eq_refl) as (f1 & X & y & resampled & Hd & Hpos & Htc & Hok).
  destruct (SMOTE_accepts_finite _ _ _ _ _ _ _ Hok) as (Xf & EXf & Hfin).
  derived_inv Hd.
  do 5 (apply Forall_cons in Hlen as [_ Hlen]). apply Forall_cons in Hlen as [Hlen _].
  destruct (column_groupby_transform_float (rolling_count 3 (count_min_periods pandas_2 3))
              (group_keys cc_num) unix_time) as (l0 & El0 & Hl0 & _).
  rewrite El0 in Hlen. simpl in Hlen.
  destruct (trans_count_first_row (group_keys cc_num) unix_time) as (l & El & Hl); [lia|].
  rewrite Ef1 in Htc. unfold with_features in Htc. cbn [columns] in Htc.
  rewrite !col_lookup_set_other in Htc by reflexivity.
  rewrite col_lookup_set_same, El in Htc.
  pose proof (frame_floats_lookup _ _ _ _ EXf Htc) as Hin.
  rewrite forallb_forall in Hfin. specialize (Hfin l Hin).
  rewrite (nan_not_all_finite l 0%nat Hl) in Hfin. discriminate Hfin.
Qed.
End Pipeline.

End Properties.

(** ** Examples *)

Section Examples.
#[local] Existing Instance to_datetime0.

(** The notebook on the ten rows, under pandas 1 in 2024: the run goes
    through and makes the five estimator calls, on the encoder at 3 and the
    scaler at 8. *)
Lemma estimators_fitted_once_witness :
  exists r s' J,
    example_notebook10 2024 2024 = (r, s') /\
    is_ok r = true /\
    calls s' = J /\
    map call_kind J = protocol 3 8.
Proof.
  destruct (estimators_fitted_once_on_training_data
              randint0 uniform0 kneighbors0 split_rows10 mean_and_std nat
              gbc_fit_stump gbc_check_stump gbc_predict_stump pandas_1 2024 2024 0%nat 1%nat
              example_store10 example_train10 example_test10 eq_refl eq_refl)
    as (r & s' & J & E & Ec & _ & _); [discriminate|].
  exists r, s', J. split; [exact E|].
  assert (Er : r = fst (example_notebook10 2024 2024))
    by (unfold example_notebook10; rewrite E; reflexivity).
  assert (Es : s' = snd (example_notebook10 2024 2024))
    by (unfold example_notebook10; rewrite E; reflexivity).
  split; [rewrite Er; vm_compute; reflexivity|].
  split; [exact Ec|].
  cbn [calls example_store10 app] in Ec. rewrite <- Ec, Es. vm_compute. reflexivity.
Defined.



(** Cell 15 on the example test table. *)
Lemma submission_round_trip_witness :
  exists y_test_pred s',
    cell15 unit gbc_check0 gbc_predict_row0 tt 1%nat 2%nat example_store_cell15 =
      (Ok (mkDataFrame 1 [("id", IntCol [20]); ("is_fraud", IntCol y_test_pred)]), s') /\
    length y_test_pred = 1%nat.
Proof.
  destruct (submission_round_trip unit gbc_check0 gbc_predict_row0 tt 1%nat 2%nat
              example_store_cell15 example_test example_X_test_submission (IntCol [20])
              eq_refl eq_refl eq_refl eq_refl eq_refl)
    as (y & s' & E & Hlen & _).
  exists y, s'. split; [exact E | exact Hlen].
Defined.

(** The encoder fitted on [example_train] meets the merchant of
    [example_test], which it has not seen. *)
Lemma unseen_category_witness :
  exists codes out,
    OrdinalEncoder_transform 3%nat example_X_test example_fitted =
      (Ok codes, log_call example_fitted (Transform 3%nat example_X_test)) /\
    codes !! 5%nat = Some (FloatCol out) /\
    out !! 0%nat = Some (F64.of_int (-1)).
Proof.
  edestruct (unseen_category_gets_sentinel 3%nat example_train example_test
               example_X_train example_X_test
               [["misc_net"]; ["M"]; ["Nurse"]; ["WA"]; ["Orient"]; ["fraud_Unseen"]]
               example_encoder_store example_fitted)
    as (codes & E & Hall).
  - reflexivity.
  - reflexivity.
  - vm_compute. reflexivity.
  - reflexivity.
  - destruct (Hall 5%nat "merchant" ["fraud_Kirlin"; "fraud_Sporer"] ["fraud_Unseen"]
                0%nat "fraud_Unseen" eq_refl eq_refl eq_refl eq_refl)
      as (out & Hc & Ho).
    + intros [H|[H|[]]]; discriminate H.
    + exists codes, out. split; [exact E|]. split; [exact Hc | exact Ho].
Defined.

(** The fitting call on the example train table, under pandas 2. *)
Lemma trans_count_first_row_witness :
  exists f' tc,
    frame_at (snd (example_fit pandas_2)) 0%nat f' /\
    col_lookup "trans_count" (columns f') = Some (FloatCol tc) /\
    tc !! 0%nat = Some F64.nan.
Proof.
  apply (trans_count_first_row_missing 2024 0%nat None true example_store
           (snd (example_fit pandas_2)) (0%nat, Some 2%nat) example_train).
  - reflexivity.
  - vm_compute. reflexivity.
Defined.

(** The first row of the example train table: 4.0 / 150. *)
Lemma amt_per_capita_witness :
  exists f' apc q,
    frame_at (snd (example_fit pandas_1)) 0%nat f' /\
    col_lookup "amt_per_capita" (columns f') = Some (FloatCol apc) /\
    apc !! 0%nat = Some q /\
    F64.is_finite q = true /\
    F64.nonneg q = true.
Proof.
  destruct (amt_per_capita_finite_nonneg pandas_1 2024 0%nat None true example_store
              (snd (example_fit pandas_1)) (0%nat, Some 2%nat) example_train
              [F64.of_int 4; F64.of_int 12] [149; 149] eq_refl eq_refl eq_refl)
    as (f' & apc & Hf & Hc & _ & Hrow); [vm_compute; reflexivity|].
  destruct (Hrow 0%nat (F64.of_int 4) 149 eq_refl eq_refl) as [Hq Hfin].
  destruct Hfin as [Hfinite Hnonneg];
    [reflexivity | reflexivity | reflexivity | split; [lia | reflexivity] |].
  exists f', apc, (F64.div (F64.of_int 4) (F64.of_int (wrap64 (149 + 1)))).
  repeat split; assumption.
Defined.

(** A city population of -1: the sum is 0 and the quotient of a positive
    amount is +inf. *)
Lemma amt_per_capita_infinite :
  column_at (example_with "city_pop" (IntCol [-1; 149])) 0%nat "amt"
    = Some (FloatCol [F64.of_int 4; F64.of_int 12]) /\
  F64.nonneg (F64.of_int 4) = true /\
  exists r s' q,
    feature_engineering pandas_1 2024 0%nat None true
      (example_with "city_pop" (IntCol [-1; 149])) = (Ok r, s') /\
    column_at s' 0%nat "amt_per_capita" = Some (FloatCol [S754_infinity false; q]).
Proof.
  split; [reflexivity|]. split; [reflexivity|].
  eexists _, _, _. split; [vm_compute; reflexivity | vm_compute; reflexivity].
Qed.




(** The example train table without [merch_long]. *)
Lemma missing_column_witness :
  exists s',
    feature_engineering pandas_1 2024 0%nat None true
      (mkStore [PyDataFrame (without "merch_long" example_train)] [])
    = (Raise (KeyError "merch_long"), s').
Proof.
  apply (proj2 (missing_column_raises pandas_1 2024 0%nat None true
                  (mkStore [PyDataFrame (without "merch_long" example_train)] [])
                  (without "merch_long" example_train) "merch_long"
                  eq_refl ltac:(cbv; tauto) eq_refl)
               example_train (0%nat, Some 1%nat)
               (snd (feature_engineering pandas_1 2024 0%nat None true
                       (mkStore [PyDataFrame example_train] [])))).
  - split; [reflexivity|]. split; [reflexivity|].
    intros n Hn. apply col_lookup_remove_other. apply String.eqb_neq. congruence.
  - vm_compute. reflexivity.
Defined.

(** What is raised for an absent column is pandas' [KeyError], on the
    fitting call and on the applying call. *)
Lemma missing_column_is_KeyError :
  fst (feature_engineering pandas_1 2024 0%nat None true
         (mkStore [PyDataFrame (without "trans_time" example_train)] []))
    = Raise (KeyError "trans_time") /\
  fst (feature_engineering pandas_1 2024 1%nat (Some 2%nat) false
         (set_obj (snd (example_fit pandas_1)) 1%nat
                  (PyDataFrame (without "category" example_test))))
    = Raise (KeyError "category").
Proof. split; vm_compute; reflexivity. Qed.

(** A cardholder whose amounts are all 0.0: the ratio of the first row is
    0.0 / 0.0. *)
Lemma amt_ratio_witness :
  exists f' ratio q,
    frame_at (snd (feature_engineering pandas_1 2024 0%nat None true
                     (example_with "amt" (FloatCol [F64.zero; F64.zero])))) 0%nat f' /\
    col_lookup "amt_ratio" (columns f') = Some (FloatCol ratio) /\
    ratio !! 0%nat = Some q /\
    F64.is_finite q = false.
Proof.
  destruct (amt_ratio_not_finite_on_zero_mean pandas_1 2024 0%nat None true
              (example_with "amt" (FloatCol [F64.zero; F64.zero]))
              (snd (feature_engineering pandas_1 2024 0%nat None true
                      (example_with "amt" (FloatCol [F64.zero; F64.zero]))))
              (0%nat, Some 2%nat)
              (mkDataFrame 2 (col_set "amt" (FloatCol [F64.zero; F64.zero])
                                (columns example_train)))
              eq_refl)
    as (amt & cc & means & f' & ratio & Ha & Hc & Hm & Hf & Hr & Hlen & Hrow);
    [vm_compute; reflexivity|].
  destruct (ratio !! 0%nat) as [q|] eqn:Eq.
  - exists f', ratio, q. split; [exact Hf|]. split; [exact Hr|]. split; [exact Eq|].
    assert (Em : means = [F64.zero; F64.zero]).
    { vm_compute in Ha. injection Ha as <-. vm_compute in Hc. injection Hc as <-.
      vm_compute in Hm. injection Hm as <-. reflexivity. }
    apply (Hrow 0%nat F64.zero q); [rewrite Em; reflexivity | reflexivity | exact Eq].
  - apply lookup_ge_None in Eq. rewrite Hlen in Eq. cbn [index] in Eq. lia.
Defined.

End Examples.

(** * Further properties *)

Section Further_properties.
Context {dts : Datetimes}.

(** ** Calling [feature_engineering] again, or with its defaults *)

Lemma fold_col_remove_gone names cols n :
  In n names -> col_lookup n (fold_right col_remove cols names) = None.
Proof.
  induction names as [|a rest IH]; intros Hin; [contradiction|]. cbn [fold_right].
  rewrite col_lookup_col_remove. destruct (String.eqb_spec a n) as [_|Hne]; [reflexivity|].
  destruct Hin as [->|Hin]; [contradiction | apply IH, Hin].
Qed.

Lemma drop_columns_gone names f f' n :
  drop_columns names f = Ok f' -> In n names -> col_lookup n (columns f') = None.
Proof.
  unfold drop_columns. destruct (first_missing names (columns f)); [discriminate|].
  intros H Hn. injection H as <-. apply fold_col_remove_gone, Hn.
Qed.

(** X11.  The call drops [trans_time] from the caller's table, so the table it
    hands back cannot be passed through the function again: a second call,
    whatever its arguments, stops at the first statement with [KeyError]
    and changes nothing. *)
Theorem second_call_raises
    (v : pandas_version) (now : Z) (df : loc) (encs : option loc) (fit : bool)
    (s s' : store) (r : loc * option loc) (f : DataFrame)
    (v' : pandas_version) (now' : Z) (encs' : option loc) (fit' : bool) :
  frame_at s df f ->
  feature_engineering v now df encs fit s = (Ok r, s') ->
  feature_engineering v' now' df encs' fit' s' = (Raise (KeyError "trans_time"), s').
Proof.
  intros Hf H.
  destruct (feature_engineering_ok _ _ _ _ _ _ _ _ _ Hf H)
    as (f1 & X & cols & cats & f2 & f3 & _ & _ & _ & _ & Hdrop & Hf3 & _).
  assert (Hgone : col_lookup "trans_time" (columns f3) = None).
  { apply (drop_columns_gone _ _ _ _ Hdrop). cbv. tauto. }
  unfold feature_engineering, derive_features. rewrite !bind_assoc.
  rewrite (bind_getitem _ _ _ _ _ Hf3), Hgone. reflexivity.
Qed.

(** X12.  [feature_engineering(df)], with the defaults [encoders=None] and
    [fit_encoders=False], on a table the fitting call accepts: the derived
    columns are written into the caller's table, then [encoders[...]]
    raises [TypeError]; nothing is encoded, nothing dropped, nothing
    undone. *)
Theorem default_call_raises_after_writing
    (v : pandas_version) (now : Z) (df : loc) (s s0 : store) (r : loc * option loc)
    (f : DataFrame) :
  frame_at s df f ->
  feature_engineering v now df None true s = (Ok r, s0) ->
  exists f1,
    derived v now f f1 /\
    feature_engineering v now df None false s =
      (Raise (TypeError "'NoneType' object is not subscriptable"),
       set_obj s df (PyDataFrame f1)).
Proof.
  intros Hf H. pose proof (frame_at_lt _ _ _ Hf) as Hlt.
  destruct (derive_features_spec v now df s f Hlt) as (r1 & f1 & E & _ & Hd).
  rewrite (set_obj_same s df f Hf) in E.
  unfold feature_engineering in H |- *. rewrite bind_eq in H. rewrite bind_eq.
  rewrite E in H |- *. destruct r1 as [[]|e]; [|discriminate H].
  exists f1. split; [exact Hd | reflexivity].
Qed.

(** ** Tables without rows *)

(** X14.  The encoder takes no empty column: on a table without rows neither the
    fitting nor the applying call returns. *)
Theorem empty_table_raises
    (v : pandas_version) (now : Z) (df : loc) (encs : option loc) (fit : bool)
    (s : store) (f : DataFrame) :
  frame_at s df f ->
  index f = 0%nat ->
  exists e s', feature_engineering v now df encs fit s = (Raise e, s').
Proof.
  intros Hf Hi.
  destruct (feature_engineering v now df encs fit s) as [[r|e] s'] eqn:E; [|eauto].
  pose proof (feature_engineering_has_rows _ _ _ _ _ _ _ _ _ Hf E). lia.
Qed.

(** ** The table the call leaves *)

Lemma frame_wf_col_set i cols n c :
  frame_wf (mkDataFrame i cols) -> col_length c = i ->
  frame_wf (mkDataFrame i (col_set n c cols)).
Proof.
  unfold frame_wf. cbn [index columns]. intros H Hc.
  induction cols as [|[k c'] rest IH]; cbn [col_set].
  - constructor; [exact Hc | constructor].
  - apply Forall_cons in H as [Hk Hrest]. destruct (String.eqb k n).
    + constructor; [exact Hc | exact Hrest].
    + constructor; [exact Hk | apply IH, Hrest].
Qed.

Lemma frame_wf_set_columns names cs f :
  frame_wf f -> frame_wf (snd (set_columns names cs f)).
Proof.
  revert cs f. induction names as [|n rest IH]; intros cs f H; destruct cs as [|c cs'];
    cbn [set_columns snd]; try exact H.
  destruct (Nat.eqb (col_length c) (index f)) eqn:E; [|exact H].
  apply IH. apply Nat.eqb_eq in E. destruct f as [i cols]. apply frame_wf_col_set; assumption.
Qed.

Lemma frame_wf_col_remove i cols n :
  frame_wf (mkDataFrame i cols) -> frame_wf (mkDataFrame i (col_remove n cols)).
Proof.
  unfold frame_wf. cbn [index columns]. intros H.
  induction cols as [|[k c] rest IH]; cbn [col_remove]; [constructor|].
  apply Forall_cons in H as [Hk Hrest]. destruct (String.eqb k n).
  - apply IH, Hrest.
  - constructor; [exact Hk | apply IH, Hrest].
Qed.

Lemma frame_wf_drop_columns names f f' :
  drop_columns names f = Ok f' -> frame_wf f -> frame_wf f'.
Proof.
  unfold drop_columns. destruct (first_missing names (columns f)); [discriminate|].
  intros H Hwf. injection H as <-. destruct f as [i cols]. cbn [index columns].
  induction names as [|n rest IH]; cbn [fold_right]; [exact Hwf|].
  apply frame_wf_col_remove, IH.
Qed.

Lemma frame_wf_derived v now f f1 : derived v now f f1 -> frame_wf f -> frame_wf f1.
Proof.
  intros Hd Hwf. derived_inv Hd. rewrite Ef1. unfold with_features.
  destruct f as [i cols]. cbn [index columns] in *.
  do 6 (apply Forall_cons in Hlen as [? Hlen]). apply Forall_cons in Hlen as [? _].
  repeat (apply frame_wf_col_set; [|assumption]). exact Hwf.
Qed.

Lemma get_columns_set_columns_lookup names cs f n :
  fst (set_columns names cs f) = Ok tt -> In n names ->
  exists c, col_lookup n (columns (snd (set_columns names cs f))) = Some c.
Proof.
  revert cs f. induction names as [|a rest IH]; intros cs f H Hin; [contradiction|].
  destruct cs as [|c cs']; cbn [set_columns fst snd] in *; [discriminate H|].
  destruct (Nat.eqb (col_length c) (index f)); [|discriminate H].
  destruct (in_dec string_dec n rest) as [Hr|Hr]; [apply IH; assumption|].
  destruct Hin as [->|Hin]; [|contradiction].
  destruct (set_columns_keeps rest cs' (mkDataFrame (index f) (col_set n c (columns f))) n Hr)
    as [Hk _].
  rewrite Hk. cbn [columns]. rewrite col_lookup_set_same. eauto.
Qed.

(** X3.  Whenever the call returns on a table whose columns all have the length
    of its index, the table it leaves has the same number of rows and again
    columns of that length; the six dropped columns are gone, the seven
    derived and the six encoded columns are there, and every other column
    is as it was. *)
Theorem feature_engineering_schema
    (v : pandas_version) (now : Z) (df : loc) (encs : option loc) (fit : bool)
    (s s' : store) (r : loc * option loc) (f : DataFrame) :
  frame_at s df f ->
  frame_wf f ->
  feature_engineering v now df encs fit s = (Ok r, s') ->
  exists f',
    frame_at s' df f' /\
    index f' = index f /\
    frame_wf f' /\
    (forall n, In n unused_cols -> col_lookup n (columns f') = None) /\
    (forall n, In n (["hour"; "day_of_week"; "age"; "distance"; "amt_per_capita";
                      "trans_count"; "amt_ratio"] ++ cat_cols)%list ->
               exists c, col_lookup n (columns f') = Some c) /\
    (forall n, ~ In n (["hour"; "day_of_week"; "age"; "distance"; "amt_per_capita";
                        "trans_count"; "amt_ratio"] ++ cat_cols ++ unused_cols)%list ->
               col_lookup n (columns f') = col_lookup n (columns f)).
Proof.
  intros Hf Hwf H.
  destruct (feature_engineering_ok _ _ _ _ _ _ _ _ _ Hf H)
    as (f1 & X & cols & cats & f2 & f3 & Hd & _ & _ & Hset & Hdrop & Hf3 & _).
  pose proof (frame_wf_derived _ _ _ _ Hd Hwf) as Hwf1.
  pose proof (frame_wf_set_columns cat_cols (encode_columns cats cols) f1 Hwf1) as Hwf2.
  rewrite Hset in Hwf2. cbn [snd] in Hwf2.
  assert (Hi2 : index f2 = index f1).
  { pose proof (set_columns_keeps cat_cols (encode_columns cats cols) f1 "id") as [_ Hi];
      [cbv; intuition discriminate|]. rewrite Hset in Hi. exact Hi. }
  assert (Hi3 : index f3 = index f2).
  { unfold drop_columns in Hdrop. destruct (first_missing unused_cols (columns f2));
      [discriminate Hdrop|]. injection Hdrop as <-. reflexivity. }
  exists f3. split; [exact Hf3|].
  split; [rewrite Hi3, Hi2; apply (derived_index _ _ _ _ Hd)|].
  split; [exact (frame_wf_drop_columns _ _ _ Hdrop Hwf2)|].
  split; [intros n Hn; exact (drop_columns_gone _ _ _ _ Hdrop Hn)|].
  split.
  - intros n Hn.
    assert (Hnu : ~ In n unused_cols).
    { intros Hu. cbv in Hn, Hu.
      repeat destruct Hn as [Hn|Hn]; try contradiction; subst n;
        repeat destruct Hu as [Hu|Hu]; try contradiction; discriminate Hu. }
    destruct (drop_columns_keeps _ _ _ n Hdrop Hnu) as [-> _].
    apply in_app_or in Hn as [Hn|Hn].
    + assert (Hnc : ~ In n cat_cols).
      { intros Hu. cbv in Hn, Hu.
        repeat destruct Hn as [Hn|Hn]; try contradiction; subst n;
          repeat destruct Hu as [Hu|Hu]; try contradiction; discriminate Hu. }
      pose proof (set_columns_keeps cat_cols (encode_columns cats cols) f1 n Hnc) as [Hk _].
      rewrite Hset in Hk. cbn [snd] in Hk. rewrite Hk.
      derived_inv Hd. rewrite Ef1. unfold with_features. cbn [columns].
      cbv in Hn. repeat destruct Hn as [Hn|Hn]; try contradiction; subst n;
        rewrite ?col_lookup_set_other by reflexivity; rewrite col_lookup_set_same; eauto.
    + pose proof (get_columns_set_columns_lookup cat_cols (encode_columns cats cols) f1 n) as Hc.
      rewrite Hset in Hc. cbn [fst snd] in Hc. apply Hc; [reflexivity | exact Hn].
  - intros n Hn.
    assert (Hnu : ~ In n unused_cols) by (intros Hu; apply Hn; rewrite !in_app_iff; auto).
    assert (Hnc : ~ In n cat_cols) by (intros Hu; apply Hn; rewrite !in_app_iff; auto).
    destruct (drop_columns_keeps _ _ _ n Hdrop Hnu) as [-> _].
    pose proof (set_columns_keeps cat_cols (encode_columns cats cols) f1 n Hnc) as [Hk _].
    rewrite Hset in Hk. cbn [snd] in Hk. rewrite Hk.
    derived_inv Hd. rewrite Ef1. unfold with_features. cbn [columns].
    repeat rewrite col_lookup_set_other
      by (apply String.eqb_neq; intros <-; apply Hn; cbv; tauto).
    reflexivity.
Qed.

(** ** The calendar behind [day_of_week] *)

Lemma days_from_civil_next_in_month y m d :
  days_from_civil y m (d + 1) = days_from_civil y m d + 1.
Proof. unfold days_from_civil. cbv zeta. lia. Qed.

Ltac closed_arith :=
  repeat match goal with
  | |- context [Z.eqb ?a ?b] =>
      let v := eval vm_compute in (Z.eqb a b) in
      lazymatch v with
      | true => change (Z.eqb a b) with true
      | false => change (Z.eqb a b) with false
      end
  | |- context [Z.leb ?a ?b] =>
      let v := eval vm_compute in (Z.leb a b) in
      lazymatch v with
      | true => change (Z.leb a b) with true
      | false => change (Z.leb a b) with false
      end
  | |- context [Z.modulo ?a 12] =>
      let v := eval vm_compute in (Z.modulo a 12) in
      lazymatch v with
      | Z0 => change (Z.modulo a 12) with v
      | Zpos _ => change (Z.modulo a 12) with v
      end
  | |- context [Z.div ?a 5] =>
      let v := eval vm_compute in (Z.div a 5) in
      lazymatch v with
      | Z0 => change (Z.div a 5) with v
      | Zpos _ => change (Z.div a 5) with v
      end
  end; cbn [orb andb negb]; cbv iota.

Lemma days_from_civil_next_month y m :
  1 <= m < 12 ->
  days_from_civil y (m + 1) 1 = days_from_civil y m (days_in_month y m) + 1.
Proof.
  intros Hm.
  assert (Hcases : m = 1 \/ m = 2 \/ m = 3 \/ m = 4 \/ m = 5 \/ m = 6 \/ m = 7 \/ m = 8 \/
                   m = 9 \/ m = 10 \/ m = 11) by lia.
  unfold days_from_civil, days_in_month, is_leap. cbv zeta.
  destruct Hcases as [->|[->|[->|[->|[->|[->|[->|[->|[->|[->| ->]]]]]]]]]];
    closed_arith; try lia.
  (* February to March *)
  destruct (Z.eqb_spec (y mod 4) 0) as [H4|H4];
    destruct (Z.eqb_spec (y mod 100) 0) as [H100|H100];
    destruct (Z.eqb_spec (y mod 400) 0) as [H400|H400];
    cbn [orb andb negb]; Z.to_euclidean_division_equations; lia.
Qed.

Lemma days_from_civil_next_year y :
  days_from_civil (y + 1) 1 1 = days_from_civil y 12 31 + 1.
Proof.
  unfold days_from_civil. cbv zeta.
  change (1 <=? 2) with true. change (12 <=? 2) with false. cbv iota.
  replace (y + 1 - 1) with y by lia.
  change ((1 + 9) mod 12) with 10. change ((12 + 9) mod 12) with 9.
  change ((153 * 10 + 2) / 5) with 306. change ((153 * 9 + 2) / 5) with 275. lia.
Qed.

Lemma mod7_succ a : (a + 1 + 3) mod 7 = ((a + 3) mod 7 + 1) mod 7.
Proof. rewrite Z.add_mod_idemp_l by lia. f_equal. lia. Qed.

(** X5.  [.dt.dayofweek] counts the days of the calendar: 1 January 1970 is a
    Thursday (3), and the day after any date -- the next day of the month,
    the first of the next month after the last of a month, 1 January after
    31 December -- has the next weekday, Monday (0) following Sunday (6).
    Every weekday is between 0 and 6. *)
Theorem dayofweek_follows_the_calendar (y m d : Z) :
  1 <= m <= 12 ->
  dayofweek 1970 1 1 = 3 /\
  0 <= dayofweek y m d <= 6 /\
  dayofweek y m (d + 1) = (dayofweek y m d + 1) mod 7 /\
  (m < 12 -> dayofweek y (m + 1) 1 = (dayofweek y m (days_in_month y m) + 1) mod 7) /\
  dayofweek (y + 1) 1 1 = (dayofweek y 12 31 + 1) mod 7.
Proof.
  intros Hm. unfold dayofweek. split; [reflexivity|].
  split; [pose proof (Z.mod_pos_bound (days_from_civil y m d + 3) 7); lia|].
  split; [rewrite days_from_civil_next_in_month; apply mod7_succ|].
  split.
  - intros Hlt. rewrite days_from_civil_next_month by lia. apply mod7_succ.
  - rewrite days_from_civil_next_year. apply mod7_succ.
Qed.

(** ** The sign of [distance] *)

Lemma binary_round_aux_sign s m e l :
  match binary_round_aux F64.prec F64.emax s m e l with
  | S754_nan => True
  | S754_zero s' | S754_infinity s' | S754_finite s' _ _ => s' = s
  end.
Proof.
  unfold binary_round_aux.
  destruct (shr_fexp F64.prec F64.emax m e l) as [mrs e'].
  destruct (shr_fexp F64.prec F64.emax _ e' loc_Exact) as [mrs' e''].
  destruct (shr_m mrs') as [|p|p]; [reflexivity | | exact I].
  destruct (Z.leb e'' (F64.emax - F64.prec)); reflexivity.
Qed.

Lemma never_negative_round m e l :
  never_negative (binary_round_aux F64.prec F64.emax false m e l) = true.
Proof.
  pose proof (binary_round_aux_sign false m e l) as H.
  destruct (binary_round_aux F64.prec F64.emax false m e l); cbn [never_negative];
    try rewrite H; reflexivity.
Qed.

Lemma never_negative_square x : never_negative (F64.mul x x) = true.
Proof.
  unfold F64.mul. destruct x as [s|s| |s m e]; cbn [SFmul never_negative].
  - destruct s; reflexivity.
  - destruct s; reflexivity.
  - reflexivity.
  - replace (xorb s s) with false by (destruct s; reflexivity). apply never_negative_round.
Qed.

Lemma never_negative_add x y :
  never_negative x = true -> never_negative y = true -> never_negative (F64.add x y) = true.
Proof.
  unfold F64.add.
  destruct x as [sx|sx| |sx mx ex], y as [sy|sy| |sy my ey]; cbn [never_negative];
    intros Hx Hy; apply negb_true_iff in Hx || idtac; apply negb_true_iff in Hy || idtac;
    subst; try reflexivity.
  cbn [SFadd cond_Zopp]. unfold binary_normalize.
  change (Z.pos (fst (shl_align mx ex (Z.min ex ey))) + Z.pos (fst (shl_align my ey (Z.min ex ey))))
    with (Z.pos (fst (shl_align mx ex (Z.min ex ey)) + fst (shl_align my ey (Z.min ex ey)))).
  cbv iota. unfold binary_round.
  destruct (shl_align _ _ _) as [mz ez]. apply never_negative_round.
Qed.

Lemma never_negative_sqrt x : never_negative x = true -> never_negative (F64.sqrt x) = true.
Proof.
  unfold F64.sqrt. destruct x as [s|s| |s m e]; cbn [never_negative]; intros H;
    apply negb_true_iff in H || idtac; subst; try reflexivity.
  cbn [SFsqrt]. destruct (SFsqrt_core_binary F64.prec F64.emax (Z.pos m) e) as [[mz ez] lz].
  apply never_negative_round.
Qed.

(** X6.  Whenever the call returns on a table whose four coordinate columns are
    float64, every [distance] is NaN, +0.0, a positive number or +inf:
    never negative, never -0.0. *)
Theorem distance_never_negative
    (v : pandas_version) (now : Z) (df : loc) (encs : option loc) (fit : bool)
    (s s' : store) (r : loc * option loc) (f : DataFrame)
    (lats merch_lats longs merch_longs : list float64) :
  frame_at s df f ->
  col_lookup "lat" (columns f) = Some (FloatCol lats) ->
  col_lookup "merch_lat" (columns f) = Some (FloatCol merch_lats) ->
  col_lookup "long" (columns f) = Some (FloatCol longs) ->
  col_lookup "merch_long" (columns f) = Some (FloatCol merch_longs) ->
  feature_engineering v now df encs fit s = (Ok r, s') ->
  exists f' distance,
    frame_at s' df f' /\
    col_lookup "distance" (columns f') = Some (FloatCol distance) /\
    length distance = index f /\
    forall i d, distance !! i = Some d -> never_negative d = true.
Proof.
  intros Hf H1 H2 H3 H4 H.
  destruct (feature_engineering_table _ _ _ _ _ _ _ _ _ Hf H) as (f1 & f' & Hd & Hf' & Hi & Hk).
  derived_inv Hd.
  rewrite H1 in Llat. injection Llat as <-. rewrite H2 in Lmerch_lat. injection Lmerch_lat as <-.
  rewrite H3 in Llong. injection Llong as <-. rewrite H4 in Lmerch_long. injection Lmerch_long as <-.
  cbn in Edlat, Edlong. injection Edlat as <-. injection Edlong as <-.
  cbn in Edlat2, Edlong2. injection Edlat2 as <-. injection Edlong2 as <-.
  cbn in Ed2. injection Ed2 as <-. cbn in Edistance. injection Edistance as <-.
  do 3 (apply Forall_cons in Hlen as [_ Hlen]). apply Forall_cons in Hlen as [Hlen _].
  cbn [col_length] in Hlen.
  eexists f', _. split; [exact Hf'|]. split; [|split; [exact Hlen|]].
  - rewrite Hk by (cbv; intuition discriminate). rewrite Ef1. unfold with_features.
    cbn [columns]. rewrite !col_lookup_set_other by reflexivity. apply col_lookup_set_same.
  - intros i d Hd. rewrite map_lookup in Hd.
    destruct (zip_with F64.add _ _ !! i) as [q|] eqn:Eq; [|discriminate Hd].
    cbn in Hd. injection Hd as <-. apply never_negative_sqrt.
    apply zip_with_lookup_inv in Eq as (a & b & Ea & Eb & ->).
    rewrite map_lookup in Ea, Eb.
    destruct (zip_with F64.sub lats merch_lats !! i) as [x|]; [|discriminate Ea].
    destruct (zip_with F64.sub longs merch_longs !! i) as [y|]; [|discriminate Eb].
    cbn in Ea, Eb. injection Ea as <-. injection Eb as <-.
    apply never_negative_add; apply never_negative_square.
Qed.

(** ** The value of [trans_count] *)

Lemma rolling_count_at v (xs : list Z) p :
  (p < length xs)%nat ->
  nth p (rolling_count 3 (count_min_periods v 3) (IntCol xs)) F64.nan = count_at v p.
Proof.
  intros Hp. destruct v; [apply rolling_count_legacy, Hp|].
  unfold rolling_count, notna, count_min_periods, count_at.
  rewrite length_map, map_seq_nth by exact Hp. cbv zeta.
  rewrite window_at_length by (rewrite length_map; exact Hp).
  destruct (Nat.ltb_spec p 2) as [Hlt|Hge].
  - replace (Nat.ltb (Nat.min (S p) 3) 3) with true; [reflexivity|].
    symmetry. apply Nat.ltb_lt. lia.
  - replace (Nat.ltb (Nat.min (S p) 3) 3) with false
      by (symmetry; apply Nat.ltb_ge; lia).
    rewrite filter_id_all_true.
    + rewrite window_at_length by (rewrite length_map; exact Hp).
      do 2 f_equal. lia.
    + unfold window_at. apply Forall_drop, Forall_take.
      clear Hp Hge. induction xs as [|x xs IH]; simpl; constructor; [reflexivity | exact IH].
Qed.

Lemma group_rank_same_before ccs i cc :
  group_rank (group_keys (IntCol ccs)) i (KInt cc) = same_before ccs i cc.
Proof.
  unfold group_rank, same_before, group_keys. rewrite firstn_map.
  induction (firstn i ccs) as [|x rest IH]; [reflexivity|].
  cbn [map List.filter in_group key_eqb]. destruct (Z.eqb x cc); cbn [length]; rewrite IH;
    reflexivity.
Qed.

Lemma trans_count_column v (ccs uts : list Z) :
  length ccs = length uts ->
  exists l,
    column_groupby_transform (rolling_count 3 (count_min_periods v 3))
      (group_keys (IntCol ccs)) (IntCol uts) = FloatCol l /\
    length l = length ccs /\
    forall i cc, ccs !! i = Some cc -> l !! i = Some (count_at v (same_before ccs i cc)).
Proof.
  intros Hlen.
  destruct (column_groupby_transform_float (rolling_count 3 (count_min_periods v 3))
              (group_keys (IntCol ccs)) (IntCol uts)) as (l & El & Hl & Hget).
  exists l. split; [exact El|]. split; [rewrite Hl; apply length_map|].
  intros i cc Hc.
  assert (Hi : (i < length (group_keys (IntCol ccs)))%nat).
  { cbn [group_keys]. rewrite length_map. eapply lookup_lt_Some, Hc. }
  rewrite (Hget i Hi). f_equal.
  assert (Hk : group_keys (IntCol ccs) !! i = Some (Some (KInt cc))).
  { cbn [group_keys]. rewrite map_lookup, Hc. reflexivity. }
  rewrite (nth_lookup_Some _ _ None _ Hk).
  pose proof (group_rank_lt (group_keys (IntCol ccs)) uts i (KInt cc)
                ltac:(cbn [group_keys]; rewrite length_map; exact Hlen) Hk
                ltac:(apply Z.eqb_refl)) as Hr.
  rewrite rolling_count_at by exact Hr. rewrite group_rank_same_before. reflexivity.
Qed.

Lemma frame_wf_lookup f n c :
  frame_wf f -> col_lookup n (columns f) = Some c -> col_length c = index f.
Proof.
  unfold frame_wf. generalize (index f). intros i. induction (columns f) as [|[k c'] rest IH];
    intros Hwf Hl; [discriminate Hl|].
  apply Forall_cons in Hwf as [Hk Hrest]. cbn [col_lookup] in Hl.
  destruct (String.eqb k n); [injection Hl as <-; exact Hk | apply IH; assumption].
Qed.

Lemma trans_count_of_call v now df encs fit s r s' f ccs uts :
  frame_at s df f ->
  frame_wf f ->
  col_lookup "cc_num" (columns f) = Some (IntCol ccs) ->
  col_lookup "unix_time" (columns f) = Some (IntCol uts) ->
  feature_engineering v now df encs fit s = (Ok r, s') ->
  exists f' tc,
    frame_at s' df f' /\
    col_lookup "trans_count" (columns f') = Some (FloatCol tc) /\
    length tc = index f /\
    forall i cc, ccs !! i = Some cc -> tc !! i = Some (count_at v (same_before ccs i cc)).
Proof.
  intros Hf Hwf Hcc Hut H.
  destruct (feature_engineering_table _ _ _ _ _ _ _ _ _ Hf H) as (f1 & f' & Hd & Hf' & Hi & Hk).
  derived_inv Hd. rewrite Hcc in Lcc_num. injection Lcc_num as <-.
  rewrite Hut in Lunix_time. injection Lunix_time as <-.
  pose proof (frame_wf_lookup _ _ _ Hwf Hcc) as Hl1.
  pose proof (frame_wf_lookup _ _ _ Hwf Hut) as Hl2. cbn [col_length] in Hl1, Hl2.
  destruct (trans_count_column v ccs uts ltac:(lia)) as (l & El & Hl & Hget).
  exists f', l. split; [exact Hf'|]. split; [|split; [lia | exact Hget]].
  rewrite Hk by (apply not_in_cat_cols; auto). rewrite Ef1. unfold with_features.
  cbn [columns]. rewrite !col_lookup_set_other by reflexivity.
  rewrite col_lookup_set_same. f_equal. exact El.
Qed.

(** X7.  Under pandas 1, whenever the call returns on a table with integer card
    numbers and timestamps, [trans_count] of a row is its position among
    the rows of its card, counted from 1 and capped at 3.  The timestamps
    play no part: the window is over rows, not over time. *)
Theorem trans_count_is_capped_position
    (now : Z) (df : loc) (encs : option loc) (fit : bool)
    (s s' : store) (r : loc * option loc) (f : DataFrame) (ccs uts : list Z) :
  frame_at s df f ->
  frame_wf f ->
  col_lookup "cc_num" (columns f) = Some (IntCol ccs) ->
  col_lookup "unix_time" (columns f) = Some (IntCol uts) ->
  feature_engineering pandas_1 now df encs fit s = (Ok r, s') ->
  exists f' tc,
    frame_at s' df f' /\
    col_lookup "trans_count" (columns f') = Some (FloatCol tc) /\
    length tc = index f /\
    forall i cc, ccs !! i = Some cc ->
      tc !! i = Some (F64.of_int (Z.of_nat (Nat.min (S (same_before ccs i cc)) 3))).
Proof. apply trans_count_of_call. Qed.

(** X8.  Under pandas 2, whenever the call returns on such a table,
    [trans_count] is NaN on the first two rows of every card and 3.0 on
    every later row: it has one value besides NaN. *)
Theorem trans_count_is_nan_or_three
    (now : Z) (df : loc) (encs : option loc) (fit : bool)
    (s s' : store) (r : loc * option loc) (f : DataFrame) (ccs uts : list Z) :
  frame_at s df f ->
  frame_wf f ->
  col_lookup "cc_num" (columns f) = Some (IntCol ccs) ->
  col_lookup "unix_time" (columns f) = Some (IntCol uts) ->
  feature_engineering pandas_2 now df encs fit s = (Ok r, s') ->
  exists f' tc,
    frame_at s' df f' /\
    col_lookup "trans_count" (columns f') = Some (FloatCol tc) /\
    length tc = index f /\
    forall i cc, ccs !! i = Some cc ->
      tc !! i = Some (if Nat.ltb (same_before ccs i cc) 2 then F64.nan else F64.of_int 3).
Proof. apply trans_count_of_call. Qed.

(** ** The codes of the categorical columns *)

Lemma index_of_In s l : In s l -> exists k, index_of s l = Some k /\ l !! k = Some s.
Proof.
  induction l as [|a rest IH]; intros Hin; [contradiction|]. cbn [index_of].
  destruct (String.eqb_spec a s) as [->|Hne].
  - exists 0%nat. split; reflexivity.
  - destruct Hin as [->|Hin]; [contradiction|].
    destruct (IH Hin) as (k & -> & Hk). exists (S k). split; [reflexivity | exact Hk].
Qed.

Lemma set_columns_lookup names cs f j n c :
  List.NoDup names ->
  fst (set_columns names cs f) = Ok tt ->
  names !! j = Some n -> cs !! j = Some c ->
  col_lookup n (columns (snd (set_columns names cs f))) = Some c.
Proof.
  revert cs f j. induction names as [|a rest IH]; intros cs f j Hnd H Hn Hc; [discriminate Hn|].
  destruct cs as [|c0 cs']; [discriminate Hc|]. cbn [set_columns] in *.
  destruct (Nat.eqb (col_length c0) (index f)); [|discriminate H].
  inversion Hnd as [|? ? Hnotin Hnd']; subst.
  destruct j as [|j]; cbn in Hn, Hc.
  - injection Hn as <-. injection Hc as <-.
    destruct (set_columns_keeps rest cs' (mkDataFrame (index f) (col_set a c0 (columns f))) a
                Hnotin) as [Hk _].
    rewrite Hk. cbn [columns]. apply col_lookup_set_same.
  - eapply IH; eassumption.
Qed.

Lemma cat_cols_NoDup : List.NoDup cat_cols.
Proof.
  unfold cat_cols.
  repeat (constructor; [cbv; intuition discriminate|]). constructor.
Qed.

Lemma cat_not_unused n : In n cat_cols -> ~ In n unused_cols.
Proof.
  intros Hn Hu. cbv in Hn, Hu.
  repeat destruct Hn as [Hn|Hn]; try contradiction; subst n;
    repeat destruct Hu as [Hu|Hu]; try contradiction; discriminate Hu.
Qed.

(** On a call that returns, a categorical column of strings is replaced by
    the codes of its entries under the categories the encoder holds for
    it. *)
Lemma feature_engineering_codes v now df encs fit s r s' f :
  frame_at s df f ->
  feature_engineering v now df encs fit s = (Ok r, s') ->
  exists X cols cats f',
    encoded fit encs df s s' (snd r) X cols cats /\
    heap_kept df s s' /\
    frame_at s' df f' /\
    forall j name xs,
      cat_cols !! j = Some name ->
      col_lookup name (columns f) = Some (ObjCol xs) ->
      exists cat,
        cats !! j = Some cat /\ cols !! j = Some xs /\
        col_lookup name (columns f') = Some (FloatCol (map (encode_value cat) xs)).
Proof.
  intros Hf H.
  destruct (feature_engineering_ok _ _ _ _ _ _ _ _ _ Hf H)
    as (f1 & X & cols & cats & f2 & f3 & Hd & HX & Hcols & Hset & Hdrop & Hf3 & _ & Hk & Henc).
  exists X, cols, cats, f3. split; [exact Henc|]. split; [exact Hk|]. split; [exact Hf3|].
  intros j name xs Hj Hl.
  pose proof (get_columns_lookup _ _ _ _ _ HX Hj) as HXj. rewrite Hl in HXj.
  destruct (map_result_lookup _ _ _ _ _ (check_categorical_ok _ _ Hcols) HXj)
    as (y & Hy & Ey). cbn in Ey. injection Ey as <-.
  assert (Hlen : length cats = length cols).
  { unfold encoded in Henc. destruct fit.
    - destruct Henc as (-> & _). apply length_map.
    - destruct Henc as (? & ? & ? & _ & _ & _ & _ & _ & Hl' & _). symmetry. exact Hl'. }
  destruct (lookup_lt_is_Some_2 cats j) as [cat Hcat].
  { rewrite Hlen. eapply lookup_lt_Some, Hy. }
  exists cat. split; [exact Hcat|]. split; [exact Hy|].
  assert (Hin : In name cat_cols).
  { apply list_elem_of_In. eapply list_elem_of_lookup_2, Hj. }
  destruct (drop_columns_keeps _ _ _ name Hdrop (cat_not_unused _ Hin)) as [-> _].
  pose proof (set_columns_lookup cat_cols (encode_columns cats cols) f1 j name
                (FloatCol (map (encode_value cat) xs)) cat_cols_NoDup) as Hs.
  rewrite Hset in Hs. cbn [fst snd] in Hs. apply Hs; [reflexivity | exact Hj|].
  unfold encode_columns.
  exact (zip_with_lookup (fun c xs => FloatCol (map (encode_value c) xs)) cats cols j cat xs
           Hcat Hy).
Qed.

(** X9.  The fitting call hands back a dictionary whose ['ordinal_encoder'] is
    an encoder holding one list of categories per categorical column, and
    every code it wrote into the table is the place of the row's string in
    that list: looking a training code up in the list gives the string
    back. *)
Theorem fitted_codes_decode
    (v : pandas_version) (now : Z) (df : loc) (encs : option loc)
    (s s' : store) (r : loc * option loc) (f : DataFrame) :
  frame_at s df f ->
  feature_engineering v now df encs true s = (Ok r, s') ->
  exists d e cats f',
    snd r = Some d /\
    heap s' !! d = Some (PyDict [("ordinal_encoder", e)]) /\
    heap s' !! e = Some (PyOrdinalEncoder (Some cats)) /\
    frame_at s' df f' /\
    forall j name xs,
      cat_cols !! j = Some name ->
      col_lookup name (columns f) = Some (ObjCol xs) ->
      exists cat codes,
        cats !! j = Some cat /\
        col_lookup name (columns f') = Some (FloatCol codes) /\
        length codes = length xs /\
        forall i x, xs !! i = Some x ->
          exists k, codes !! i = Some (F64.of_int (Z.of_nat k)) /\ cat !! k = Some x.
Proof.
  intros Hf H.
  destruct (feature_engineering_codes _ _ _ _ _ _ _ _ _ Hf H)
    as (X & cols & cats & f' & Henc & _ & Hf' & Hcode).
  unfold encoded in Henc. cbv zeta in Henc.
  destruct Henc as (Ecats & Er & Hd & He & _).
  exists (length (heap s)), (S (length (heap s))), cats, f'.
  split; [exact Er|]. split; [exact Hd|]. split; [exact He|]. split; [exact Hf'|].
  intros j name xs Hj Hl. destruct (Hcode j name xs Hj Hl) as (cat & Hcat & Hxs & Hcol).
  exists cat, (map (encode_value cat) xs). split; [exact Hcat|]. split; [exact Hcol|].
  split; [apply length_map|]. intros i x Hx.
  assert (Ecat : cat = categories_of xs).
  { rewrite Ecats, map_lookup, Hxs in Hcat. cbn in Hcat. congruence. }
  destruct (index_of_In x cat) as (k & Ek & Hk).
  { rewrite Ecat. apply In_categories_of. apply list_elem_of_In.
    eapply list_elem_of_lookup_2, Hx. }
  exists k. split; [|exact Hk]. rewrite map_lookup, Hx. cbn. unfold encode_value.
  rewrite Ek. reflexivity.
Qed.

(** X10.  Cell 7: a string that occurs in a categorical column of both tables
    gets the same code in the test table as in the train table. *)
Theorem codes_agree_between_train_and_test
    (v : pandas_version) (now_train now_test : Z) (train test : loc)
    (s s' : store) (ftrain ftest : DataFrame) (out : loc * option loc * loc) :
  frame_at s train ftrain ->
  frame_at s test ftest ->
  train <> test ->
  cell7 v now_train now_test train test s = (Ok out, s') ->
  exists ftrain' ftest',
    frame_at s' train ftrain' /\
    frame_at s' test ftest' /\
    forall name xs ys,
      In name cat_cols ->
      col_lookup name (columns ftrain) = Some (ObjCol xs) ->
      col_lookup name (columns ftest) = Some (ObjCol ys) ->
      exists cx cy,
        col_lookup name (columns ftrain') = Some (FloatCol cx) /\
        col_lookup name (columns ftest') = Some (FloatCol cy) /\
        forall i j x, xs !! i = Some x -> ys !! j = Some x ->
          exists code, cx !! i = Some code /\ cy !! j = Some code.
Proof.
  intros Hf Hg Hne H. unfold cell7 in H. rewrite bind_eq in H.
  destruct (feature_engineering v now_train train None true s) as [[[t1 e1]|] s1] eqn:E1;
    [|discriminate H].
  rewrite bind_eq in H.
  destruct (feature_engineering v now_test test e1 false s1) as [[[t2 e2]|] s2] eqn:E2;
    [|discriminate H].
  unfold ret in H. injection H as _ <-.
  destruct (feature_engineering_codes _ _ _ _ _ _ _ _ _ Hf E1)
    as (X1 & cols1 & cats1 & f1' & Henc1 & K1 & Hf1' & Hcode1).
  assert (Hg1 : frame_at s1 test ftest) by (apply K1; [congruence | exact Hg]).
  destruct (feature_engineering_codes _ _ _ _ _ _ _ _ _ Hg1 E2)
    as (X2 & cols2 & cats2 & f2' & Henc2 & K2 & Hf2' & Hcode2).
  unfold encoded in Henc1, Henc2. cbv zeta in Henc1. cbn [snd] in Henc1, Henc2.
  destruct Henc1 as (_ & Er1 & Hd1 & He1 & _).
  destruct Henc2 as (d & items & e & Ee1 & _ & Hd2 & Hlk & He2 & _).
  rewrite Er1 in Ee1. injection Ee1 as <-. rewrite Hd1 in Hd2. injection Hd2 as <-.
  cbn in Hlk. injection Hlk as <-. rewrite He1 in He2. injection He2 as <-.
  exists f1', f2'. split; [apply K2; [exact Hne | exact Hf1']|]. split; [exact Hf2'|].
  intros name xs ys Hin Hx Hy.
  apply list_elem_of_In, list_elem_of_lookup_1 in Hin as [j Hj].
  destruct (Hcode1 j name xs Hj Hx) as (cat & Hcat & _ & Hc1).
  destruct (Hcode2 j name ys Hj Hy) as (cat' & Hcat' & _ & Hc2).
  rewrite Hcat in Hcat'. injection Hcat' as <-.
  exists (map (encode_value cat) xs), (map (encode_value cat) ys).
  split; [exact Hc1|]. split; [exact Hc2|].
  intros i k x Hi Hk. exists (encode_value cat x).
  rewrite !map_lookup, Hi, Hk. split; reflexivity.
Qed.

(** ** SMOTE on any number of classes *)

Lemma In_insert_label x c l : In x (insert_label c l) <-> x = c \/ In x l.
Proof.
  induction l as [|a rest IH]; simpl; [intuition|].
  destruct (Z.ltb_spec c a) as [Hlt|Hge]; [simpl; intuition|].
  destruct (Z.eqb_spec c a) as [->|Hne]; simpl; [intuition|].
  rewrite IH. intuition.
Qed.

Lemma In_classes_of x y : In x (classes_of y) <-> In x y.
Proof.
  induction y as [|a rest IH]; simpl; [reflexivity|].
  rewrite In_insert_label, IH. intuition.
Qed.

Lemma insert_label_sorted c l :
  StronglySorted Z.lt l -> StronglySorted Z.lt (insert_label c l).
Proof.
  induction 1 as [|a rest Hs IH Ha]; simpl; [repeat constructor|].
  destruct (Z.ltb_spec c a) as [Hlt|Hge].
  - constructor; [constructor; assumption|]. constructor; [exact Hlt|].
    eapply List.Forall_impl; [|exact Ha]. intros; cbv beta in *; lia.
  - destruct (Z.eqb_spec c a) as [->|Hne]; [constructor; assumption|].
    constructor; [exact IH|]. apply List.Forall_forall. intros x Hx.
    apply In_insert_label in Hx as [->|Hx]; [lia|].
    exact (proj1 (List.Forall_forall _ _) Ha x Hx).
Qed.

Lemma classes_of_sorted y : StronglySorted Z.lt (classes_of y).
Proof.
  induction y as [|a rest IH]; simpl; [constructor | apply insert_label_sorted, IH].
Qed.

Lemma sorted_NoDup l : StronglySorted Z.lt l -> List.NoDup l.
Proof.
  induction 1 as [|a rest Hs IH Ha]; constructor; [|exact IH].
  intros Hin. pose proof (proj1 (List.Forall_forall _ _) Ha a Hin). lia.
Qed.

Lemma count_label_absent y c : ~ In c y -> count_label y c = 0%nat.
Proof.
  induction y as [|a rest IH]; intros Hn; [reflexivity|].
  rewrite count_label_cons, IH by (intros H; apply Hn; right; exact H).
  destruct (Z.eqb_spec c a) as [->|_]; [|reflexivity]. exfalso. apply Hn. left. reflexivity.
Qed.

Lemma class_majority_max y cs :
  cs <> [] ->
  exists m, class_majority y cs = Some m /\ In m cs /\
            forall c, In c cs -> (count_label y c <= count_label y m)%nat.
Proof.
  induction cs as [|a rest IH]; intros Hne; [contradiction|]. simpl.
  destruct rest as [|b rest'].
  - simpl. exists a. split; [reflexivity|]. split; [left; reflexivity|].
    intros c [->|[]]. lia.
  - destruct IH as (m & -> & Hm & Hmax); [discriminate|].
    destruct (Nat.ltb_spec (count_label y a) (count_label y m)) as [Hlt|Hge].
    + exists m. split; [reflexivity|]. split; [right; exact Hm|].
      intros c [->|Hc]; [lia | apply Hmax, Hc].
    + exists a. split; [reflexivity|]. split; [left; reflexivity|].
      intros c [->|Hc]; [lia|]. specialize (Hmax c Hc). lia.
Qed.

Lemma count_label_topped_up (g : Z -> nat) cs c :
  List.NoDup cs ->
  count_label (flat_map (fun cn : Z * nat => repeat (fst cn) (snd cn))
                 (map (fun c => (c, g c)) cs)) c
  = if in_dec Z.eq_dec c cs then g c else 0%nat.
Proof.
  induction 1 as [|a rest Ha Hnd IH]; [reflexivity|].
  cbn [map flat_map fst snd]. rewrite count_label_app, count_label_repeat, IH.
  destruct (Z.eqb_spec c a) as [->|Hne].
  - destruct (in_dec Z.eq_dec a rest) as [Hin|_]; [contradiction|].
    destruct (in_dec Z.eq_dec a (a :: rest)) as [_|Hn]; [lia|].
    exfalso. apply Hn. left. reflexivity.
  - destruct (in_dec Z.eq_dec c rest) as [Hin|Hn];
      destruct (in_dec Z.eq_dec c (a :: rest)) as [Hin'|Hn']; try reflexivity.
    + exfalso. apply Hn'. right. exact Hin.
    + destruct Hin' as [->|Hin']; contradiction.
Qed.

Section SMOTE_rows.
Variable randint : Z -> nat -> nat -> nat -> nat.
Variable uniform : Z -> nat -> nat -> float64.
Variable kneighbors : list (list float64) -> nat -> list (list nat).

(** What [oversample] returns: for every class of the strategy, in turn,
    as many rows as the strategy asks, as many entries in every column. *)
Lemma oversample_shape seed Xf y strategy cols ls :
  oversample randint uniform kneighbors seed Xf y strategy = Ok (cols, ls) ->
  ls = flat_map (fun cn : Z * nat => repeat (fst cn) (snd cn)) strategy /\
  length cols = length Xf /\
  List.Forall (fun col => length col = length ls) cols.
Proof.
  revert cols ls. induction strategy as [|[c n] rest IH]; intros cols ls H.
  - cbn in H. injection H as <- <-. split; [reflexivity|]. split; [apply length_map|].
    apply List.Forall_forall. intros col Hc. apply in_map_iff in Hc as (? & <- & _). reflexivity.
  - cbn [oversample] in H.
    assert (Hnew : exists newc,
      match n with
      | O => Ok (map (fun _ => []) Xf, [])
      | S _ => oversample_class randint uniform kneighbors seed Xf y c n
      end = Ok (newc, repeat c n) /\ length newc = length Xf /\
      List.Forall (fun col => length col = n) newc).
    { destruct n as [|n].
      - eexists. split; [reflexivity|]. split; [apply length_map|].
        apply List.Forall_forall. intros col Hc. apply in_map_iff in Hc as (? & <- & _).
        reflexivity.
      - unfold oversample_class in H |- *. destruct (Nat.ltb _ _); [discriminate H|].
        eexists. split; [reflexivity|]. unfold make_samples.
        split; [rewrite !length_map; reflexivity|].
        apply List.Forall_forall. intros col Hc. apply in_map_iff in Hc as (? & <- & _).
        rewrite length_map, length_seq. reflexivity. }
    destruct Hnew as (newc & Enew & Hl & Hf). rewrite Enew in H.
    cbn [result_bind fst snd] in H.
    destruct (oversample randint uniform kneighbors seed Xf y rest) as [[mc ml]|] eqn:Er;
      [|discriminate H].
    cbn [result_bind fst snd] in H. injection H as <- <-.
    destruct (IH mc ml eq_refl) as (-> & Hl' & Hf'). cbn [flat_map fst snd].
    split; [reflexivity|]. split; [rewrite length_zip_with; lia|].
    apply List.Forall_forall. intros col Hc.
    apply list_elem_of_In, list_elem_of_lookup_1 in Hc as [j Hj].
    apply zip_with_lookup_inv in Hj as (a & b & Ha & Hb & ->).
    rewrite !length_app, repeat_length.
    rewrite (proj1 (List.Forall_forall _ _) Hf a), (proj1 (List.Forall_forall _ _) Hf' b);
      [reflexivity | |]; apply list_elem_of_In; eapply list_elem_of_lookup_2; eassumption.
Qed.

Lemma SMOTE_returns seed X labels r :
  SMOTE_fit_resample randint uniform kneighbors seed X (IntCol labels) = Ok r ->
  exists Xf newX new,
    frame_floats X = Ok Xf /\
    length labels = index X /\
    (1 < length (classes_of labels))%nat /\
    oversample randint uniform kneighbors seed Xf labels (sampling_strategy labels)
      = Ok (newX, new) /\
    r = (mkDataFrame (length (labels ++ new)%list)
           (zip_with (fun nc xs => (fst nc, restore_dtype (snd nc) xs))
              (columns X) (zip_with (@app float64) Xf newX)),
         IntCol (labels ++ new)%list).
Proof.
  unfold SMOTE_fit_resample. intros H.
  destruct (frame_floats X) as [Xf|] eqn:EX; [|discriminate H]. cbn [result_bind] in H.
  destruct (forallb all_finite Xf); [|discriminate H]. cbn [negb] in H.
  destruct (Nat.eqb_spec (length labels) (index X)) as [Hlen|]; [|discriminate H].
  cbn [negb] in H.
  destruct (Nat.leb_spec (length (classes_of labels)) 1) as [|Hc]; [discriminate H|].
  destruct (oversample _ _ _ _ _ _ _) as [[newX new]|] eqn:Eo; [|discriminate H].
  cbn [result_bind fst snd] in H. injection H as <-.
  exists Xf, newX, new. repeat split; try assumption.
Qed.

(** X16.  [SMOTE.fit_resample] only adds rows at the end.  What it returns has
    the columns of the table it was given, under the same names and in
    the same order; every float column starts with the rows it was given,
    in their order, and every label list with the labels it was given;
    the rows that follow are as many in every column as there are new
    labels. *)
Theorem smote_keeps_the_given_rows
    (seed : Z) (X X' : DataFrame) (labels : list Z) (y' : column) :
  SMOTE_fit_resample randint uniform kneighbors seed X (IntCol labels) = Ok (X', y') ->
  exists new,
    y' = IntCol (labels ++ new)%list /\
    index X' = (index X + length new)%nat /\
    map fst (columns X') = map fst (columns X) /\
    forall j n xs,
      columns X !! j = Some (n, FloatCol xs) ->
      exists extra,
        columns X' !! j = Some (n, FloatCol (xs ++ extra)%list) /\
        length extra = length new.
Proof.
  intros H. destruct (SMOTE_returns _ _ _ _ H) as (Xf & newX & new & HXf & Hlen & _ & Ho & E).
  injection E as -> ->. exists new. split; [reflexivity|]. cbn [index columns].
  split; [rewrite length_app; lia|].
  destruct (oversample_shape _ _ _ _ _ _ Ho) as (_ & Hl & Hf).
  pose proof (map_result_length _ _ _ HXf) as HlX.
  split.
  - apply list_eq. intros j. rewrite !map_lookup.
    destruct (columns X !! j) as [[n c]|] eqn:Ej.
    + destruct (lookup_lt_is_Some_2 Xf j) as [xs Hxs];
        [rewrite HlX; eapply lookup_lt_Some, Ej|].
      destruct (lookup_lt_is_Some_2 newX j) as [ex Hex];
        [rewrite Hl; eapply lookup_lt_Some, Hxs|].
      rewrite (zip_with_lookup (fun nc xs => (fst nc, restore_dtype (snd nc) xs))
                 (columns X) (zip_with (@app float64) Xf newX) j (n, c) (xs ++ ex)%list Ej
                 (zip_with_lookup (@app float64) Xf newX j xs ex Hxs Hex)). reflexivity.
    + destruct (zip_with _ (columns X) _ !! j) as [z|] eqn:Ez; [|reflexivity].
      apply zip_with_lookup_inv in Ez as (a & b & Ha & _). congruence.
  - intros j n xs Hj.
    destruct (map_result_lookup _ _ _ _ _ HXf Hj) as (xs' & Hxs & E). cbn in E.
    injection E as <-.
    destruct (lookup_lt_is_Some_2 newX j) as [ex Hex];
      [rewrite Hl; eapply lookup_lt_Some, Hxs|].
    exists ex. split.
    + rewrite (zip_with_lookup (fun nc xs => (fst nc, restore_dtype (snd nc) xs))
                 (columns X) (zip_with (@app float64) Xf newX) j (n, FloatCol xs) (xs ++ ex)%list Hj
                 (zip_with_lookup (@app float64) Xf newX j xs ex Hxs Hex)). reflexivity.
    + apply (proj1 (List.Forall_forall _ _) Hf ex). apply list_elem_of_In.
      eapply list_elem_of_lookup_2, Hex.
Qed.

(** X15.  With any number of classes, whenever [SMOTE.fit_resample] returns,
    every class of the labels it was given ends with as many rows as the
    largest class had; no row of the largest class is added and no label
    appears that was not there. *)
Theorem smote_levels_every_class
    (seed : Z) (X X' : DataFrame) (labels labels' : list Z) :
  SMOTE_fit_resample randint uniform kneighbors seed X (IntCol labels)
    = Ok (X', IntCol labels') ->
  exists cmaj new,
    class_majority labels (classes_of labels) = Some cmaj /\
    labels' = (labels ++ new)%list /\
    (forall c, count_label labels c <= count_label labels cmaj)%nat /\
    (forall c, In c labels -> count_label labels' c = count_label labels cmaj) /\
    (forall c, ~ In c labels -> count_label labels' c = 0%nat) /\
    count_label new cmaj = 0%nat.
Proof.
  intros H. destruct (SMOTE_returns _ _ _ _ H) as (Xf & newX & new & _ & _ & Hc & Ho & E).
  injection E as _ ->.
  destruct (class_majority_max labels (classes_of labels)) as (m & Em & Hm & Hmax).
  { destruct (classes_of labels); [simpl in Hc; lia | discriminate]. }
  exists m, new. split; [exact Em|]. split; [reflexivity|].
  destruct (oversample_shape _ _ _ _ _ _ Ho) as (Enew & _ & _).
  unfold sampling_strategy in Enew. rewrite Em in Enew.
  assert (Hnd : List.NoDup (List.filter (fun c => negb (c =? m)) (classes_of labels))).
  { apply List.NoDup_filter, sorted_NoDup, classes_of_sorted. }
  assert (Hcount : forall c, count_label new c =
            if in_dec Z.eq_dec c (List.filter (fun c => negb (c =? m)) (classes_of labels))
            then (count_label labels m - count_label labels c)%nat else 0%nat).
  { intros c. rewrite Enew.
    exact (count_label_topped_up (fun c => (count_label labels m - count_label labels c)%nat)
             _ c Hnd). }
  assert (Hle : forall c, (count_label labels c <= count_label labels m)%nat).
  { intros c. destruct (in_dec Z.eq_dec c labels) as [Hin|Hn].
    - apply Hmax, In_classes_of, Hin.
    - rewrite (count_label_absent _ _ Hn). lia. }
  split; [exact Hle|]. split; [|split].
  - intros c Hin. rewrite count_label_app, Hcount.
    destruct (in_dec Z.eq_dec c _) as [_|Hn]; [specialize (Hle c); lia|].
    destruct (Z.eqb_spec c m) as [->|Hne]; [lia|]. exfalso. apply Hn.
    apply List.filter_In. split; [apply In_classes_of, Hin|].
    apply negb_true_iff, Z.eqb_neq, Hne.
  - intros c Hn. rewrite count_label_app, Hcount, (count_label_absent _ _ Hn).
    destruct (in_dec Z.eq_dec c _) as [Hin|_]; [|reflexivity].
    apply List.filter_In in Hin as [Hin _]. apply (proj1 (In_classes_of _ _)) in Hin. contradiction.
  - rewrite Hcount. destruct (in_dec Z.eq_dec m _) as [Hin|_]; [|reflexivity].
    apply List.filter_In in Hin as [_ Hin]. rewrite Z.eqb_refl in Hin. discriminate Hin.
Qed.

(** X17.  With both classes present in unequal numbers and at most
    [k_neighbors] rows in the smaller one, [SMOTE.fit_resample] raises the
    neighbour search's [ValueError]: six rows is the least a class to be
    topped up may have. *)
Theorem smote_small_minority_raises
    (seed : Z) (X : DataFrame) (labels : list Z) (Xf : list (list float64)) :
  binary labels ->
  length labels = index X ->
  frame_floats X = Ok Xf ->
  forallb all_finite Xf = true ->
  (0 < count_label labels 0)%nat ->
  (0 < count_label labels 1)%nat ->
  count_label labels 0 <> count_label labels 1 ->
  (Nat.min (count_label labels 0) (count_label labels 1) <= k_neighbors)%nat ->
  SMOTE_fit_resample randint uniform kneighbors seed X (IntCol labels)
    = Raise (ValueError "Expected n_neighbors <= n_samples_fit").
Proof.
  intros Hb Hlen HXf Hfin H0 H1 Hne Hmin. unfold SMOTE_fit_resample.
  rewrite HXf. cbn [result_bind]. rewrite Hfin. cbn [negb].
  apply Nat.eqb_eq in Hlen. rewrite Hlen. cbn [negb].
  rewrite (classes_of_binary labels Hb).
  destruct (Nat.eqb_spec (count_label labels 0) 0) as [E|_]; [lia|].
  destruct (Nat.eqb_spec (count_label labels 1) 0) as [E|_]; [lia|].
  cbn [app length Nat.leb].
  rewrite (sampling_strategy_binary labels Hb H0 H1).
  destruct (Nat.ltb_spec (count_label labels 0) (count_label labels 1)) as [Hlt|Hge];
    cbn [oversample].
  - destruct (count_label labels 1 - count_label labels 0)%nat as [|n] eqn:En; [lia|].
    unfold oversample_class.
    destruct (Nat.ltb_spec (count_label labels 0) (S k_neighbors)) as [_|Hk]; [|lia].
    reflexivity.
  - destruct (count_label labels 0 - count_label labels 1)%nat as [|n] eqn:En; [lia|].
    unfold oversample_class.
    destruct (Nat.ltb_spec (count_label labels 1) (S k_neighbors)) as [_|Hk]; [|lia].
    reflexivity.
Qed.
End SMOTE_rows.

(** ** Runs that write to new objects only *)

Section New_only.
Variable n : nat.

Lemma new_ret {A} (a : A) : writes_new_only n (ret a) (fun x => x = a).
Proof.
  intros s r s' _ H. unfold ret in H. injection H as <- <-.
  repeat split; [lia | congruence].
Qed.

Lemma new_raise {A} e (Q : A -> Prop) : writes_new_only n (raise e) Q.
Proof.
  intros s r s' _ H. unfold raise in H. injection H as <- <-.
  repeat split; [lia | discriminate].
Qed.

Lemma new_lift {A} (r0 : result A) : writes_new_only n (lift r0) (fun x => r0 = Ok x).
Proof.
  intros s r s' _ H. unfold lift in H. injection H as <- <-.
  repeat split; [lia | auto].
Qed.

Lemma new_weaken {A} (m : M A) (Q R : A -> Prop) :
  writes_new_only n m Q -> (forall x, Q x -> R x) -> writes_new_only n m R.
Proof.
  intros Hm HQ s r s' Hn H. destruct (Hm s r s' Hn H) as (H1 & H2 & H3).
  repeat split; [exact H1 | exact H2 | intros x Hx; apply HQ, H3, Hx].
Qed.

Lemma new_bind {A B} (m : M A) (k : A -> M B) (Q : A -> Prop) (R : B -> Prop) :
  writes_new_only n m Q ->
  (forall x, Q x -> writes_new_only n (k x) R) ->
  writes_new_only n (bind m k) R.
Proof.
  intros Hm Hk s r s' Hn H. unfold bind in H.
  destruct (m s) as [[a|e] s1] eqn:Em.
  - destruct (Hm s _ _ Hn Em) as (H1 & H2 & H3).
    destruct (Hk a (H3 a eq_refl) s1 r s' ltac:(lia) H) as (K1 & K2 & K3).
    split; [lia|]. split; [|exact K3]. intros l Hl. rewrite K2, H2 by exact Hl. reflexivity.
  - injection H as <- <-. destruct (Hm s _ _ Hn Em) as (H1 & H2 & _).
    split; [exact H1|]. split; [exact H2 | discriminate].
Qed.

Lemma new_read l : writes_new_only n (read l) (fun _ => True).
Proof.
  intros s r s' _ H. unfold read in H.
  destruct (heap s !! l); injection H as <- <-; repeat split; lia.
Qed.

Lemma new_journal c : writes_new_only n (journal c) (fun _ => True).
Proof.
  intros s r s' _ H. unfold journal in H. injection H as <- <-. cbn [heap].
  repeat split; lia.
Qed.

Lemma new_alloc o : writes_new_only n (alloc o) (fun l => (n <= l)%nat).
Proof.
  intros s r s' Hn H. unfold alloc in H. injection H as <- <-. cbn [heap].
  split; [rewrite length_app; lia|]. split.
  - intros l Hl. apply lookup_app_l. lia.
  - intros x E. injection E as <-. exact Hn.
Qed.

Lemma new_write l o : (n <= l)%nat -> writes_new_only n (write l o) (fun _ => True).
Proof.
  intros Hl s r s' _ H. unfold write in H. injection H as <- <-. cbn [heap].
  split; [rewrite length_insert; lia|]. split; [|auto].
  intros l' Hl'. apply list_lookup_insert_ne. lia.
Qed.

Lemma new_read_frame l : writes_new_only n (read_frame l) (fun _ => True).
Proof.
  unfold read_frame. eapply new_bind; [apply new_read|]. intros [f| | |] _.
  - eapply new_weaken; [apply new_ret | auto].
  - apply new_raise.
  - apply new_raise.
  - apply new_raise.
Qed.

Lemma new_getitem l name : writes_new_only n (getitem l name) (fun _ => True).
Proof.
  unfold getitem. eapply new_bind; [apply new_read_frame|]. intros f _.
  destruct (col_lookup name (columns f)).
  - eapply new_weaken; [apply new_ret | auto].
  - apply new_raise.
Qed.

Lemma new_getitems l names : writes_new_only n (getitems l names) (fun _ => True).
Proof.
  induction names as [|a rest IH]; cbn [getitems].
  - eapply new_weaken; [apply new_ret | auto].
  - eapply new_bind; [apply new_getitem|]. intros c _.
    eapply new_bind; [exact IH|]. intros cs _.
    eapply new_weaken; [apply new_ret | auto].
Qed.

Lemma new_setitem l name c :
  (n <= l)%nat -> writes_new_only n (setitem l name c) (fun _ => True).
Proof.
  intros Hl. unfold setitem. eapply new_bind; [apply new_read_frame|]. intros f _.
  destruct (Nat.eqb _ _); [apply new_write, Hl | apply new_raise].
Qed.

Lemma new_setitems l names cols :
  (n <= l)%nat -> writes_new_only n (setitems l names cols) (fun _ => True).
Proof.
  intros Hl. revert cols. induction names as [|a rest IH]; intros [|c cs]; cbn [setitems].
  - eapply new_weaken; [apply new_ret | auto].
  - apply new_raise.
  - apply new_raise.
  - eapply new_bind; [apply new_setitem, Hl|]. intros _ _. apply IH.
Qed.

Lemma new_drop l names : writes_new_only n (drop l names) (fun l' => (n <= l')%nat).
Proof.
  unfold drop. eapply new_bind; [apply new_read_frame|]. intros f _.
  eapply new_bind; [apply new_lift|]. intros f' _. apply new_alloc.
Qed.
End New_only.

Section Cell9.
Variable randint : Z -> nat -> nat -> nat -> nat.
Variable uniform : Z -> nat -> nat -> float64.
Variable kneighbors : list (list float64) -> nat -> list (list nat).
Variable split_rows : float64 -> Z -> list Z -> result (list nat * list nat).
Variable mean_and_scale : list float64 -> float64 * float64.

Lemma new_scaler_fit_transform n sc X :
  (n <= sc)%nat ->
  writes_new_only n (StandardScaler_fit_transform mean_and_scale sc X) (fun _ => True).
Proof.
  intros Hsc. unfold StandardScaler_fit_transform.
  eapply new_bind; [apply new_read|]. intros [f|c|st|d] _; try apply new_raise.
  eapply new_bind; [apply new_journal|]. intros _ _.
  eapply new_bind; [apply new_lift|]. intros cols _.
  eapply new_bind; [apply new_write, Hsc|]. intros _ _.
  eapply new_weaken; [apply new_ret | auto].
Qed.

Lemma new_scaler_transform n sc X :
  writes_new_only n (StandardScaler_transform sc X) (fun _ => True).
Proof.
  unfold StandardScaler_transform.
  eapply new_bind; [apply new_read|]. intros [f|c|st|d] _; try apply new_raise.
  eapply new_bind; [apply new_journal|]. intros _ _.
  destruct st as [stats|]; [|apply new_raise].
  eapply new_bind; [apply new_lift|]. intros cols _.
  destruct (Nat.eqb _ _); [|apply new_raise].
  eapply new_weaken; [apply new_ret | auto].
Qed.

Lemma new_cell9 n train test :
  writes_new_only n
    (cell9 randint uniform kneighbors split_rows mean_and_scale train test)
    (fun r => let '(X_train, X_val, _, _, X_test_submission, scaler) := r in
              (n <= X_train)%nat /\ (n <= X_val)%nat /\
              (n <= X_test_submission)%nat /\ (n <= scaler)%nat).
Proof.
  unfold cell9.
  eapply new_bind; [apply new_drop|]. intros X HX.
  eapply new_bind; [apply new_getitem|]. intros y _.
  eapply new_bind; [apply new_drop|]. intros X_test_submission Hsub.
  eapply new_bind; [apply new_read_frame|]. intros Xf _.
  eapply new_bind; [apply new_lift|]. intros [X_smote y_smote] _.
  eapply new_bind; [apply new_lift|]. intros labels _.
  eapply new_bind; [apply new_lift|]. intros [rows_train rows_val] _.
  eapply new_bind; [apply new_alloc|]. intros X_train Htr.
  eapply new_bind; [apply new_alloc|]. intros X_val Hval.
  eapply new_bind; [apply new_alloc|]. intros scaler Hsc.
  eapply new_bind; [apply new_getitems|]. intros A _.
  eapply new_bind; [apply new_scaler_fit_transform, Hsc|]. intros A' _.
  eapply new_bind; [apply new_setitems, Htr|]. intros _ _.
  eapply new_bind; [apply new_getitems|]. intros B _.
  eapply new_bind; [apply new_scaler_transform|]. intros B' _.
  eapply new_bind; [apply new_setitems, Hval|]. intros _ _.
  eapply new_bind; [apply new_getitems|]. intros C _.
  eapply new_bind; [apply new_scaler_transform|]. intros C' _.
  eapply new_bind; [apply new_setitems, Hsub|]. intros _ _.
  eapply new_weaken; [apply new_ret|]. intros r ->. auto.
Qed.

(** X18.  Cell 9 works on copies.  Whether it returns or raises, and wherever
    it raises, every object that was there before it ran -- the train and
    the test table among them -- is as it was; the two parts of the
    resampled table, the test features and the scaler it returns are
    objects that were not there before. *)
Theorem cell9_keeps_existing_objects
    (train test : loc) (s s' : store)
    (r : result (loc * loc * list Z * list Z * loc * loc)) :
  cell9 randint uniform kneighbors split_rows mean_and_scale train test s = (r, s') ->
  (forall l o, heap s !! l = Some o -> heap s' !! l = Some o) /\
  (forall X_train X_val y_train y_val X_test_submission scaler,
     r = Ok (X_train, X_val, y_train, y_val, X_test_submission, scaler) ->
     heap s !! X_train = None /\ heap s !! X_val = None /\
     heap s !! X_test_submission = None /\ heap s !! scaler = None).
Proof.
  intros H.
  destruct (new_cell9 (length (heap s)) train test s r s' (le_n _) H) as (_ & Hkeep & Hnew).
  split.
  - intros l o Hl. rewrite Hkeep; [exact Hl | eapply lookup_lt_Some, Hl].
  - intros X_train X_val y_train y_val X_sub scaler E.
    destruct (Hnew _ E) as (H1 & H2 & H3 & H4).
    repeat split; apply lookup_ge_None_2; assumption.
Qed.
End Cell9.

(** ** Cell 15 on tables that do not fit *)

Section Cell15.
Variable classifier : Type.
Variable gbc_check : classifier -> DataFrame -> result unit.
Variable gbc_predict_row : classifier -> list column -> nat -> Z.

(** X21.  When the features handed to cell 15 have another number of rows than
    the test table, the assignment of the predictions raises pandas'
    [ValueError] and nothing has been written. *)
Theorem cell15_row_mismatch_raises
    (model : classifier) (test X_test_submission : loc) (s : store)
    (ft fX : DataFrame) :
  frame_at s test ft ->
  frame_at s X_test_submission fX ->
  gbc_check model fX = Ok tt ->
  index fX <> index ft ->
  cell15 classifier gbc_check gbc_predict_row model test X_test_submission s =
    (Raise (ValueError "Length of values does not match length of index"), s).
Proof.
  intros Ht HX Hc Hi. unfold cell15.
  rewrite bind_eq, (predict_at _ gbc_check gbc_predict_row _ _ _ _ HX), Hc.
  rewrite (bind_setitem _ _ _ _ _ _ Ht). cbn [col_length].
  rewrite length_map, length_seq.
  destruct (Nat.eqb_spec (index fX) (index ft)) as [E|_]; [contradiction | reflexivity].
Qed.

(** X20.  Cell 15 writes into the test table.  On a run that returns, the test
    table has gained the column [is_fraud] holding the predictions (or had
    it replaced), every other column and every other object is as it was,
    and no estimator call has been journalled. *)
Theorem cell15_leaves_predictions_in_test
    (model : classifier) (test X_test_submission : loc) (s s' : store)
    (ft fX submission : DataFrame) :
  frame_at s test ft ->
  frame_at s X_test_submission fX ->
  cell15 classifier gbc_check gbc_predict_row model test X_test_submission s =
    (Ok submission, s') ->
  let y_test_pred := map (gbc_predict_row model (map snd (columns fX))) (seq 0 (index fX)) in
  s' = set_obj s test
         (PyDataFrame (mkDataFrame (index ft)
                         (col_set "is_fraud" (IntCol y_test_pred) (columns ft)))) /\
  col_lookup "is_fraud" (columns submission) = Some (IntCol y_test_pred) /\
  col_lookup "id" (columns submission) = col_lookup "id" (columns ft) /\
  index fX = index ft.
Proof.
  intros Ht HX H. cbv zeta. unfold cell15 in H.
  rewrite bind_eq, (predict_at _ gbc_check gbc_predict_row _ _ _ _ HX) in H.
  destruct (gbc_check model fX) as [[]|]; [|discriminate H].
  rewrite (bind_setitem _ _ _ _ _ _ Ht) in H. cbn [col_length] in H.
  rewrite length_map, length_seq in H.
  destruct (Nat.eqb_spec (index fX) (index ft)) as [Hi|_]; [|discriminate H].
  rewrite bind_eq, (getitems_at _ _ _ _ (frame_at_set_obj _ _ _ _ Ht)) in H.
  cbn [get_columns columns] in H.
  rewrite col_lookup_set_other in H by reflexivity.
  rewrite col_lookup_set_same in H.
  destruct (col_lookup "id" (columns ft)) as [ids|] eqn:Eid; [|discriminate H].
  rewrite bind_eq, (read_frame_at _ _ _ (frame_at_set_obj _ _ _ _ Ht)) in H.
  unfold ret in H. injection H as <- <-.
  split; [reflexivity|]. split; [reflexivity|]. split; [reflexivity | exact Hi].
Qed.

(** X22.  A test table without an [id] column makes cell 15 raise
    [KeyError('id')] -- after the predictions have been written into the
    table. *)
Theorem cell15_missing_id_raises_after_writing
    (model : classifier) (test X_test_submission : loc) (s : store)
    (ft fX : DataFrame) :
  frame_at s test ft ->
  frame_at s X_test_submission fX ->
  gbc_check model fX = Ok tt ->
  index fX = index ft ->
  col_lookup "id" (columns ft) = None ->
  cell15 classifier gbc_check gbc_predict_row model test X_test_submission s =
    (Raise (KeyError "id"),
     set_obj s test
       (PyDataFrame (mkDataFrame (index ft)
          (col_set "is_fraud"
             (IntCol (map (gbc_predict_row model (map snd (columns fX))) (seq 0 (index fX))))
             (columns ft))))).
Proof.
  intros Ht HX Hc Hi Hid. unfold cell15.
  rewrite bind_eq, (predict_at _ gbc_check gbc_predict_row _ _ _ _ HX), Hc.
  rewrite (bind_setitem _ _ _ _ _ _ Ht). cbn [col_length].
  rewrite length_map, length_seq, Hi, Nat.eqb_refl.
  rewrite bind_eq, (getitems_at _ _ _ _ (frame_at_set_obj _ _ _ _ Ht)).
  cbn [get_columns columns].
  rewrite col_lookup_set_other by reflexivity. rewrite Hid. reflexivity.
Qed.
End Cell15.

End Further_properties.

(** ** Further examples *)

Section Further_examples.
#[local] Existing Instance to_datetime0.

Lemma example_train_wf : frame_wf example_train.
Proof. unfold frame_wf, example_train. cbn [columns index]. repeat constructor. Qed.

Lemma example_fit_returns v : example_fit v = (Ok (0%nat, Some 2%nat), snd (example_fit v)).
Proof. destruct v; vm_compute; reflexivity. Qed.

(** The example under pandas 2: the run raises. *)
Lemma notebook_raises_under_pandas_2_witness :
  is_ok (fst (example_notebook pandas_2 2024)) = false.
Proof.
  apply (notebook_raises_under_pandas_2 randint0 uniform0 kneighbors0 split_rows0
           mean_and_scale0 unit gbc_fit0 gbc_check0 gbc_predict_row0 2024 2024
           0%nat 1%nat example_store example_train example_test);
    [reflexivity | reflexivity | discriminate].
Defined.

(** The ten rows under pandas 1 in 2024: one row, the [id] 20 and its
    label. *)
Lemma notebook_submission_witness :
  exists out s' ids y_test_pred,
    example_notebook10 2024 2024 = (Ok out, s') /\
    col_lookup "id" (columns example_test10) = Some ids /\
    out_submission out = mkDataFrame 1 [("id", ids); ("is_fraud", IntCol y_test_pred)] /\
    length y_test_pred = 1%nat.
Proof.
  destruct (example_notebook10 2024 2024) as [[out|e] s'] eqn:E.
  - destruct (notebook_submission randint0 uniform0 kneighbors0 split_rows10
                mean_and_std nat gbc_fit_stump gbc_check_stump gbc_predict_stump
                pandas_1 2024 2024
                0%nat 1%nat example_store10 s' example_train10 example_test10 out
                eq_refl eq_refl ltac:(discriminate) E) as (ids & y & H1 & H2 & H3).
    exists out, s', ids, y. repeat split; assumption.
  - exfalso.
    assert (H : is_ok (fst (example_notebook10 2024 2024)) = true) by (vm_compute; reflexivity).
    rewrite E in H. discriminate H.
Defined.

(** The second row of the example train table is the second of its card:
    under pandas 1 its [trans_count] is 2. *)
Lemma trans_count_is_capped_position_witness :
  exists f' tc,
    frame_at (snd (example_fit pandas_1)) 0%nat f' /\
    col_lookup "trans_count" (columns f') = Some (FloatCol tc) /\
    tc !! 1%nat = Some (F64.of_int 2).
Proof.
  destruct (trans_count_is_capped_position 2024 0%nat None true example_store
              (snd (example_fit pandas_1)) (0%nat, Some 2%nat) example_train
              [4321; 4321] [1704067218; 1704203100]
              eq_refl example_train_wf eq_refl eq_refl (example_fit_returns pandas_1))
    as (f' & tc & Hf & Hc & _ & Hall).
  exists f', tc. split; [exact Hf|]. split; [exact Hc|]. exact (Hall 1%nat 4321 eq_refl).
Defined.

(** Under pandas 2 it is NaN. *)
Lemma trans_count_is_nan_or_three_witness :
  exists f' tc,
    frame_at (snd (example_fit pandas_2)) 0%nat f' /\
    col_lookup "trans_count" (columns f') = Some (FloatCol tc) /\
    tc !! 1%nat = Some F64.nan.
Proof.
  destruct (trans_count_is_nan_or_three 2024 0%nat None true example_store
              (snd (example_fit pandas_2)) (0%nat, Some 2%nat) example_train
              [4321; 4321] [1704067218; 1704203100]
              eq_refl example_train_wf eq_refl eq_refl (example_fit_returns pandas_2))
    as (f' & tc & Hf & Hc & _ & Hall).
  exists f', tc. split; [exact Hf|]. split; [exact Hc|]. exact (Hall 1%nat 4321 eq_refl).
Defined.

(** The distances of the example train table. *)
Lemma distance_never_negative_witness :
  exists f' distance,
    frame_at (snd (example_fit pandas_1)) 0%nat f' /\
    col_lookup "distance" (columns f') = Some (FloatCol distance) /\
    length distance = 2%nat /\
    forall i d, distance !! i = Some d -> never_negative d = true.
Proof.
  exact (distance_never_negative pandas_1 2024 0%nat None true example_store
           (snd (example_fit pandas_1)) (0%nat, Some 2%nat) example_train
           [F64.of_int 48; F64.of_int 48] [F64.of_int 45; F64.of_int 48]
           [F64.of_int (-118); F64.of_int (-118)] [F64.of_int (-114); F64.of_int (-118)]
           eq_refl eq_refl eq_refl eq_refl eq_refl (example_fit_returns pandas_1)).
Defined.

(** The encoder of the example: the dictionary at 2, the encoder at 3. *)
Lemma fitted_codes_decode_witness :
  exists cats f' codes,
    heap (snd (example_fit pandas_1)) !! 2%nat = Some (PyDict [("ordinal_encoder", 3%nat)]) /\
    heap (snd (example_fit pandas_1)) !! 3%nat = Some (PyOrdinalEncoder (Some cats)) /\
    frame_at (snd (example_fit pandas_1)) 0%nat f' /\
    col_lookup "merchant" (columns f') = Some (FloatCol codes) /\
    length codes = 2%nat.
Proof.
  destruct (fitted_codes_decode pandas_1 2024 0%nat None example_store
              (snd (example_fit pandas_1)) (0%nat, Some 2%nat) example_train
              eq_refl (example_fit_returns pandas_1))
    as (d & e & cats & f' & Hr & Hd & He & Hf & Hall).
  cbn [snd] in Hr. injection Hr as <-.
  destruct (Hall 5%nat "merchant" ["fraud_Kirlin"; "fraud_Sporer"] eq_refl eq_refl)
    as (cat & codes & _ & Hc & Hl & _).
  assert (Ee : e = 3%nat).
  { pose proof Hd as Hd'. vm_compute in Hd'. injection Hd' as <-. reflexivity. }
  subst e. exists cats, f', codes. repeat split; assumption.
Defined.

(** Cell 7 on the two example tables. *)
Lemma codes_agree_witness :
  exists ftrain' ftest',
    frame_at (snd (cell7 pandas_1 2024 2024 0%nat 1%nat example_store)) 0%nat ftrain' /\
    frame_at (snd (cell7 pandas_1 2024 2024 0%nat 1%nat example_store)) 1%nat ftest' /\
    exists cx cy code,
      col_lookup "category" (columns ftrain') = Some (FloatCol cx) /\
      col_lookup "category" (columns ftest') = Some (FloatCol cy) /\
      cx !! 1%nat = Some code /\ cy !! 0%nat = Some code.
Proof.
  destruct (codes_agree_between_train_and_test pandas_1 2024 2024 0%nat 1%nat example_store
              (snd (cell7 pandas_1 2024 2024 0%nat 1%nat example_store))
              example_train example_test (0%nat, Some 2%nat, 1%nat)
              eq_refl eq_refl ltac:(discriminate) ltac:(vm_compute; reflexivity))
    as (ftrain' & ftest' & H1 & H2 & Hall).
  exists ftrain', ftest'. split; [exact H1|]. split; [exact H2|].
  destruct (Hall "category" ["grocery_pos"; "misc_net"] ["misc_net"]
              ltac:(left; reflexivity) eq_refl eq_refl) as (cx & cy & Hx & Hy & Hsame).
  destruct (Hsame 1%nat 0%nat "misc_net" eq_refl eq_refl) as (code & Hcx & Hcy).
  exists cx, cy, code. repeat split; assumption.
Defined.

(** The table the fitting call leaves at 0. *)
Lemma feature_engineering_schema_witness :
  exists f',
    frame_at (snd (example_fit pandas_1)) 0%nat f' /\
    index f' = 2%nat /\
    frame_wf f' /\
    col_lookup "trans_time" (columns f') = None /\
    col_lookup "id" (columns f') = Some (IntCol [10; 11]).
Proof.
  destruct (feature_engineering_schema pandas_1 2024 0%nat None true example_store
              (snd (example_fit pandas_1)) (0%nat, Some 2%nat) example_train
              eq_refl example_train_wf (example_fit_returns pandas_1))
    as (f' & Hf & Hi & Hwf & Hgone & _ & Hkept).
  exists f'. split; [exact Hf|]. split; [exact Hi|]. split; [exact Hwf|].
  split; [apply Hgone; cbv; tauto|].
  rewrite Hkept; [reflexivity|]. cbv. intuition discriminate.
Defined.

(** Cell 7 run twice: the second fitting call on the train table. *)
Lemma second_call_raises_witness :
  feature_engineering pandas_1 2024 0%nat None true (snd (example_fit pandas_1)) =
    (Raise (KeyError "trans_time"), snd (example_fit pandas_1)).
Proof.
  exact (second_call_raises pandas_1 2024 0%nat None true example_store
           (snd (example_fit pandas_1)) (0%nat, Some 2%nat) example_train
           pandas_1 2024 None true eq_refl (example_fit_returns pandas_1)).
Defined.

(** [feature_engineering(train)] on the example. *)
Lemma default_call_raises_witness :
  exists f1,
    derived pandas_1 2024 example_train f1 /\
    feature_engineering pandas_1 2024 0%nat None false example_store =
      (Raise (TypeError "'NoneType' object is not subscriptable"),
       set_obj example_store 0%nat (PyDataFrame f1)).
Proof.
  exact (default_call_raises_after_writing pandas_1 2024 0%nat example_store
           (snd (example_fit pandas_1)) (0%nat, Some 2%nat) example_train
           eq_refl (example_fit_returns pandas_1)).
Defined.

(** The example train table with its columns and none of its rows. *)
Lemma empty_table_raises_witness :
  exists e s',
    feature_engineering pandas_1 2024 0%nat None true
      (mkStore [PyDataFrame (frame_iloc [] example_train)] []) = (Raise e, s').
Proof.
  exact (empty_table_raises pandas_1 2024 0%nat None true
           (mkStore [PyDataFrame (frame_iloc [] example_train)] [])
           (frame_iloc [] example_train) eq_refl eq_refl).
Defined.

(** Seven rows of class 0 and six of class 1: the thirteen rows given come
    first, one row follows. *)
Lemma smote_keeps_the_given_rows_witness :
  exists X' new extra,
    SMOTE_fit_resample randint0 uniform0 kneighbors0 42
      (example_features (F64.of_int 5)) (IntCol example_labels)
      = Ok (X', IntCol (example_labels ++ new)%list) /\
    index X' = (13 + length new)%nat /\
    columns X' !! 0%nat =
      Some ("amt", FloatCol ((repeat (F64.of_int 3) 12 ++ [F64.of_int 5]) ++ extra)%list) /\
    length extra = length new.
Proof.
  destruct (SMOTE_fit_resample randint0 uniform0 kneighbors0 42
              (example_features (F64.of_int 5)) (IntCol example_labels))
    as [[X' y']|e] eqn:E; [|vm_compute in E; discriminate E].
  destruct (smote_keeps_the_given_rows randint0 uniform0 kneighbors0 42
              (example_features (F64.of_int 5)) X' example_labels y' E)
    as (new & -> & Hi & _ & Hall).
  destruct (Hall 0%nat "amt" (repeat (F64.of_int 3) 12 ++ [F64.of_int 5])%list eq_refl)
    as (extra & Hc & Hl).
  exists X', new, extra. repeat split; assumption.
Defined.

(** The same labels: both classes end with seven rows. *)
Lemma smote_levels_every_class_witness :
  exists X' labels',
    SMOTE_fit_resample randint0 uniform0 kneighbors0 42
      (example_features (F64.of_int 5)) (IntCol example_labels)
      = Ok (X', IntCol labels') /\
    count_label labels' 0 = 7%nat /\
    count_label labels' 1 = 7%nat.
Proof.
  destruct (SMOTE_fit_resample randint0 uniform0 kneighbors0 42
              (example_features (F64.of_int 5)) (IntCol example_labels))
    as [[X' [labels'| |]]|e] eqn:E; try (vm_compute in E; discriminate E).
  destruct (smote_levels_every_class randint0 uniform0 kneighbors0 42
              (example_features (F64.of_int 5)) X' example_labels labels' E)
    as (cmaj & new & Hm & _ & _ & Hall & _).
  vm_compute in Hm. injection Hm as <-.
  exists X', labels'. split; [reflexivity|]. split.
  - rewrite (Hall 0); [reflexivity | left; reflexivity].
  - rewrite (Hall 1); [reflexivity | unfold example_labels; cbn; tauto].
Defined.

(** Seven rows of class 0 and two of class 1. *)
Lemma smote_small_minority_raises_witness :
  SMOTE_fit_resample randint0 uniform0 kneighbors0 42
    (mkDataFrame 9 [("amt", FloatCol (repeat (F64.of_int 3) 9))])
    (IntCol (repeat 0 7 ++ repeat 1 2)%list)
  = Raise (ValueError "Expected n_neighbors <= n_samples_fit").
Proof.
  apply (smote_small_minority_raises randint0 uniform0 kneighbors0 42
           (mkDataFrame 9 [("amt", FloatCol (repeat (F64.of_int 3) 9))])
           (repeat 0 7 ++ repeat 1 2)%list [repeat (F64.of_int 3) 9]).
  - unfold binary. cbn [repeat app].
    repeat (constructor; [first [left; reflexivity | right; reflexivity]|]).
    constructor.
  - reflexivity.
  - reflexivity.
  - vm_compute. reflexivity.
  - vm_compute. lia.
  - vm_compute. lia.
  - vm_compute. discriminate.
  - vm_compute. lia.
Defined.

(** Cell 9 after cell 7 on the example: the train table stays. *)
Lemma cell9_keeps_existing_objects_witness :
  exists f,
    frame_at (snd (cell7 pandas_1 2024 2024 0%nat 1%nat example_store)) 0%nat f /\
    frame_at (snd (cell9 randint0 uniform0 kneighbors0 split_rows0 mean_and_scale0 0%nat 1%nat
                     (snd (cell7 pandas_1 2024 2024 0%nat 1%nat example_store)))) 0%nat f.
Proof.
  unfold frame_at.
  destruct (heap (snd (cell7 pandas_1 2024 2024 0%nat 1%nat example_store)) !! 0%nat)
    as [[f| | |]|] eqn:E; try (vm_compute in E; discriminate E).
  exists f. split; [reflexivity|].
  exact (proj1 (cell9_keeps_existing_objects randint0 uniform0 kneighbors0 split_rows0
                  mean_and_scale0 0%nat 1%nat
                  (snd (cell7 pandas_1 2024 2024 0%nat 1%nat example_store)) _ _
                  (surjective_pairing _)) 0%nat _ E).
Defined.

(** The predictions for the two rows of the example train table do not
    fit the one row of the example test table. *)
Lemma cell15_row_mismatch_witness :
  cell15 unit gbc_check0 gbc_predict_row0 tt 1%nat 0%nat example_store =
    (Raise (ValueError "Length of values does not match length of index"), example_store).
Proof.
  apply (cell15_row_mismatch_raises unit gbc_check0 gbc_predict_row0 tt 1%nat 0%nat
           example_store example_test example_train);
    [reflexivity | reflexivity | reflexivity | discriminate].
Defined.

(** Cell 15 on the example test table: the label 0 lands in the table. *)
Lemma cell15_leaves_predictions_witness :
  exists submission,
    cell15 unit gbc_check0 gbc_predict_row0 tt 1%nat 2%nat example_store_cell15 =
      (Ok submission,
       set_obj example_store_cell15 1%nat
         (PyDataFrame (mkDataFrame 1 (col_set "is_fraud" (IntCol [0])
                                        (columns example_test))))) /\
    col_lookup "is_fraud" (columns submission) = Some (IntCol [0]).
Proof.
  destruct (cell15 unit gbc_check0 gbc_predict_row0 tt 1%nat 2%nat example_store_cell15)
    as [[submission|e] s'] eqn:E; [|vm_compute in E; discriminate E].
  destruct (cell15_leaves_predictions_in_test unit gbc_check0 gbc_predict_row0 tt
              1%nat 2%nat example_store_cell15 s' example_test example_X_test_submission
              submission eq_refl eq_refl E) as (-> & Hc & _).
  exists submission. split; [reflexivity | exact Hc].
Defined.

(** Cell 15 with the table that has lost its [id] in the place of the test
    table. *)
Lemma cell15_missing_id_witness :
  cell15 unit gbc_check0 gbc_predict_row0 tt 2%nat 2%nat example_store_cell15 =
    (Raise (KeyError "id"),
     set_obj example_store_cell15 2%nat
       (PyDataFrame (mkDataFrame 1 (col_set "is_fraud" (IntCol [0])
                                      (columns example_X_test_submission))))).
Proof.
  apply (cell15_missing_id_raises_after_writing unit gbc_check0 gbc_predict_row0 tt
           2%nat 2%nat example_store_cell15
           example_X_test_submission example_X_test_submission);
    reflexivity.
Defined.

(** 2024 is a leap year: 1 March follows 29 February. *)
Lemma dayofweek_witness :
  dayofweek 2024 3 1 = (dayofweek 2024 2 29 + 1) mod 7.
Proof.
  exact (proj1 (proj2 (proj2 (proj2 (dayofweek_follows_the_calendar 2024 2 29
                                       ltac:(lia)))))
           ltac:(lia)).
Defined.

End Further_examples.
